(* ===== verification/_CoqProject ===== *)
-Q . S2P
Prelude.v
Js.v
Express.v
Listing.v
Auth.v
Controller.v
App.v
Routes.v
Startup.v
Server.v
CreateListingForm.v
FormProgress.v
Submission.v
ClientViews.v
