(* ===== verification/Prelude.v ===== *)
(** * A verification development for the mern-estate listing application

    The repository is an Express + React application.  Its parts, and how
    they interact:

    - [src/api/index.js]: the Express application.  It mounts, in this
      order, [express.json()], [cookieParser()], the admin router on
      [/api/admin], the user and auth routers, the listing router on
      [/api/listing], [express.static] on [client/dist], a catch-all
      [GET *] that serves [index.html], and a global error handler that
      turns [next(err)] into a JSON envelope
      [{success:false, statusCode, message}].
    - [src/api/utils/verifyUser.js]: [verifyToken], the authorization gate:
      it reads the [access_token] cookie, answers 401 when it is absent, 403
      when it differs from one hard-coded token, and otherwise binds the
      principal [{id:"admin", role:"admin"}] to [req.user].
    - [src/api/routes/listing.route.js] and [admin.route.js]: the routers.
      The listing router puts [verifyToken] in front of create, delete and
      update; the admin router calls [getListings] and [deleteListing]
      with no gate at all.
    - the listing controller ([api/controllers/listing.controller.js]) and
      [utils/error.js] are not under [src/]: they are modelled from the
      specification (sections 4.2, 4.3 and 7) and marked spec_modelled in
      the manifest.
    - [src/client/src/pages/CreateListing.jsx]: the form.  Its React state
      ([files], [formData], [imageUploadError], [uploading], [error],
      [loading]) is a record; its handlers ([handleImageSubmit],
      [handleRemoveImage], [handleChange], the type toggle,
      [handleSubmit]) are steps of a state machine whose asynchronous
      halves (upload completion, fetch completion) are separate steps that
      carry the closure's snapshot of [formData].
    - [src/client/src/pages/AdminDashboard.jsx],
      [src/client/src/components/PrivateRoute.jsx] and
      [src/client/src/utils/api.js]: the admin page, the route guard and
      the client API helpers.

    Files of the development, in dependency order:

    - [Prelude] (this file): the [web_scope] notation [l .[ k ]] for
      first-match lookup in an association list (cookies, query strings and
      JSON objects), the [webapp] hint databases, the tactics and the
      generic list lemmas the components share.
    - [Js]: the JavaScript semantics the code relies on: numbers with
      [NaN], [<] on numbers, truthiness and [||] on strings, [parseInt] and
      [String(n)] with their round trip, JSON values with property access,
      template strings, [Array.prototype.filter] with an index.
    - [Express]: the library semantics the application runs in: requests,
      responses, handlers returning [next()], [next(err)] or a response,
      routers with path patterns, mounting, error-handling middleware, the
      final 404 handler; [errorHandler] of [utils/error.js]; and the lemma
      that a stack whose layers keep a store invariant keeps it.
    - [Listing]: the data model (listing, draft, JSON encoding and
      decoding), the validation of specification 4.2 and the store (a
      [gmap string listing] with an id counter and a clock, standing for
      MongoDB), with its well-formedness [db_wf].
    - [Auth]: [verifyToken], with the [Gate] class it is an instance of;
      the lemmas on gated routes are proved against the class.
    - [Controller]: create, read one, read many, update and delete, with
      the failure taxonomy of section 7 and the lemmas on each branch.
    - [App]: the stack of [index.js] with its two routers, and the
      end-to-end theorems on requests as they reach the server.
    - [Startup]: the rest of [index.js]: [mongoose.connect], whose outcome
      is only logged, and [app.listen(PORT)]; the server a failed
      connection leaves running.
    - [Server]: the listening process over time, as a labelled step
      relation: requests served one after the other by [App.app] on the
      shared store, the connection dropping and the driver reconnecting
      (only after a successful first connect), and a write whose
      acknowledgement the dropped connection lost; runs as lists of these
      events.
    - [Routes]: the route table of specification section 6 as an
      inductive relation, the answer it prescribes (the gate of section
      4.1 in front of the row's operation), and the envelope of section
      4.3; the listing router refines the table.
    - [CreateListingForm] (Module [CreateListing]): the form's state,
      handlers, view and step relation, and its invariant.
    - [FormProgress]: the completions of the form's asynchronous work as
      a relation of their own: termination and settling.
    - [Submission]: a submission of the form composed with the server:
      the click, the request served by [App.app], the answer read back.
    - [ClientViews]: [PrivateRoute], [AdminDashboard] and [api.js]; the
      dashboard's fetch on mount, Delete clicks and their completions as a
      step relation [dash_step] composed with the server ([App.app]): each
      request is handled by the stack when it arrives, on the shared
      store.

    What the theorems show (the claims C1..C37, in the order of the
    manifest):

    - Authorization (App, Auth): the admin router has no gate, so its
      listing answer ignores the cookies and its delete never removes a
      listing; the gated routes refuse a request without the token with
      401 or 403 and the store unchanged; [verifyToken]'s three branches.
    - End-to-end scenarios (App): create and update with the token
      validate exactly as section 4.2 says; create stores a fresh listing
      owned by ["admin"];
      an update or delete answers 200 only for the token and an
      admin-owned listing, so another owner's listing is refused with 403;
      delete then read gives 404; a missing id gives 404; the read-many
      page is bounded, filtered and sorted.
    - Invariant (App, via [Express.run_app_preserves]): every request keeps
      [db_wf], given user and auth routers that keep it.
    - Refinement and envelope (Routes): for every request of the five
      listing rows of the route table, the stack answers as the table's
      gate and operation prescribe (an empty token cookie excepted:
      [verifyToken] refuses it with 401 where the table says 403); every
      row, admin rows included, is answered with a well-formed envelope;
      and no row writes partially: an answer other than 200 leaves the
      store as it was.
    - Progress of the form (FormProgress): a running upload or request is
      never replaced, [uploading] and [loading] show exactly the running
      jobs; completions alone terminate (a measure, [sn_measure]); and
      from every reachable state the work settles into an idle state.
    - The form (CreateListingForm): in every reachable state, under any
      interleaving of user events and completions, at most six images and
      a valid type; the stale snapshot of the upload completion undoes
      concurrent edits; when a submission is sent; exactly where the
      client's price check and the server's validation disagree, and that
      the client lets [NaN] through; the navigation to
      [/listing/undefined]; the upload guard; image removal as list
      deletion; what the view lets the user trigger.
    - The form against the server (Submission): a submission, handled by
      [App.app] and read back by the form, ends with the gate's message
      and the store unchanged without the token, and with the token
      either stores the form's draft as a listing owned by ["admin"] (and
      navigates to [/listing/undefined]) or shows "ValidationError".
    - Client views (ClientViews): the route guard's decision table; that
      the dashboard's delete never succeeds and its list cannot render the
      admin answer; that the [api.js] helpers name no route; and, for the
      dashboard composed with the server under any order of completions,
      that it never shows a listing and never changes the store.
    - Failure of the database (Startup): after a failed [mongoose.connect]
      the server still listens on port 3000 and answers every row of the
      route table with the store unchanged: the gate's 401/403 and the
      create validation's 400 where they come first, the 500 of the
      failed query otherwise.
    - Runs of the server (Server): along every run, whatever the requests
      and the connection do, the port and log stay and the store stays
      well formed; after a rejected connection, which the modelled driver
      never retries, the store never changes.  These lift the invariant of
      App and the answers of Startup along a trace.  An
      example shows the other side of a lost acknowledgement: a create
      answered 500 whose listing is stored.

    Bounds and fuel: [Js.dec_digits] (the digits of [String(n)]) runs on
    fuel [digits_fuel n], one more than the base-2 logarithm of [n], which
    is at least its number of decimal digits ([digits_fuel_enough]), so the
    round trip [Js.parseInt_to_string] holds for every integer.  The image bound 6
    and the default page size 9 are the constants of the code and of the
    model; no theorem depends on the value 9.

    Modelling choices that bound what the theorems say:

    - JavaScript numbers are modelled as exact integers or [NaN]
      ([Js.jsnum]); the code only creates numbers with [parseInt] and
      literals, so fractions do not arise, and integers above 2^53 (where
      a double rounds) are outside what a form field holds.  [-0] is
      identified with [0], which no comparison of the code distinguishes.
    - URL parsing, body parsing ([express.json()]) and cookie parsing
      ([cookieParser()]) are library code: requests arrive with their path
      as a list of segments, their cookies, query and body already parsed.
    - MongoDB is a finite map from ids to listings; a fresh id is the
      decimal rendering of a counter, and timestamps come from a counter.
      The outcome of [mongoose.connect] is a flag of the store
      ([db_connected]); without a connection every query fails
      ([Controller.db_query], UpstreamFailure).  A connection that drops
      in the middle of a handler is observed like one that dropped before
      it (500, store unchanged), except when it drops after a write was
      applied: that case is the [ss_ack_lost] step of [Server].  Each
      handler runs as one step, atomically with respect to the others:
      Node runs one callback at a time, and the specification leaves the
      interleaving of two writes to the same document to the database
      (last write wins, section 5).
    - The uploads to Cloudinary and the fetch to the server are external:
      their completions are steps of the form machine that carry the
      result (the list of URLs, the response JSON, or a failure).
    - Not modelled: the user and auth routers (not under [src/], not in the
      specification; section variables of [App], assumed in [Server] to
      leave the listings alone), the Redux store (the signed-in user is a
      parameter) and React Router's navigation (the [location] field of the form).
*)

From stdpp Require Export base list strings gmap.
From Stdlib Require Export ZArith Lia.

Declare Scope web_scope.
Delimit Scope web_scope with web.
Open Scope web_scope.

Create HintDb webapp discriminated.
Create Rewrite HintDb webapp_rw.

(** ** Tactics *)

(** [case_if] splits on the first boolean test of the goal, keeping the
    equation. *)
Ltac case_if :=
  match goal with
  | |- context [if ?b then _ else _] =>
      let E := fresh "E" in destruct b eqn:E
  end.

(** [inv_clear H] inverts a hypothesis and cleans up. *)
Ltac inv_clear H := inversion H; subst; clear H.

(** [string_cases] turns the boolean string comparisons of a goal into
    propositions. *)
Ltac string_cases :=
  repeat match goal with
  | H : String.eqb _ _ = true |- _ => apply String.eqb_eq in H; subst
  | H : String.eqb _ _ = false |- _ => apply String.eqb_neq in H
  end.

(** [solve_decide] proves a decidable proposition on closed values by
    evaluation. *)
Ltac solve_decide :=
  match goal with |- ?P => apply (@bool_decide_unpack P _); vm_compute; reflexivity end.

(** ** Association lists with first-match lookup

    Cookies ([req.cookies]), query strings ([req.query]), route parameters
    ([req.params]) and JSON objects are finite associations from names to
    values in which the first binding of a name wins. *)

Fixpoint alookup {V : Type} (k : string) (l : list (string * V)) : option V :=
  match l with
  | [] => None
  | (k', v) :: l' => if String.eqb k k' then Some v else alookup k l'
  end.

Notation "l .[ k ]" := (alookup k l) (at level 1, left associativity) : web_scope.

Section Alookup.
  Context {V : Type}.
  Implicit Types (l : list (string * V)) (k : string) (v : V).

Lemma alookup_cons_eq k v l : ((k, v) :: l).[k] = Some v.
  Proof. simpl. by rewrite String.eqb_refl. Qed.

Lemma alookup_cons_ne k k' v l : k <> k' -> ((k', v) :: l).[k] = l.[k].
  Proof. intros Hne. simpl. by apply String.eqb_neq in Hne as ->. Qed.

Lemma alookup_app k l1 l2 :
    (l1 ++ l2).[k] = match l1.[k] with Some v => Some v | None => l2.[k] end.
  Proof.
    induction l1 as [|[k' v'] l1 IH]; [done|]. simpl.
    by destruct (String.eqb k k').
  Qed.

Lemma alookup_Some_In k l v : l.[k] = Some v -> In (k, v) l.
  Proof.
    induction l as [|[k' v'] l IH]; [done|]. simpl.
    destruct (String.eqb_spec k k') as [->|_]; [intros [= ->]; by left|].
    intros H. right. by apply IH.
  Qed.
End Alookup.

#[export] Hint Rewrite @alookup_cons_eq @alookup_app : webapp_rw.
#[export] Hint Resolve alookup_Some_In : webapp.

(** ** Generic list lemmas shared by the components *)

Lemma length_take_drop_le {A} (n k : nat) (l : list A) :
  length (take n (drop k l)) <= n.
Proof. rewrite length_take. lia. Qed.

Lemma elem_of_take_drop {A} (n k : nat) (l : list A) (x : A) :
  x ∈ take n (drop k l) -> x ∈ l.
Proof.
  intros Hx. apply elem_of_take in Hx as [i [Hi _]].
  apply list_elem_of_lookup_2 with (i := k + i).
  by rewrite <-lookup_drop.
Qed.

#[export] Hint Resolve length_take_drop_le elem_of_take_drop : webapp.


(** ** Termination of a step relation

    stdpp's [sn R x] (strong normalisation: [Acc (flip R) x]) says that
    every [R]-sequence from [x] is finite; [nf R x] that [x] has no
    [R]-successor.  A measure that every step decreases gives [sn]
    (as with [wf_inverse_image lt_wf]); where reducibility is decidable,
    [sn] gives a normal form reached by finitely many steps. *)

Section Termination.
  Context {A : Type} (R : relation A).

Lemma sn_measure (f : A -> nat) :
    (forall x y, R x y -> f y < f x) -> forall x, sn R x.
  Proof.
    intros Hdec x. remember (f x) as n eqn:Hn. revert x Hn.
    induction n as [n IH] using lt_wf_ind. intros x ->.
    constructor. intros y Hy. apply (IH (f y)); [by apply Hdec|done].
  Qed.

Lemma sn_rtc_nf x :
    (forall y, red R y \/ nf R y) -> sn R x -> exists z, rtc R x z /\ nf R z.
  Proof.
    intros Hdec Hsn. induction Hsn as [x _ IH].
    destruct (Hdec x) as [[y Hxy]|Hnf]; [|by exists x].
    destruct (IH y Hxy) as (z & Hyz & Hz). exists z. split; [by eapply rtc_l|done].
  Qed.
End Termination.
