(* ===== verification/Js.v ===== *)
(** * JavaScript semantics used by the code

    What the server and the client rely on of the language:
    - numbers as exact integers or [NaN] ([jsnum]), the comparison [<]
      (false as soon as one side is [NaN]), truthiness and [a || b] on strings;
    - [parseInt(s)] with its default radix (leading white space, a sign,
      the ["0x"] prefix, the longest digit prefix, [NaN] when there is none)
      and [String(n)], with the round trip [parseInt(String(n)) = n];
    - JSON values, property access ([undefined] is [None]),
      [JSON.stringify] of a number ([NaN] becomes [null]) and the
      rendering of a value in a template literal;
    - [Array.prototype.filter] with the index argument, and its
      equivalence with removing one position. *)

From S2P Require Import Prelude.
From Stdlib Require Import Ascii.
Local Open Scope Z_scope.
Local Set Warnings "-register-all".

(** ** Numbers *)

Inductive jsnum := JNum (z : Z) | JNaN.

#[export] Instance jsnum_eq_dec : EqDecision jsnum.
Proof. solve_decision. Defined.

(** [a < b] *)
Definition js_lt (a b : jsnum) : bool :=
  match a, b with
  | JNum x, JNum y => Z.ltb x y
  | _, _ => false
  end.

(** The empty string is falsy; [a || b] on strings. *)
Definition str_truthy (s : string) : bool := negb (String.eqb s "").
Definition str_or (a b : string) : string := if str_truthy a then a else b.

(** ** Characters *)

Definition ascii_code (c : ascii) : Z := Z.of_N (N_of_ascii c).

(** White space that [parseInt] skips: tab, line feed, vertical tab, form
    feed, carriage return and space (the ASCII part of [StrWhiteSpaceChar]). *)
Definition is_js_space (c : ascii) : bool :=
  let n := ascii_code c in ((9 <=? n) && (n <=? 13)) || (n =? 32).

(** [String.prototype.toLowerCase] on ASCII letters *)
Definition ascii_lower (c : ascii) : ascii :=
  let n := ascii_code c in
  if (65 <=? n) && (n <=? 90) then ascii_of_N (Z.to_N (n + 32)) else c.

Fixpoint js_to_lower (s : string) : string :=
  match s with
  | EmptyString => EmptyString
  | String c s' => String (ascii_lower c) (js_to_lower s')
  end.

(** The value of a digit in a radix up to 36, [None] when [c] is not one. *)
Definition digit_value (radix : Z) (c : ascii) : option Z :=
  let n := ascii_code c in
  let d := if (48 <=? n) && (n <=? 57) then n - 48
           else if (97 <=? n) && (n <=? 122) then n - 87
           else if (65 <=? n) && (n <=? 90) then n - 55
           else 99 in
  if d <? radix then Some d else None.

(** ** [parseInt] *)

Fixpoint trim_start (s : string) : string :=
  match s with
  | String c s' => if is_js_space c then trim_start s' else s
  | EmptyString => EmptyString
  end.

(** The longest prefix of digits, accumulated onto [acc]; [seen] records
    whether one digit was read. *)
Fixpoint digits_prefix (radix : Z) (s : string) (acc : Z) (seen : bool) : option Z :=
  match s with
  | EmptyString => if seen then Some acc else None
  | String c s' =>
      match digit_value radix c with
      | Some d => digits_prefix radix s' (acc * radix + d) true
      | None => if seen then Some acc else None
      end
  end.

Definition split_sign (s : string) : Z * string :=
  match s with
  | String c r =>
      if Ascii.eqb c "-"%char then (-1, r)
      else if Ascii.eqb c "+"%char then (1, r) else (1, s)
  | EmptyString => (1, s)
  end.

Definition split_radix (s : string) : Z * string :=
  match s with
  | String c0 (String x r) =>
      if Ascii.eqb c0 "0"%char && (Ascii.eqb x "x"%char || Ascii.eqb x "X"%char)
      then (16, r) else (10, s)
  | _ => (10, s)
  end.

Definition parseInt (s : string) : jsnum :=
  let '(sign, s2) := split_sign (trim_start s) in
  let '(radix, s3) := split_radix s2 in
  match digits_prefix radix s3 0 false with
  | Some n => JNum (sign * n)
  | None => JNaN
  end.

(** ** [String(n)] for integers *)

Definition digit_char (d : Z) : ascii := ascii_of_N (Z.to_N (48 + d)).

(** The decimal digits of [n], most significant first. *)
Fixpoint dec_digits (fuel : nat) (n : Z) : list Z :=
  match fuel with
  | O => []
  | S f => if n <? 10 then [n] else dec_digits f (n / 10) ++ [n mod 10]
  end.

Fixpoint string_of_digits (ds : list Z) : string :=
  match ds with
  | [] => EmptyString
  | d :: ds' => String (digit_char d) (string_of_digits ds')
  end.

(** A natural [n] has at most [log2 n + 1] decimal digits. *)
Definition digits_fuel (n : Z) : nat := S (Z.to_nat (Z.log2 n)).

Definition js_num_to_string (a : jsnum) : string :=
  match a with
  | JNaN => "NaN"
  | JNum z =>
      if z <? 0 then String "-" (string_of_digits (dec_digits (digits_fuel (- z)) (- z)))
      else string_of_digits (dec_digits (digits_fuel z) z)
  end.

(** ** JSON values *)

Inductive json :=
| JNull
| JBool (b : bool)
| JNumber (z : Z)
| JString (s : string)
| JArray (l : list json)
| JObject (fields : list (string * json)).

(** [v.k]: [None] stands for [undefined]. *)
Definition json_get (v : json) (k : string) : option json :=
  match v with JObject fs => fs.[k] | _ => None end.

(** [v === s] for a string [s]: true exactly when [v] is that string. *)
Definition js_eq_string (o : option json) (s : string) : bool :=
  match o with Some (JString t) => String.eqb t s | _ => false end.

(** [JSON.stringify] of a number field: [NaN] is written [null]. *)
Definition json_of_num (a : jsnum) : json :=
  match a with JNum z => JNumber z | JNaN => JNull end.

Definition json_truthy (o : option json) : bool :=
  match o with
  | None | Some JNull => false
  | Some (JBool b) => b
  | Some (JNumber z) => negb (Z.eqb z 0)
  | Some (JString s) => str_truthy s
  | Some (JArray _) | Some (JObject _) => true
  end.

(** [`${v}`]: the string a template literal makes of a value. *)
Fixpoint json_to_js_string (v : json) : string :=
  match v with
  | JNull => "null"
  | JBool b => if b then "true" else "false"
  | JNumber z => js_num_to_string (JNum z)
  | JString s => s
  | JArray l =>
      (fix join (l : list json) : string :=
         match l with
         | [] => ""
         | [x] => match x with JNull => "" | _ => json_to_js_string x end
         | x :: l' => (match x with JNull => "" | _ => json_to_js_string x end)
                        +:+ "," +:+ join l'
         end) l
  | JObject _ => "[object Object]"
  end.

Definition template_string (o : option json) : string :=
  match o with None => "undefined" | Some v => json_to_js_string v end.

(** ** [Array.prototype.filter((x, i) => ...)] *)

Fixpoint filteri_from {A} (p : A -> nat -> bool) (i : nat) (l : list A) : list A :=
  match l with
  | [] => []
  | x :: l' => if p x i then x :: filteri_from p (S i) l' else filteri_from p (S i) l'
  end.

Definition js_filter {A} (p : A -> nat -> bool) (l : list A) : list A :=
  filteri_from p 0 l.

(** ** Lemmas *)

(** Case analysis on a decimal digit, for goals that evaluate. *)
Ltac digit_cases d :=
  let H := fresh in
  assert (H : d = 0 \/ d = 1 \/ d = 2 \/ d = 3 \/ d = 4 \/ d = 5 \/ d = 6 \/
              d = 7 \/ d = 8 \/ d = 9) by lia;
  repeat destruct H as [H|H]; subst d; reflexivity.

Definition is_digit (d : Z) : Prop := 0 <= d <= 9.

Definition dec_step (acc d : Z) : Z := acc * 10 + d.

Lemma digit_value_char d : is_digit d -> digit_value 10 (digit_char d) = Some d.
Proof. unfold is_digit. intros Hd. digit_cases d. Qed.

Lemma digit_char_not_space d : is_digit d -> is_js_space (digit_char d) = false.
Proof. unfold is_digit. intros Hd. digit_cases d. Qed.

Lemma digit_char_not_sign d :
  is_digit d -> Ascii.eqb (digit_char d) "-"%char = false /\
                Ascii.eqb (digit_char d) "+"%char = false.
Proof. unfold is_digit. intros Hd. split; digit_cases d. Qed.

Lemma digit_char_not_x d :
  is_digit d -> (Ascii.eqb (digit_char d) "x"%char || Ascii.eqb (digit_char d) "X"%char) = false.
Proof. unfold is_digit. intros Hd. digit_cases d. Qed.

#[export] Hint Resolve digit_value_char digit_char_not_space : webapp.

Lemma digits_prefix_digits ds acc :
  Forall is_digit ds ->
  digits_prefix 10 (string_of_digits ds) acc true = Some (fold_left dec_step ds acc).
Proof.
  revert acc. induction ds as [|d ds IH]; intros acc Hds; [done|].
  inversion Hds as [|? ? Hd Hds']; subst. simpl.
  rewrite digit_value_char by done. by apply IH.
Qed.

Lemma dec_digits_spec f n :
  (0 < f)%nat -> 0 <= n < 10 ^ Z.of_nat f ->
  dec_digits f n <> [] /\ Forall is_digit (dec_digits f n) /\
  fold_left dec_step (dec_digits f n) 0 = n.
Proof.
  revert n. induction f as [|f IH]; intros n Hf Hn; [lia|]. simpl.
  destruct (Z.ltb_spec n 10) as [Hlt|Hge].
  - split; [done|]. split; [constructor; [unfold is_digit; lia|constructor]|done].
  - assert (Hf' : (0 < f)%nat).
    { destruct f; [|lia]. simpl in Hn. lia. }
    assert (Hq : 0 <= n / 10 < 10 ^ Z.of_nat f).
    { split; [apply Z.div_pos; lia|].
      apply Z.div_lt_upper_bound; [lia|].
      rewrite Nat2Z.inj_succ, Z.pow_succ_r in Hn by lia. lia. }
    destruct (IH (n / 10) Hf' Hq) as (Hne & Hdig & Hfold).
    split; [by destruct (dec_digits f (n / 10))|].
    split.
    + apply Forall_app. split; [done|]. constructor; [|constructor].
      unfold is_digit. pose proof (Z.mod_pos_bound n 10). lia.
    + rewrite fold_left_app, Hfold. simpl. unfold dec_step.
      pose proof (Z.div_mod n 10). lia.
Qed.

Lemma digits_fuel_enough n : 0 <= n -> n < 10 ^ Z.of_nat (digits_fuel n).
Proof.
  intros Hn. unfold digits_fuel.
  destruct (Z.eq_dec n 0) as [->|Hnz]; [simpl; lia|].
  pose proof (Z.log2_spec n ltac:(lia)) as [_ Hup].
  pose proof (Z.log2_nonneg n).
  rewrite Nat2Z.inj_succ, Z2Nat.id by lia.
  eapply Z.lt_le_trans; [exact Hup|].
  apply Z.pow_le_mono_l. lia.
Qed.

(** The string of a natural number, and what [parseInt] reads back. *)
Lemma parse_digits_of_nat n :
  0 <= n ->
  let ds := dec_digits (digits_fuel n) n in
  split_radix (string_of_digits ds) = (10, string_of_digits ds) /\
  digits_prefix 10 (string_of_digits ds) 0 false = Some n /\
  exists d ds', ds = d :: ds' /\ is_digit d.
Proof.
  intros Hn ds.
  destruct (dec_digits_spec (digits_fuel n) n) as (Hne & Hdig & Hfold);
    [unfold digits_fuel; lia| split; [lia|by apply digits_fuel_enough]|].
  fold ds in Hne, Hdig, Hfold.
  destruct ds as [|d ds']; [done|].
  inversion Hdig as [|? ? Hd Hdig']; subst.
  split; [|split; [|by eauto]].
  - destruct ds' as [|d2 ds'']; [done|]. simpl.
    inversion Hdig'; subst. by rewrite digit_char_not_x, andb_false_r.
  - simpl. rewrite digit_value_char by done.
    by rewrite digits_prefix_digits.
Qed.

Lemma filteri_from_true {A} (p : A -> nat -> bool) j l :
  (forall x i, (j <= i)%nat -> p x i = true) -> filteri_from p j l = l.
Proof.
  revert j. induction l as [|x l IH]; intros j Hp; [done|]. simpl.
  rewrite Hp by lia. f_equal. apply IH. intros. apply Hp. lia.
Qed.

Lemma filteri_from_skip {A} (l : list A) :
  forall (p : A -> nat -> bool) j k,
  (forall x i, p x i = negb (Nat.eqb i (j + k))) -> filteri_from p j l = delete k l.
Proof.
  induction l as [|x l IH]; intros p j k Hp; [done|]. simpl. rewrite Hp.
  destruct k as [|k].
  - rewrite Nat.add_0_r, Nat.eqb_refl. simpl.
    apply filteri_from_true. intros y i Hi.
    rewrite Hp. apply negb_true_iff, Nat.eqb_neq. lia.
  - replace (Nat.eqb j (j + S k)) with false by (symmetry; apply Nat.eqb_neq; lia).
    simpl. f_equal. apply IH. intros y i. rewrite Hp.
    by replace (j + S k)%nat with (S j + k)%nat by lia.
Qed.

(** Keeping every position but one is removing that position. *)
Lemma js_filter_skip_index {A} (k : nat) (l : list A) :
  js_filter (fun _ i => negb (Nat.eqb i k)) l = delete k l.
Proof. apply filteri_from_skip. done. Qed.

Lemma trim_start_digits ds :
  (exists d ds', ds = d :: ds' /\ is_digit d) ->
  trim_start (string_of_digits ds) = string_of_digits ds.
Proof.
  intros (d & ds' & -> & Hd). simpl. by rewrite digit_char_not_space.
Qed.

(** [parseInt(String(n)) === n] for every integer [n]. *)
Lemma parseInt_to_string z : parseInt (js_num_to_string (JNum z)) = JNum z.
Proof.
  unfold js_num_to_string, parseInt.
  destruct (Z.ltb_spec z 0) as [Hneg|Hpos].
  - destruct (parse_digits_of_nat (- z) ltac:(lia)) as (Hrad & Hpre & Hhd).
    remember (string_of_digits (dec_digits (digits_fuel (- z)) (- z))) as s.
    simpl. rewrite Hrad, Hpre. f_equal. lia.
  - destruct (parse_digits_of_nat z Hpos) as (Hrad & Hpre & Hhd).
    rewrite trim_start_digits by done.
    destruct Hhd as (d & ds' & Heq & Hd).
    assert (Hsign : split_sign (string_of_digits (dec_digits (digits_fuel z) z))
                    = (1, string_of_digits (dec_digits (digits_fuel z) z))).
    { rewrite Heq. simpl. destruct (digit_char_not_sign d Hd) as [-> ->]. done. }
    rewrite Hsign, Hrad, Hpre. f_equal. lia.
Qed.

Lemma js_lt_NaN_l b : js_lt JNaN b = false.
Proof. done. Qed.

Lemma js_lt_NaN_r a : js_lt a JNaN = false.
Proof. by destruct a. Qed.

#[export] Hint Rewrite parseInt_to_string js_lt_NaN_l js_lt_NaN_r : webapp_rw.
