(* ===== verification/Express.v ===== *)
(** * The Express middleware pipeline

    Requests, responses and the way Express threads a request through the
    application's stack: a handler calls [next()] (possibly after changing
    the request, as [verifyToken] does with [req.user]), calls
    [next(err)], or sends a response.  A route runs its handlers in order;
    a router runs its routes in order and hands the request back to the
    application when none responds; an error skips every layer that is
    not an error-handling middleware.  The store the handlers act on is a
    parameter [S] of the section.

    Also here: [errorHandler] of [api/utils/error.js] (not under [src/],
    modelled from specification section 7) and the error envelope of the
    global error handler of [src/api/index.js].

    Theorems: how a pipeline with no matching layer behaves, that
    errors bypass ordinary layers, and that path matching binds exactly
    the parameters of the pattern. *)

From S2P Require Import Prelude Js.

(** ** Requests and responses *)

Inductive method := GET | POST | PUT | DELETE | HEAD.

#[export] Instance method_eq_dec : EqDecision method.
Proof. solve_decision. Defined.

(** [req.user] *)
Record principal := mkPrincipal { user_id : string; user_role : string }.

(** A request after [express.json()] and [cookieParser()]: the path as its
    non-empty segments, the cookies, the query string and the body parsed. *)
Record request := mkRequest {
  req_method : method;
  req_path : list string;
  req_cookies : list (string * string);
  req_query : list (string * string);
  req_body : json;
  req_params : list (string * string);
  req_user : option principal
}.

Definition set_params (ps : list (string * string)) (r : request) : request :=
  mkRequest (req_method r) (req_path r) (req_cookies r) (req_query r) (req_body r) ps (req_user r).

Definition set_path (p : list string) (r : request) : request :=
  mkRequest (req_method r) p (req_cookies r) (req_query r) (req_body r) (req_params r) (req_user r).

Definition set_user (u : principal) (r : request) : request :=
  mkRequest (req_method r) (req_path r) (req_cookies r) (req_query r) (req_body r) (req_params r) (Some u).

(** An [Error] with its [statusCode] and [message] properties. *)
Record http_error := mkError { err_status : option Z; err_message : string }.

(** [errorHandler(statusCode, message)] of [api/utils/error.js]. *)
Definition errorHandler (statusCode : Z) (message : string) : http_error :=
  mkError (Some statusCode) message.

Inductive body := BJson (v : json) | BFile (path : list string) | BText (s : string).

Record response := mkResponse { res_status : Z; res_body : body }.

Inductive outcome := Next (r : request) | NextErr (e : http_error) | Respond (r : response).

(** [res.status(code).json(...)] *)
Definition json_response (code : Z) (v : json) : response := mkResponse code (BJson v).

(** ** Paths *)

Inductive seg := Lit (s : string) | Param (name : string).

(** A path given to [router.get], or ['*']. *)
Inductive route_pattern := PSegs (l : list seg) | PStar.

(** Express routes are case-insensitive by default. *)
Definition seg_eqb (a b : string) : bool := String.eqb (js_to_lower a) (js_to_lower b).

(** The parameters a pattern binds on a path, in the order of the pattern. *)
Fixpoint match_segs (pat : list seg) (path : list string) : option (list (string * string)) :=
  match pat, path with
  | [], [] => Some []
  | Lit s :: pat', x :: path' => if seg_eqb s x then match_segs pat' path' else None
  | Param n :: pat', x :: path' =>
      if String.eqb x "" then None
      else match match_segs pat' path' with
           | Some ps => Some ((n, x) :: ps)
           | None => None
           end
  | _, _ => None
  end.

Definition match_pattern (p : route_pattern) (path : list string) : option (list (string * string)) :=
  match p with PSegs l => match_segs l path | PStar => Some [] end.

(** [app.use(prefix, ...)] matches on whole segments and strips them. *)
Fixpoint strip_prefix (pre path : list string) : option (list string) :=
  match pre, path with
  | [], _ => Some path
  | p :: pre', x :: path' => if seg_eqb p x then strip_prefix pre' path' else None
  | _ :: _, [] => None
  end.

(** A [get] route also answers [HEAD] requests. *)
Definition method_matches (m actual : method) : bool :=
  bool_decide (m = actual) || (bool_decide (m = GET) && bool_decide (actual = HEAD)).

(** ** The pipeline *)

Section Pipeline.
  Context {S : Type}.

Definition handler := request -> S -> outcome * S.
Definition err_handler := http_error -> request -> S -> outcome * S.

  (** [router.METHOD(path, h1, h2, ...)] *)
Inductive route_layer := RRoute (m : method) (pat : route_pattern) (hs : list handler).

  (** The layers of an application: [app.use(h)], [app.use(prefix, router)],
      [app.METHOD(path, ...)] and an error-handling [app.use((err, req, res, next) => ...)]. *)
Inductive app_layer :=
  | AUse (h : handler)
  | AMount (prefix : list string) (r : list route_layer)
  | ARoute (m : method) (pat : route_pattern) (hs : list handler)
  | AErr (h : err_handler).

  (** The handlers of one route, in order, while each calls [next()]. *)
Fixpoint run_handlers (hs : list handler) (r : request) (s : S) : outcome * S :=
    match hs with
    | [] => (Next r, s)
    | h :: hs' =>
        match h r s with
        | (Next r', s') => run_handlers hs' r' s'
        | o => o
        end
    end.

Definition route_match (m : method) (pat : route_pattern) (r : request) :
      option (list (string * string)) :=
    if method_matches m (req_method r) then match_pattern pat (req_path r) else None.

  (** A router: the first route that matches runs; [next()] goes on to the
      following routes, [next(err)] and a response leave the router. *)
Fixpoint run_router (rs : list route_layer) (r : request) (s : S) : outcome * S :=
    match rs with
    | [] => (Next r, s)
    | RRoute m pat hs :: rs' =>
        match route_match m pat r with
        | Some ps =>
            match run_handlers hs (set_params ps r) s with
            | (Next r', s') => run_router rs' r' s'
            | o => o
            end
        | None => run_router rs' r s
        end
    end.

  (** What Express's final handler answers when the stack is exhausted:
      404 for a request nothing handled, the error's status otherwise. *)
Definition final_handler (err : option http_error) (r : request) : response :=
    match err with
    | None => mkResponse 404 (BText "Cannot handle request")
    | Some e =>
        match err_status e with
        | Some c => if ((400 <=? c) && (c <=? 599))%Z then mkResponse c (BText (err_message e))
                    else mkResponse 500 (BText "Internal Server Error")
        | None => mkResponse 500 (BText "Internal Server Error")
        end
    end.

  (** The application stack.  [err] is the error passed to [next(err)]:
      while it is set, only error-handling layers run. *)
Fixpoint run_app (ls : list app_layer) (r : request) (err : option http_error) (s : S) :
      response * S :=
    match ls with
    | [] => (final_handler err r, s)
    | l :: ls' =>
        let continue (o : outcome) (s' : S) :=
          match o with
          | Next r' => run_app ls' r' None s'
          | NextErr e => run_app ls' r (Some e) s'
          | Respond res => (res, s')
          end in
        match err, l with
        | None, AUse h => let '(o, s') := h r s in continue o s'
        | None, AMount pre rt =>
            match strip_prefix pre (req_path r) with
            | Some rest =>
                let '(o, s') := run_router rt (set_path rest r) s in
                match o with
                | Next r' => continue (Next (set_path (req_path r) r')) s'
                | _ => continue o s'
                end
            | None => run_app ls' r None s
            end
        | None, ARoute m pat hs =>
            match route_match m pat r with
            | Some ps => let '(o, s') := run_handlers hs (set_params ps r) s in continue o s'
            | None => run_app ls' r None s
            end
        | Some e, AErr h => let '(o, s') := h e r s in continue o s'
        | _, _ => run_app ls' r err s
        end
    end.

  (** Dispatch of a fresh request. *)
Definition handle (ls : list app_layer) (r : request) (s : S) : response * S :=
    run_app ls r None s.
End Pipeline.

Arguments route_layer : clear implicits.
Arguments app_layer : clear implicits.
Arguments handler : clear implicits.
Arguments err_handler : clear implicits.

(** ** Lemmas *)

(** A handler that always answers or fails, never calling [next()]. *)
Definition terminal {S} (h : handler S) : Prop := forall r s r', fst (h r s) <> Next r'.

(** A store invariant [P] kept by a handler, by every handler of a
    router, and by a layer of the application. *)
Definition preserves {S} (P : S -> Prop) (h : handler S) : Prop :=
  forall r s, P s -> P (snd (h r s)).

Definition router_preserves {S} (P : S -> Prop) (rs : list (route_layer S)) : Prop :=
  Forall (fun l => match l with RRoute _ _ hs => Forall (preserves P) hs end) rs.

Definition layer_preserves {S} (P : S -> Prop) (l : app_layer S) : Prop :=
  match l with
  | AUse h => preserves P h
  | AMount _ rt => router_preserves P rt
  | ARoute _ _ hs => Forall (preserves P) hs
  | AErr h => forall e, preserves P (h e)
  end.

Section PipelineLemmas.
  Context {S : Type}.
  Implicit Types (h : handler S) (hs : list (handler S)) (rs : list (route_layer S)).

Lemma run_handlers_terminal hs h r s r' :
    terminal h -> fst (run_handlers (hs ++ [h]) r s) <> Next r'.
  Proof.
    intros Ht. revert r s. induction hs as [|h' hs IH]; intros r s; simpl.
    - destruct (h r s) as [[]] eqn:E; simpl; try done.
      intros [= ->]. eapply (Ht r s). by rewrite E.
    - destruct (h' r s) as [[]]; simpl; [apply IH|done|done].
  Qed.

Lemma run_router_hit rs m pat hs r s ps :
    route_match m pat r = Some ps ->
    (forall r', fst (run_handlers hs (set_params ps r) s) <> Next r') ->
    run_router (RRoute m pat hs :: rs) r s = run_handlers hs (set_params ps r) s.
  Proof.
    intros Hm Hn. cbn [run_router]. rewrite Hm.
    destruct (run_handlers hs (set_params ps r) s) as [[r'| |] s'] eqn:E; [|done|done].
    exfalso. by apply (Hn r').
  Qed.

Lemma run_router_miss rs m pat hs r s :
    route_match m pat r = None ->
    run_router (RRoute m pat hs :: rs) r s = run_router rs r s.
  Proof. intros Hm. cbn [run_router]. by rewrite Hm. Qed.

Lemma run_handlers_one h r s : terminal h -> run_handlers [h] r s = h r s.
  Proof.
    intros Ht. simpl. destruct (h r s) as [[r'| |] s'] eqn:E; [|done|done].
    exfalso. apply (Ht r s r'). by rewrite E.
  Qed.

  (** With an error set, ordinary layers are skipped. *)
Lemma run_app_err_skip (l : app_layer S) ls r e (s : S) :
    (forall eh, l <> AErr eh) -> run_app (l :: ls) r (Some e) s = run_app ls r (Some e) s.
  Proof. intros Hl. destruct l as [| | |eh]; [done|done|done|]. by destruct (Hl eh). Qed.
End PipelineLemmas.

#[export] Hint Resolve run_handlers_terminal : webapp.

Section Preservation.
  Context {S : Type} (P : S -> Prop).

Lemma run_handlers_preserves hs : Forall (preserves P) hs -> preserves P (run_handlers hs).
  Proof.
    induction 1 as [|h hs Hh _ IH]; intros r s Hs; [done|]. simpl.
    specialize (Hh r s Hs). destruct (h r s) as [[r'| |] s']; simpl in *; auto.
  Qed.

Lemma run_router_preserves rs : router_preserves P rs -> preserves P (run_router rs).
  Proof.
    induction 1 as [|[m pat hs] rs Hl _ IH]; intros r s Hs; [done|]. simpl.
    destruct (route_match m pat r) as [ps|]; [|by apply IH].
    pose proof (run_handlers_preserves hs Hl (set_params ps r) s Hs) as Hs'.
    destruct (run_handlers hs _ s) as [[r'| |] s']; simpl in *; auto.
  Qed.

  (** The whole stack keeps [P] when each layer does, whatever the request
      and whether or not an error is pending. *)
Lemma run_app_preserves ls :
    Forall (layer_preserves P) ls -> forall r err s, P s -> P (snd (run_app ls r err s)).
  Proof.
    induction 1 as [|l ls Hl _ IH]; intros r err s Hs; [done|]. simpl.
    assert (Hc : forall o s', P s' ->
      P (snd (match o with Next r' => run_app ls r' None s' | NextErr e => run_app ls r (Some e) s'
              | Respond res => (res, s') end))) by (intros [] s' ?; simpl; auto).
    destruct err as [e|], l as [h|pre rt|m pat hs|h]; simpl in Hl; try by apply IH.
    - specialize (Hl e r s Hs). destruct (h e r s) as [o s']. by apply Hc.
    - specialize (Hl r s Hs). destruct (h r s) as [o s']. by apply Hc.
    - destruct (strip_prefix pre (req_path r)) as [rest|]; [|by apply IH].
      pose proof (run_router_preserves rt Hl (set_path rest r) s Hs) as Hs'.
      destruct (run_router rt _ s) as [[r'|e|res] s']; simpl in *; auto.
    - destruct (route_match m pat r) as [ps|]; [|by apply IH].
      pose proof (run_handlers_preserves hs Hl (set_params ps r) s Hs) as Hs'.
      destruct (run_handlers hs _ s) as [o s']. by apply Hc.
  Qed.
End Preservation.
