(* ===== verification/Listing.v ===== *)
(** * Listings, drafts, validation and the store

    The data of specification section 3 (the Mongoose model
    [api/models/listing.model.js] is not under [src/]; its fields are those
    the client of [src/client/src/pages/CreateListing.jsx] submits): a
    listing, the draft a client submits, their JSON encoding and decoding,
    the two invariants of specification section 4.2 (1 to 6 images; a
    discount strictly below the regular price when [offer] is set) and the
    store, a finite map from ids to listings with the counters MongoDB
    uses for fresh ids and timestamps.

    Theorems: decoding inverts encoding; the store invariant [db_wf]
    (keys are ids, every stored listing satisfies the invariants, ids were
    issued by the counter) and the lemmas the controller uses to keep it. *)

From S2P Require Import Prelude Js.
From stdpp Require Import pretty.

(** ** Data *)

Inductive listing_type := Rent | Sale.

#[export] Instance listing_type_eq_dec : EqDecision listing_type.
Proof. solve_decision. Defined.

Definition listing_type_of_string (s : string) : option listing_type :=
  if String.eqb s "rent" then Some Rent
  else if String.eqb s "sale" then Some Sale else None.

Definition string_of_listing_type (t : listing_type) : string :=
  match t with Rent => "rent" | Sale => "sale" end.

(** The fields a client submits ([formData] of [CreateListing.jsx]). *)
Record draft := mkDraft {
  d_name : string;
  d_description : string;
  d_address : string;
  d_type : listing_type;
  d_bedrooms : Z;
  d_bathrooms : Z;
  d_regularPrice : Z;
  d_discountPrice : Z;
  d_offer : bool;
  d_parking : bool;
  d_furnished : bool;
  d_imageUrls : list string
}.

(** A stored listing: a draft with its id, owner and timestamps. *)
Record listing := mkListing {
  l_id : string;
  l_userRef : string;
  l_draft : draft;
  l_createdAt : Z;
  l_updatedAt : Z
}.

(** ** Validation (specification 4.2) *)

Definition images_ok (imgs : list string) : bool :=
  (1 <=? length imgs) && (length imgs <=? 6).

Definition prices_ok (d : draft) : bool :=
  if d_offer d then (d_discountPrice d <? d_regularPrice d)%Z else true.

Definition validate (d : draft) : bool := images_ok (d_imageUrls d) && prices_ok d.

(** ** JSON *)

Definition json_of_draft_fields (d : draft) : list (string * json) :=
  [("name", JString (d_name d)); ("description", JString (d_description d));
   ("address", JString (d_address d));
   ("type", JString (string_of_listing_type (d_type d)));
   ("bedrooms", JNumber (d_bedrooms d)); ("bathrooms", JNumber (d_bathrooms d));
   ("regularPrice", JNumber (d_regularPrice d));
   ("discountPrice", JNumber (d_discountPrice d));
   ("offer", JBool (d_offer d)); ("parking", JBool (d_parking d));
   ("furnished", JBool (d_furnished d));
   ("imageUrls", JArray (map JString (d_imageUrls d)))].

Definition listing_to_json (l : listing) : json :=
  JObject ([("_id", JString (l_id l)); ("userRef", JString (l_userRef l))] ++
           json_of_draft_fields (l_draft l) ++
           [("createdAt", JNumber (l_createdAt l)); ("updatedAt", JNumber (l_updatedAt l))]).

(** A field of a request body: absent, present with the expected JSON
    type, or present with another type (a Mongoose cast error). *)
Inductive field (A : Type) := Absent | Present (a : A) | Bad.
Arguments Absent {A}. Arguments Present {A} a. Arguments Bad {A}.

Definition field_of {A} (conv : json -> option A) (v : json) (k : string) : field A :=
  match json_get v k with
  | None => Absent
  | Some x => match conv x with Some a => Present a | None => Bad end
  end.

Definition conv_string (x : json) : option string :=
  match x with JString s => Some s | _ => None end.
Definition conv_int (x : json) : option Z :=
  match x with JNumber z => Some z | _ => None end.
Definition conv_bool (x : json) : option bool :=
  match x with JBool b => Some b | _ => None end.
Definition conv_type (x : json) : option listing_type :=
  match x with JString s => listing_type_of_string s | _ => None end.
Definition conv_strings (x : json) : option (list string) :=
  match x with JArray l => mapM conv_string l | _ => None end.

(** Every field required and of its type. *)
Definition required {A} (f : field A) : option A :=
  match f with Present a => Some a | _ => None end.

(** A field of a patch: absent keeps the old value. *)
Definition patched {A} (f : field A) (old : A) : option A :=
  match f with Present a => Some a | Absent => Some old | Bad => None end.

Definition draft_of_json (v : json) : option draft :=
  name ← required (field_of conv_string v "name");
  desc ← required (field_of conv_string v "description");
  addr ← required (field_of conv_string v "address");
  ty ← required (field_of conv_type v "type");
  bed ← required (field_of conv_int v "bedrooms");
  bath ← required (field_of conv_int v "bathrooms");
  reg ← required (field_of conv_int v "regularPrice");
  disc ← required (field_of conv_int v "discountPrice");
  off ← required (field_of conv_bool v "offer");
  park ← required (field_of conv_bool v "parking");
  furn ← required (field_of conv_bool v "furnished");
  imgs ← required (field_of conv_strings v "imageUrls");
  Some (mkDraft name desc addr ty bed bath reg disc off park furn imgs).

(** The fields of a patch merged over a stored draft. *)
Definition merge_patch (old : draft) (v : json) : option draft :=
  name ← patched (field_of conv_string v "name") (d_name old);
  desc ← patched (field_of conv_string v "description") (d_description old);
  addr ← patched (field_of conv_string v "address") (d_address old);
  ty ← patched (field_of conv_type v "type") (d_type old);
  bed ← patched (field_of conv_int v "bedrooms") (d_bedrooms old);
  bath ← patched (field_of conv_int v "bathrooms") (d_bathrooms old);
  reg ← patched (field_of conv_int v "regularPrice") (d_regularPrice old);
  disc ← patched (field_of conv_int v "discountPrice") (d_discountPrice old);
  off ← patched (field_of conv_bool v "offer") (d_offer old);
  park ← patched (field_of conv_bool v "parking") (d_parking old);
  furn ← patched (field_of conv_bool v "furnished") (d_furnished old);
  imgs ← patched (field_of conv_strings v "imageUrls") (d_imageUrls old);
  Some (mkDraft name desc addr ty bed bath reg disc off park furn imgs).

(** ** The store *)

(** MongoDB's [listings] collection: documents by id, the counter that
    issues ids and the clock that stamps [createdAt]/[updatedAt]; and
    whether [mongoose.connect] succeeded, without which every query
    fails. *)
Record db := mkDb {
  db_listings : gmap string listing;
  db_next : N;
  db_clock : Z;
  db_connected : bool
}.

Definition fresh_id (n : N) : string := pretty n.

Definition db_empty : db := mkDb ∅ 0 0 true.

(** The store invariant: each document is stored under its id, satisfies
    the invariants of section 4.2 and was issued by the counter. *)
Definition db_wf (s : db) : Prop :=
  forall k l, db_listings s !! k = Some l ->
    l_id l = k /\ validate (l_draft l) = true /\
    exists n, k = fresh_id n /\ (n < db_next s)%N.

(** ** Lemmas *)

Lemma mapM_conv_string (l : list string) : mapM conv_string (map JString l) = Some l.
Proof. induction l as [|x l IH]; [done|]. simpl. by rewrite IH. Qed.

Lemma listing_type_roundtrip t : listing_type_of_string (string_of_listing_type t) = Some t.
Proof. by destruct t. Qed.

#[export] Hint Rewrite mapM_conv_string listing_type_roundtrip : webapp_rw.

(** Decoding the fields of a draft gives the draft back, whatever fields
    with other names surround them. *)
Lemma draft_of_json_fields pre post d :
  (forall k, k ∈ ["name"; "description"; "address"; "type"; "bedrooms"; "bathrooms";
                  "regularPrice"; "discountPrice"; "offer"; "parking"; "furnished";
                  "imageUrls"] -> pre.[k] = None) ->
  draft_of_json (JObject (pre ++ json_of_draft_fields d ++ post)) = Some d.
Proof.
  intros Hpre. unfold draft_of_json, field_of, json_get.
  rewrite !alookup_app, !Hpre by solve_decide.
  destruct d; simpl. autorewrite with webapp_rw. reflexivity.
Qed.

(** Decoding the JSON of a stored listing, as the server sends it,
    gives back the listing's draft: the encoding of listings and the
    decoding of request bodies are inverse on drafts. *)
Lemma draft_of_listing_json l : draft_of_json (listing_to_json l) = Some (l_draft l).
Proof.
  apply draft_of_json_fields. intros k Hk.
  repeat (apply elem_of_cons in Hk as [->|Hk]; [done|]). set_solver.
Qed.

Lemma merge_patch_empty d : merge_patch d (JObject []) = Some d.
Proof. by destruct d. Qed.

Lemma db_empty_wf : db_wf db_empty.
Proof. intros k l H. simpl in H. by rewrite lookup_empty in H. Qed.

Lemma fresh_id_inj n m : fresh_id n = fresh_id m -> n = m.
Proof. apply pretty_N_inj. Qed.

(** The id the counter issues next is not in a well-formed store. *)
Lemma db_wf_fresh s : db_wf s -> db_listings s !! fresh_id (db_next s) = None.
Proof.
  intros Hwf. destruct (db_listings s !! fresh_id (db_next s)) as [l|] eqn:E; [|done].
  destruct (Hwf _ _ E) as (_ & _ & n & Hn & Hlt).
  apply fresh_id_inj in Hn. lia.
Qed.

Lemma db_wf_insert_fresh s l c :
  db_wf s -> l_id l = fresh_id (db_next s) -> validate (l_draft l) = true ->
  db_wf (mkDb (<[fresh_id (db_next s) := l]> (db_listings s)) (db_next s + 1) c (db_connected s)).
Proof.
  intros Hwf Hid Hval k l' Hk. simpl in Hk.
  destruct (decide (k = fresh_id (db_next s))) as [->|Hne].
  - rewrite lookup_insert_eq in Hk. injection Hk as <-.
    split; [done|]. split; [done|]. exists (db_next s). simpl. split; [done|lia].
  - rewrite lookup_insert_ne in Hk by congruence.
    destruct (Hwf _ _ Hk) as (Hid' & Hval' & n & Hn & Hlt).
    split; [done|]. split; [done|]. exists n. simpl. split; [done|lia].
Qed.

Lemma db_wf_replace s k l c :
  db_wf s -> is_Some (db_listings s !! k) -> l_id l = k -> validate (l_draft l) = true ->
  db_wf (mkDb (<[k := l]> (db_listings s)) (db_next s) c (db_connected s)).
Proof.
  intros Hwf [l0 Hl0] Hid Hval k' l' Hk. simpl in Hk.
  destruct (decide (k' = k)) as [->|Hne].
  - rewrite lookup_insert_eq in Hk. injection Hk as <-.
    destruct (Hwf _ _ Hl0) as (_ & _ & Hn). by split; [|split].
  - rewrite lookup_insert_ne in Hk by congruence. by apply Hwf.
Qed.

Lemma db_wf_delete s k c :
  db_wf s -> db_wf (mkDb (delete k (db_listings s)) (db_next s) c (db_connected s)).
Proof.
  intros Hwf k' l' Hk. simpl in Hk.
  apply lookup_delete_Some in Hk as [_ Hk]. by apply Hwf.
Qed.

#[export] Hint Resolve db_empty_wf db_wf_insert_fresh db_wf_replace db_wf_delete : webapp.
