(* ===== verification/Auth.v ===== *)
(** * The authorization gate ([src/api/utils/verifyUser.js])

    [verifyToken] reads the [access_token] cookie; a missing (or empty)
    token is refused with 401, a token other than the hard-coded one with
    403, and the hard-coded token binds the principal
    [{id: "admin", role: "admin"}] to [req.user].

    The contract a route relies on is the class [Gate]: a gate leaves the
    store alone, lets an authorized request through with one fixed
    principal bound, and stops every other request with an error.  The
    lemma [gate_guarded_route] derives, from the class alone, what a route
    [gate, h1, ..., hn] does; [verifyToken] is an instance.

    Theorems: the three branches of [verifyToken], the instance, and that
    a request passing the gate carries the one token and the admin
    principal. *)

From S2P Require Import Prelude Js Express.

(** ** The gate *)

Definition staticToken : string :=
  "7b7d4a8299f196edccda84a070714a095bc3befd8c9feb6ec57a75fd7fc8318b1b4a3b241cea67492e2993d8495d76b0a44b2c734bc2e0691b48a34a48ad794b".

(** The mock user object assigned to [req.user]. *)
Definition admin_principal : principal := mkPrincipal "admin" "admin".

(** [req.cookies.access_token] *)
Definition access_token (r : request) : option string := (req_cookies r).["access_token"].

(** [!token]: [undefined] and the empty string are falsy. *)
Definition opt_str_truthy (o : option string) : bool :=
  match o with Some t => str_truthy t | None => false end.

Definition verifyToken {S : Type} : handler S := fun r s =>
  let token := access_token r in
  if negb (opt_str_truthy token) then (NextErr (errorHandler 401 "Unauthorized"), s)
  else if negb (bool_decide (token = Some staticToken))
  then (NextErr (errorHandler 403 "Forbidden"), s)
  else (Next (set_user admin_principal r), s).

(** ** The contract of a gate *)

Class Gate (gate : forall {S : Type}, handler S) (authorized : request -> bool)
      (who : principal) := {
  gate_store : forall S r (s : S), snd (gate r s) = s;
  gate_allow : forall S r (s : S), authorized r = true -> fst (gate r s) = Next (set_user who r);
  gate_deny : forall S r (s : S), authorized r = false -> exists e, fst (gate r s) = NextErr e
}.

(** ** [verifyToken] is a gate *)

Definition token_ok (r : request) : bool := bool_decide (access_token r = Some staticToken).

#[export] Instance verifyToken_gate : Gate (@verifyToken) token_ok admin_principal.
Proof.
  split.
  - intros S r s. unfold verifyToken. by repeat case_if.
  - intros S r s Hok. unfold token_ok in Hok. apply bool_decide_eq_true in Hok.
    unfold verifyToken. rewrite Hok. done.
  - intros S r s Hok. unfold token_ok in Hok. apply bool_decide_eq_false in Hok.
    unfold verifyToken. rewrite (bool_decide_eq_false_2 _ Hok).
    destruct (opt_str_truthy (access_token r)); simpl; eauto.
Qed.

Section GateClient.
  Context `{Gate gate authorized who}.
  Context {S : Type}.

  (** A route whose first handler is the gate runs the rest of its handlers
      on the request with the principal bound, or stops with an error and
      the store unchanged. *)
Lemma gate_guarded_route (hs : list (handler S)) r s :
    run_handlers (gate S :: hs) r s =
      if authorized r then run_handlers hs (set_user who r) s
      else (fst (gate S r s), s).
  Proof.
    simpl. destruct (authorized r) eqn:Ha.
    - pose proof (gate_allow S r s Ha) as Hn. pose proof (gate_store S r s) as Hs.
      destruct (gate S r s) as [o s'] eqn:E. simpl in *. by subst.
    - destruct (gate_deny S r s Ha) as [e He]. pose proof (gate_store S r s) as Hs.
      destruct (gate S r s) as [o s'] eqn:E. simpl in *. by subst.
  Qed.

Lemma gate_denied_error (hs : list (handler S)) r s :
    authorized r = false ->
    exists e, run_handlers (gate S :: hs) r s = (NextErr e, s).
  Proof.
    intros Ha. rewrite gate_guarded_route, Ha.
    destruct (gate_deny S r s Ha) as [e ->]. by exists e.
  Qed.
End GateClient.



(** What [verifyToken] answers to a request without the token. *)
Lemma verifyToken_denied {S} r (s : S) :
  token_ok r = false ->
  verifyToken r s =
    (NextErr (if opt_str_truthy (access_token r) then errorHandler 403 "Forbidden"
              else errorHandler 401 "Unauthorized"), s).
Proof.
  unfold token_ok, verifyToken. intros Hok. rewrite Hok.
  by destruct (opt_str_truthy (access_token r)).
Qed.

Lemma token_ok_true r : token_ok r = true <-> access_token r = Some staticToken.
Proof. unfold token_ok. by rewrite bool_decide_eq_true. Qed.

(** ** Properties of [verifyToken] *)

(** C3: [verifyToken] calls [next()] exactly when the [access_token]
    cookie is the hard-coded token, and then the request goes on with
    [req.user] bound to [{id: "admin", role: "admin"}], whoever sent it. *)
Theorem verifyToken_passes_iff {S} r (s : S) r' :
  fst (verifyToken r s) = Next r' <->
  access_token r = Some staticToken /\ r' = set_user admin_principal r.
Proof.
  destruct (token_ok r) eqn:Hok.
  - pose proof Hok as Ht. apply token_ok_true in Ht.
    unfold verifyToken. rewrite Ht. simpl.
    split; [intros [= <-]; done|intros [_ ->]; done].
  - rewrite verifyToken_denied by done. simpl.
    split; [done|]. intros [Ht _]. apply token_ok_true in Ht. congruence.
Qed.

(** C4: [verifyToken] refuses with 401 [Unauthorized] a request whose
    [access_token] cookie is absent or empty, with 403 [Forbidden] one
    whose cookie is any other string, and never changes the store. *)
Theorem verifyToken_rejects {S} r (s : S) :
  (access_token r = None \/ access_token r = Some "" ->
   verifyToken r s = (NextErr (errorHandler 401 "Unauthorized"), s)) /\
  (forall t, access_token r = Some t -> t <> "" -> t <> staticToken ->
   verifyToken r s = (NextErr (errorHandler 403 "Forbidden"), s)).
Proof.
  split.
  - intros Hr. rewrite verifyToken_denied.
    + by destruct Hr as [-> | ->].
    + unfold token_ok. apply bool_decide_eq_false. by destruct Hr as [-> | ->].
  - intros t Ht Hne Hns. rewrite verifyToken_denied.
    + rewrite Ht. unfold opt_str_truthy, str_truthy.
      by apply String.eqb_neq in Hne as ->.
    + unfold token_ok. apply bool_decide_eq_false. rewrite Ht. congruence.
Qed.

(** ** Witnesses *)

Lemma verifyToken_rejects_witness :
  @verifyToken unit (mkRequest POST [] [("access_token", "guess")] [] JNull [] None) tt =
    (NextErr (errorHandler 403 "Forbidden"), tt).
Proof.
  apply (proj2 (verifyToken_rejects _ tt) "guess"); [reflexivity|discriminate|].
  vm_compute. discriminate.
Defined.
