(* ===== verification/Controller.v ===== *)
(** * The listing controller (specification 4.2, 4.3 and 7)

    [api/controllers/listing.controller.js] is not under [src/]; the five
    handlers the routers of [src/api/routes/] import from it are modelled
    from the specification:

    - [createListing]: decode the draft from the body, check the two
      invariants, insert it under a fresh id with the requester as owner;
    - [getListing]: fetch by [req.params.id], [NotFound] when absent;
    - [getListings]: filter by search term, type and offer, sort by the
      requested key and order (default: creation time, descending), skip
      [startIndex] and keep at most [limit] (default [default_limit]);
    - [updateListing]: [NotFound], then [Forbidden] unless the requester
      owns the listing, then merge the patch and re-validate;
    - [deleteListing]: [NotFound], then the same ownership check, then
      remove.

    The requester is [req.user.id]: on a request no gate has run on,
    [req.user] is [undefined] and reading [.id] throws a [TypeError], which
    the async handler passes to [next] (status 500 at the global handler).
    Successful answers use the envelope of section 4.3:
    [{success: true, statusCode, data}] or [{success: true, statusCode,
    message}]; failures are [errorHandler(status, message)] with the
    statuses of section 7.

    Theorems: the behaviour of each handler on every branch, the two
    validation rules as equivalences, the ownership rule, read-after-delete,
    the bounds, filter and order of [getListings], that every handler
    preserves the store invariant [db_wf], and that a failing handler, or
    any handler without a connection, writes nothing. *)

From S2P Require Import Prelude Js Express Listing.
From Stdlib Require Import Sorted.

(** ** Failures and envelopes *)

Inductive failure := Unauthorized | Forbidden | NotFound | ValidationError | UpstreamFailure.

#[export] Instance failure_eq_dec : EqDecision failure.
Proof. solve_decision. Defined.

Definition status_of_failure (f : failure) : Z :=
  match f with
  | Unauthorized => 401 | Forbidden => 403 | NotFound => 404
  | ValidationError => 400 | UpstreamFailure => 500
  end.

Definition message_of_failure (f : failure) : string :=
  match f with
  | Unauthorized => "Unauthorized" | Forbidden => "Forbidden"
  | NotFound => "Listing not found!" | ValidationError => "ValidationError"
  | UpstreamFailure => "Internal Server Error"
  end.

Definition fail (f : failure) : http_error :=
  errorHandler (status_of_failure f) (message_of_failure f).

(** The [TypeError] of reading [req.user.id] when [req.user] is unset: it
    carries no [statusCode]. *)
Definition user_type_error : http_error :=
  mkError None "Cannot read properties of undefined (reading 'id')".

Definition ok_data (code : Z) (data : json) : json :=
  JObject [("success", JBool true); ("statusCode", JNumber code); ("data", data)].

Definition ok_message (code : Z) (msg : string) : json :=
  JObject [("success", JBool true); ("statusCode", JNumber code); ("message", JString msg)].

(** [req.user.id] *)
Definition requester (r : request) : option string := option_map user_id (req_user r).

(** [req.params.id] *)
Definition param_id (r : request) : string := default "" ((req_params r).["id"]).

(** ** Create, read one, update, delete *)

(** A query on the collection: with no connection, mongoose fails it and
    the handler passes the error on ([UpstreamFailure], section 7). *)
Definition db_query (s : db) (k : outcome * db) : outcome * db :=
  if db_connected s then k else (NextErr (fail UpstreamFailure), s).

(** The document [Listing.create] stores: a fresh id and the current time. *)
Definition new_listing (s : db) (owner : string) (d : draft) : listing :=
  mkListing (fresh_id (db_next s)) owner d (db_clock s) (db_clock s).

Definition insert_new (s : db) (l : listing) : db :=
  mkDb (<[l_id l := l]> (db_listings s)) (db_next s + 1) (db_clock s + 1) (db_connected s).

Definition createListing : handler db := fun r s =>
  match draft_of_json (req_body r) with
  | None => (NextErr (fail ValidationError), s)
  | Some d =>
      if negb (validate d) then (NextErr (fail ValidationError), s)
      else match requester r with
           | None => (NextErr user_type_error, s)
           | Some owner =>
               db_query s
                 (let l := new_listing s owner d in
                  (Respond (json_response 200 (ok_data 200 (listing_to_json l))), insert_new s l))
           end
  end.

Definition getListing : handler db := fun r s =>
  db_query s
    (match db_listings s !! param_id r with
     | None => (NextErr (fail NotFound), s)
     | Some l => (Respond (json_response 200 (ok_data 200 (listing_to_json l))), s)
     end).

(** The ownership check shared by update and delete: the stored listing
    when it exists and belongs to the requester. *)
Definition owned_listing (r : request) (s : db) : http_error + listing :=
  if negb (db_connected s) then inl (fail UpstreamFailure) else
  match db_listings s !! param_id r with
  | None => inl (fail NotFound)
  | Some l =>
      match requester r with
      | None => inl user_type_error
      | Some u => if String.eqb u (l_userRef l) then inr l else inl (fail Forbidden)
      end
  end.

Definition updateListing : handler db := fun r s =>
  match owned_listing r s with
  | inl e => (NextErr e, s)
  | inr l =>
      match merge_patch (l_draft l) (req_body r) with
      | None => (NextErr (fail ValidationError), s)
      | Some d =>
          if negb (validate d) then (NextErr (fail ValidationError), s)
          else
            let l' := mkListing (l_id l) (l_userRef l) d (l_createdAt l) (db_clock s) in
            (Respond (json_response 200 (ok_data 200 (listing_to_json l'))),
             mkDb (<[l_id l := l']> (db_listings s)) (db_next s) (db_clock s + 1) (db_connected s))
      end
  end.

Definition deleteListing : handler db := fun r s =>
  match owned_listing r s with
  | inl e => (NextErr e, s)
  | inr l =>
      (Respond (json_response 200 (ok_message 200 "Listing has been deleted!")),
       mkDb (delete (l_id l) (db_listings s)) (db_next s) (db_clock s) (db_connected s))
  end.

(** ** Read many *)

Inductive sort_key := SortCreatedAt | SortRegularPrice.
Inductive sort_order := Asc | Desc.

Record query := mkQuery {
  q_search : string;
  q_type : option listing_type;
  q_offer : option bool;
  q_limit : nat;
  q_start : nat;
  q_sort : sort_key;
  q_order : sort_order
}.

(** The specification leaves the default page size open; this is the one
    the model uses.  No theorem depends on its value. *)
Definition default_limit : nat := 9.

(** A positive integer query parameter, read with [parseInt]. *)
Definition positive_param (o : option string) : option nat :=
  match o with
  | Some t => match parseInt t with
              | JNum n => if (0 <? n)%Z then Some (Z.to_nat n) else None
              | JNaN => None
              end
  | None => None
  end.

Definition parse_query (q : list (string * string)) : query :=
  mkQuery (default "" q.["searchTerm"])
          (match q.["type"] with Some t => listing_type_of_string t | None => None end)
          (if bool_decide (q.["offer"] = Some "true") then Some true else None)
          (default default_limit (positive_param q.["limit"]))
          (default 0 (positive_param q.["startIndex"]))
          (if bool_decide (q.["sort"] = Some "regularPrice") then SortRegularPrice
           else SortCreatedAt)
          (if bool_decide (q.["order"] = Some "asc") then Asc else Desc).

(** Case-insensitive search of the term in the name. *)
Definition contains (needle hay : string) : bool :=
  match String.index 0 needle hay with Some _ => true | None => false end.

Definition listing_matches (q : query) (l : listing) : bool :=
  contains (js_to_lower (q_search q)) (js_to_lower (d_name (l_draft l))) &&
  match q_type q with Some t => bool_decide (d_type (l_draft l) = t) | None => true end &&
  match q_offer q with Some b => Bool.eqb (d_offer (l_draft l)) b | None => true end.

Definition sort_value (k : sort_key) (l : listing) : Z :=
  match k with
  | SortCreatedAt => l_createdAt l
  | SortRegularPrice => d_regularPrice (l_draft l)
  end.

(** [a] may come before [b] in the requested order. *)
Definition ordered (q : query) (a b : listing) : bool :=
  match q_order q with
  | Asc => (sort_value (q_sort q) a <=? sort_value (q_sort q) b)%Z
  | Desc => (sort_value (q_sort q) b <=? sort_value (q_sort q) a)%Z
  end.

(** Insertion sort by a boolean order. *)
Fixpoint insert_by {A} (le : A -> A -> bool) (x : A) (l : list A) : list A :=
  match l with
  | [] => [x]
  | y :: l' => if le x y then x :: y :: l' else y :: insert_by le x l'
  end.

Fixpoint sort_by {A} (le : A -> A -> bool) (l : list A) : list A :=
  match l with
  | [] => []
  | x :: l' => insert_by le x (sort_by le l')
  end.

Definition query_listings (q : query) (s : db) : list listing :=
  take (q_limit q) (drop (q_start q)
    (sort_by (ordered q) (List.filter (listing_matches q) (map snd (map_to_list (db_listings s)))))).

Definition getListings : handler db := fun r s =>
  let found := query_listings (parse_query (req_query r)) s in
  db_query s (Respond (json_response 200 (ok_data 200 (JArray (map listing_to_json found)))), s).

(** ** Sample data for the witnesses *)

Definition sample_draft : draft :=
  mkDraft "Villa" "Sea view" "1 Main St" Rent 3 2 500 450 true false true ["https://img/1"].

Definition sample_listing : listing := mkListing (fresh_id 0) "admin" sample_draft 0 0.

(** A store holding one listing, owned by ["admin"], under id ["0"]. *)
Definition sample_db : db := mkDb {[fresh_id 0 := sample_listing]} 1 1 true.

Definition sample_request (m : method) (ps : list (string * string)) (u : option principal)
    (b : json) : request :=
  mkRequest m [] [] [] b ps u.

(** ** Insertion sort *)

Section SortBy.
  Context {A : Type} (le : A -> A -> bool).
  Hypothesis le_total : forall a b, le a b = false -> le b a = true.

Let R (a b : A) : Prop := le a b = true.

Lemma insert_by_perm x l : insert_by le x l ≡ₚ x :: l.
  Proof.
    induction l as [|y l IH]; [done|]. simpl. case_if; [done|].
    rewrite IH. apply perm_swap.
  Qed.

Lemma sort_by_perm l : sort_by le l ≡ₚ l.
  Proof.
    induction l as [|x l IH]; [done|]. simpl. by rewrite insert_by_perm, IH.
  Qed.

Lemma insert_by_hd y x l : R y x -> HdRel R y l -> HdRel R y (insert_by le x l).
  Proof.
    intros Hyx Hl. destruct l as [|z l]; simpl; [by constructor|].
    case_if; constructor; [done|]. by inversion Hl.
  Qed.

Lemma insert_by_sorted x l : Sorted R l -> Sorted R (insert_by le x l).
  Proof.
    induction l as [|y l IH]; intros Hs; simpl; [by repeat constructor|].
    apply Sorted_inv in Hs as [Hl Hhd].
    case_if.
    - constructor; [by constructor|]. by constructor.
    - constructor; [by apply IH|]. apply insert_by_hd; [by apply le_total|done].
  Qed.

Lemma sort_by_sorted l : Sorted R (sort_by le l).
  Proof. induction l; simpl; [constructor|]. by apply insert_by_sorted. Qed.
End SortBy.

Lemma Sorted_drop {A} (R : A -> A -> Prop) k l : Sorted R l -> Sorted R (drop k l).
Proof.
  revert l. induction k as [|k IH]; intros l Hs; [done|].
  destruct l as [|x l]; [done|]. apply Sorted_inv in Hs as [Hs _]. by apply IH.
Qed.

Lemma Sorted_take {A} (R : A -> A -> Prop) n l : Sorted R l -> Sorted R (take n l).
Proof.
  revert l. induction n as [|n IH]; intros l Hs; [constructor|].
  destruct l as [|x l]; [constructor|]. simpl.
  apply Sorted_inv in Hs as [Hs Hhd]. constructor; [by apply IH|].
  destruct l as [|y l], n; simpl; constructor. by inversion Hhd.
Qed.

Lemma ordered_total q a b : ordered q a b = false -> ordered q b a = true.
Proof. unfold ordered. destruct (q_order q); rewrite !Z.leb_gt, ?Z.leb_le; lia. Qed.

(** ** Lemmas on the handlers *)

Lemma validate_false_iff d :
  validate d = false <->
  length (d_imageUrls d) = 0%nat \/ (6 < length (d_imageUrls d))%nat \/
  (d_offer d = true /\ (d_regularPrice d <= d_discountPrice d)%Z).
Proof.
  unfold validate, images_ok, prices_ok.
  rewrite !andb_false_iff, !Nat.leb_gt.
  destruct (d_offer d); [rewrite Z.ltb_ge|]; intuition (try lia; try discriminate).
Qed.

Lemma db_query_up s k : db_connected s = true -> db_query s k = k.
Proof. unfold db_query. by intros ->. Qed.

Lemma db_query_down s k :
  db_connected s = false -> db_query s k = (NextErr (fail UpstreamFailure), s).
Proof. unfold db_query. by intros ->. Qed.

Lemma owned_listing_inr r s l :
  owned_listing r s = inr l ->
  db_listings s !! param_id r = Some l /\ requester r = Some (l_userRef l).
Proof.
  unfold owned_listing. destruct (db_connected s); [|done]. simpl.
  destruct (db_listings s !! param_id r) as [l0|]; [|done].
  destruct (requester r) as [u|]; [|done]. case_if; [|done].
  intros [= <-]. string_cases. done.
Qed.

Lemma owned_listing_connected r s l : owned_listing r s = inr l -> db_connected s = true.
Proof. unfold owned_listing. by destruct (db_connected s). Qed.

Lemma owned_listing_notfound r s :
  db_connected s = true ->
  db_listings s !! param_id r = None -> owned_listing r s = inl (fail NotFound).
Proof. unfold owned_listing. by intros -> ->. Qed.

Lemma owned_listing_forbidden r s l u :
  db_connected s = true ->
  db_listings s !! param_id r = Some l -> requester r = Some u -> u <> l_userRef l ->
  owned_listing r s = inl (fail Forbidden).
Proof.
  unfold owned_listing. intros -> -> -> Hne. by apply String.eqb_neq in Hne as ->.
Qed.

#[export] Hint Resolve owned_listing_notfound owned_listing_forbidden : webapp.

(** The response of a mutating handler, when it is one, went through the
    ownership check. *)
Lemma update_respond_owned r s res s' :
  updateListing r s = (Respond res, s') -> exists l, owned_listing r s = inr l.
Proof.
  unfold updateListing. destruct (owned_listing r s) as [e|l]; [done|eauto].
Qed.

Lemma delete_respond_owned r s res s' :
  deleteListing r s = (Respond res, s') -> exists l, owned_listing r s = inr l.
Proof.
  unfold deleteListing. destruct (owned_listing r s) as [e|l]; [done|eauto].
Qed.

(** In a well-formed store a listing sits under its own id. *)
Lemma db_wf_id s k l : db_wf s -> db_listings s !! k = Some l -> l_id l = k.
Proof. intros Hwf Hk. by destruct (Hwf _ _ Hk). Qed.

Lemma elem_of_db_values s l :
  l ∈ map snd (map_to_list (db_listings s)) -> exists k, db_listings s !! k = Some l.
Proof.
  intros Hl. apply list_elem_of_fmap in Hl as [[k l'] [-> Hkl]].
  apply elem_of_map_to_list in Hkl. by exists k.
Qed.

Lemma owned_listing_down r s :
  db_connected s = false -> owned_listing r s = inl (fail UpstreamFailure).
Proof. unfold owned_listing. by intros ->. Qed.

Lemma createListing_success r s d u :
  db_connected s = true ->
  draft_of_json (req_body r) = Some d -> validate d = true -> requester r = Some u ->
  createListing r s =
    (Respond (json_response 200 (ok_data 200 (listing_to_json (new_listing s u d)))),
     insert_new s (new_listing s u d)).
Proof. intros Hup Hd Hv Hu. unfold createListing. by rewrite Hd, Hv, Hu, db_query_up. Qed.

Lemma createListing_wf r s : db_wf s -> db_wf (snd (createListing r s)).
Proof.
  intros Hwf. unfold createListing.
  destruct (draft_of_json (req_body r)) as [d|]; [|done].
  destruct (validate d) eqn:Hv; [|done]. simpl.
  destruct (requester r); [|done]. unfold db_query.
  destruct (db_connected s); first [done | by apply db_wf_insert_fresh].
Qed.

Lemma insert_new_fresh s u d :
  db_wf s ->
  db_listings s !! l_id (new_listing s u d) = None /\
  db_listings (insert_new s (new_listing s u d)) !! l_id (new_listing s u d) =
    Some (new_listing s u d).
Proof.
  intros Hwf. split; [by apply db_wf_fresh|]. simpl. by rewrite lookup_insert_eq.
Qed.

Lemma updateListing_wf r s : db_wf s -> db_wf (snd (updateListing r s)).
Proof.
  intros Hwf. unfold updateListing.
  destruct (owned_listing r s) as [e|l] eqn:Ho; [done|].
  apply owned_listing_inr in Ho as [Hl _].
  destruct (merge_patch (l_draft l) (req_body r)) as [d|]; [|done].
  destruct (validate d) eqn:Hv; [|done]. simpl.
  apply db_wf_replace; [done| |done|done].
  rewrite (db_wf_id s _ l Hwf Hl). eauto.
Qed.

Lemma deleteListing_wf r s : db_wf s -> db_wf (snd (deleteListing r s)).
Proof.
  intros Hwf. unfold deleteListing.
  destruct (owned_listing r s); [done|]. by apply db_wf_delete.
Qed.

Lemma query_listings_spec q s :
  let ls := query_listings q s in
  (length ls <= q_limit q)%nat /\
  Forall (fun l => listing_matches q l = true /\ exists k, db_listings s !! k = Some l) ls /\
  Sorted (fun a b => ordered q a b = true) ls.
Proof.
  unfold query_listings. split; [apply length_take_drop_le|]. split.
  - apply Forall_forall. intros l Hl. apply elem_of_take_drop in Hl.
    rewrite sort_by_perm in Hl. apply list_elem_of_In, filter_In in Hl as [Hl Hm].
    split; [done|]. apply elem_of_db_values. by apply list_elem_of_In.
  - apply Sorted_take, Sorted_drop, sort_by_sorted, ordered_total.
Qed.

Lemma positive_param_to_string n :
  (0 < n)%Z -> positive_param (Some (js_num_to_string (JNum n))) = Some (Z.to_nat n).
Proof.
  intros Hn. unfold positive_param. rewrite parseInt_to_string.
  by destruct (Z.ltb_spec 0 n); [|lia].
Qed.

(** No handler of the controller calls [next()]. *)
Lemma controller_terminal h :
  h = createListing \/ h = getListing \/ h = getListings \/ h = updateListing \/
  h = deleteListing -> terminal h.
Proof.
  intros Hh r s r'. destruct Hh as [-> | [-> | [-> | [-> | ->]]]].
  - unfold createListing. destruct (draft_of_json _); [|done].
    destruct (validate _); [|done]. destruct (requester r); [|done].
    unfold db_query. by destruct (db_connected s).
  - unfold getListing, db_query. destruct (db_connected s); [|done]. by destruct (_ !! _).
  - unfold getListings, db_query. by destruct (db_connected s).
  - unfold updateListing. destruct (owned_listing r s); [done|].
    destruct (merge_patch _ _); [|done]. by destruct (validate _).
  - unfold deleteListing. by destruct (owned_listing r s).
Qed.

(** The errors the controller passes to [next(err)]: a failure of the
    taxonomy, or the [TypeError] of an unset [req.user]. *)
Lemma controller_errors h r s e :
  h = createListing \/ h = getListing \/ h = getListings \/ h = updateListing \/
  h = deleteListing -> fst (h r s) = NextErr e ->
  (exists f, e = fail f) \/ e = user_type_error.
Proof.
  intros Hh. destruct Hh as [-> | [-> | [-> | [-> | ->]]]]; simpl.
  - unfold createListing. destruct (draft_of_json _); [|intros [= <-]; eauto].
    destruct (validate _); [|intros [= <-]; eauto]. destruct (requester r); [|intros [= <-]; eauto].
    unfold db_query. destruct (db_connected s); [done|intros [= <-]; eauto].
  - unfold getListing, db_query. destruct (db_connected s); [|intros [= <-]; eauto].
    destruct (_ !! _); [done|]. intros [= <-]; eauto.
  - unfold getListings, db_query. destruct (db_connected s); [done|intros [= <-]; eauto].
  - unfold updateListing, owned_listing.
    destruct (db_connected s); simpl; [|intros [= <-]; eauto].
    destruct (_ !! _) as [l|]; [|intros [= <-]; eauto].
    destruct (requester r); [|intros [= <-]; eauto]. case_if; [|intros [= <-]; eauto].
    destruct (merge_patch _ _); [|intros [= <-]; eauto].
    destruct (validate _); [done|intros [= <-]; eauto].
  - unfold deleteListing, owned_listing.
    destruct (db_connected s); simpl; [|intros [= <-]; eauto].
    destruct (_ !! _) as [l|]; [|intros [= <-]; eauto].
    destruct (requester r); [|intros [= <-]; eauto]. case_if; [done|intros [= <-]; eauto].
Qed.

(** A failing handler of the controller writes nothing: every
    [next(err)] comes before the one write of the handler. *)
Lemma controller_error_keeps h r s e s' :
  h = createListing \/ h = getListing \/ h = getListings \/ h = updateListing \/
  h = deleteListing -> h r s = (NextErr e, s') -> s' = s.
Proof.
  intros [-> | [-> | [-> | [-> | ->]]]];
    unfold createListing, getListing, getListings, updateListing, deleteListing, db_query;
    repeat case_match; by intros [= _ <-].
Qed.

(** Without a connection, no handler of the controller changes the store. *)
Lemma controller_down_keeps h r s :
  h = createListing \/ h = getListing \/ h = getListings \/ h = updateListing \/
  h = deleteListing -> db_connected s = false -> snd (h r s) = s.
Proof.
  intros [-> | [-> | [-> | [-> | ->]]]] Hdown;
    unfold createListing, getListing, getListings, updateListing, deleteListing;
    rewrite ?owned_listing_down by done; repeat case_match; by rewrite ?db_query_down.
Qed.

(** The handlers of the controller never change the connection. *)
Lemma controller_keeps_connection h r s :
  h = createListing \/ h = getListing \/ h = getListings \/ h = updateListing \/
  h = deleteListing -> db_connected (snd (h r s)) = db_connected s.
Proof.
  intros [-> | [-> | [-> | [-> | ->]]]];
    unfold createListing, getListing, getListings, updateListing, deleteListing, db_query;
    repeat case_match; done.
Qed.

(** ** Behaviour of the handlers *)

(** Create fails with [ValidationError], leaving the store unchanged,
    exactly when the submitted draft has no image or more than six, or is
    an offer whose discount price is not strictly below its regular price
    (specification section 8, first two properties). *)
Theorem createListing_rejects_iff r s d :
  draft_of_json (req_body r) = Some d ->
  createListing r s = (NextErr (fail ValidationError), s) <->
  length (d_imageUrls d) = 0%nat \/ (6 < length (d_imageUrls d))%nat \/
  (d_offer d = true /\ (d_regularPrice d <= d_discountPrice d)%Z).
Proof.
  intros Hd. rewrite <-validate_false_iff. unfold createListing. rewrite Hd.
  destruct (validate d); simpl; [|tauto].
  destruct (requester r); [unfold db_query; destruct (db_connected s)|];
    split; intros H; discriminate || (inversion H; fail) || done.
Qed.

(** Create of a valid draft by a requester [u] answers 200 with the
    new listing, whose id was free in the store, whose owner is [u] and
    whose fields are the draft's; the store gains exactly that listing and
    stays well formed. *)
Theorem createListing_inserts r s d u :
  db_wf s -> db_connected s = true -> draft_of_json (req_body r) = Some d -> validate d = true ->
  requester r = Some u ->
  exists l s', createListing r s =
      (Respond (json_response 200 (ok_data 200 (listing_to_json l))), s') /\
    db_listings s !! l_id l = None /\
    db_listings s' = <[l_id l := l]> (db_listings s) /\
    l_userRef l = u /\ l_draft l = d /\ db_wf s'.
Proof.
  intros Hwf Hup Hd Hv Hu. rewrite (createListing_success r s d u Hup Hd Hv Hu).
  eexists _, _. split; [reflexivity|].
  split; [by apply db_wf_fresh|]. split; [done|]. do 2 (split; [done|]).
  by apply db_wf_insert_fresh.
Qed.

(** Update by the owner of an existing listing fails with
    [ValidationError], leaving the store unchanged, exactly when the merged
    listing breaks one of the two invariants of create. *)
Theorem updateListing_rejects_iff r s l d :
  db_connected s = true -> db_listings s !! param_id r = Some l -> requester r = Some (l_userRef l) ->
  merge_patch (l_draft l) (req_body r) = Some d ->
  updateListing r s = (NextErr (fail ValidationError), s) <->
  length (d_imageUrls d) = 0%nat \/ (6 < length (d_imageUrls d))%nat \/
  (d_offer d = true /\ (d_regularPrice d <= d_discountPrice d)%Z).
Proof.
  intros Hup Hl Hu Hd. rewrite <-validate_false_iff.
  unfold updateListing, owned_listing. rewrite Hup. simpl. rewrite Hl, Hu, String.eqb_refl, Hd.
  destruct (validate d); simpl; split; intros H; done || (inversion H; fail).
Qed.

(** Update and Delete succeed only for the owner: when either answers
    with a response, the listing named by [req.params.id] exists and
    [req.user.id] is its [userRef]. *)
Theorem mutation_requires_owner h r s res s' :
  h = updateListing \/ h = deleteListing ->
  h r s = (Respond res, s') ->
  exists l, db_listings s !! param_id r = Some l /\ requester r = Some (l_userRef l).
Proof.
  intros [-> | ->] Hres;
    [destruct (update_respond_owned _ _ _ _ Hres) as [l Hl]
    |destruct (delete_respond_owned _ _ _ _ Hres) as [l Hl]];
    exists l; by apply owned_listing_inr.
Qed.

(** Update and Delete by a requester who is not the owner fail with
    [Forbidden] and leave the store unchanged. *)
Theorem nonowner_forbidden h r s l u :
  h = updateListing \/ h = deleteListing -> db_connected s = true ->
  db_listings s !! param_id r = Some l -> requester r = Some u -> u <> l_userRef l ->
  h r s = (NextErr (fail Forbidden), s).
Proof.
  intros [-> | ->] Hup Hl Hu Hne;
    [unfold updateListing|unfold deleteListing];
    by rewrite (owned_listing_forbidden r s l u).
Qed.

(** ReadOne, Update and Delete of an id that is not in the store fail
    with [NotFound] and leave the store unchanged. *)
Theorem missing_listing_not_found h r s :
  h = getListing \/ h = updateListing \/ h = deleteListing -> db_connected s = true ->
  db_listings s !! param_id r = None ->
  h r s = (NextErr (fail NotFound), s).
Proof.
  intros [-> | [-> | ->]] Hup Hl;
    [unfold getListing; by rewrite Hl, db_query_up
    |unfold updateListing|unfold deleteListing]; by rewrite owned_listing_notfound.
Qed.

(** After a successful Delete, reading the same id fails with
    [NotFound]. *)
Theorem delete_then_get_not_found r s res s' r' :
  db_wf s -> deleteListing r s = (Respond res, s') -> param_id r' = param_id r ->
  getListing r' s' = (NextErr (fail NotFound), s').
Proof.
  intros Hwf Hdel Hid. pose proof (delete_respond_owned _ _ _ _ Hdel) as [l Ho].
  unfold deleteListing in Hdel. rewrite Ho in Hdel. injection Hdel as _ <-.
  pose proof (owned_listing_connected _ _ _ Ho) as Hup.
  apply owned_listing_inr in Ho as [Hl _].
  unfold getListing. rewrite db_query_up by done. simpl. rewrite Hid, <-(db_wf_id s _ l Hwf Hl).
  by rewrite lookup_delete_eq.
Qed.

(** ReadMany answers 200 with at most [limit] listings of the store,
    each matching the search term, type and offer filters, in the requested
    order, and does not change the store. *)
Theorem getListings_page r s :
  db_connected s = true ->
  let q := parse_query (req_query r) in
  exists ls,
    getListings r s =
      (Respond (json_response 200 (ok_data 200 (JArray (map listing_to_json ls)))), s) /\
    (length ls <= q_limit q)%nat /\
    Forall (fun l => listing_matches q l = true /\ exists k, db_listings s !! k = Some l) ls /\
    Sorted (fun a b => ordered q a b = true) ls.
Proof.
  intros Hup q. exists (query_listings q s). split; [unfold getListings; by rewrite db_query_up|].
  apply query_listings_spec.
Qed.

(** Every handler of the controller preserves the store invariant:
    documents stay under their own id, satisfy the invariants of section
    4.2, and carry ids the counter issued. *)
Theorem controller_preserves_wf h r s :
  h = createListing \/ h = getListing \/ h = getListings \/ h = updateListing \/
  h = deleteListing ->
  db_wf s -> db_wf (snd (h r s)).
Proof.
  intros [-> | [-> | [-> | [-> | ->]]]] Hwf.
  - by apply createListing_wf.
  - unfold getListing, db_query. by destruct (db_connected s), (db_listings s !! param_id r).
  - unfold getListings, db_query. by destruct (db_connected s).
  - by apply updateListing_wf.
  - by apply deleteListing_wf.
Qed.

(** ** Examples *)

Lemma sample_db_wf : db_wf sample_db.
Proof.
  intros k l Hk. simpl in Hk. apply lookup_singleton_Some in Hk as [<- <-].
  split; [reflexivity|]. split; [vm_compute; reflexivity|].
  exists 0%N. split; [reflexivity|]. simpl. lia.
Qed.

Lemma createListing_rejects_iff_example :
  let d := mkDraft "Villa" "" "" Sale 1 1 100 100 true false false ["u"] in
  let r := sample_request POST [] None (JObject (json_of_draft_fields d)) in
  draft_of_json (req_body r) = Some d /\
  (createListing r db_empty = (NextErr (fail ValidationError), db_empty) <->
   length (d_imageUrls d) = 0%nat \/ (6 < length (d_imageUrls d))%nat \/
   (d_offer d = true /\ (d_regularPrice d <= d_discountPrice d)%Z)).
Proof.
  intros d r. split; [vm_compute; reflexivity|].
  apply createListing_rejects_iff. vm_compute. reflexivity.
Defined.

Lemma createListing_inserts_example :
  let r := sample_request POST [] (Some (mkPrincipal "alice" "user"))
             (JObject (json_of_draft_fields sample_draft)) in
  exists l s', createListing r db_empty =
      (Respond (json_response 200 (ok_data 200 (listing_to_json l))), s') /\
    db_listings db_empty !! l_id l = None /\
    db_listings s' = <[l_id l := l]> (db_listings db_empty) /\
    l_userRef l = "alice" /\ l_draft l = sample_draft /\ db_wf s'.
Proof.
  intros r. apply createListing_inserts.
  - apply db_empty_wf.
  - reflexivity.
  - vm_compute. reflexivity.
  - vm_compute. reflexivity.
  - reflexivity.
Defined.

Lemma updateListing_rejects_iff_example :
  let r := sample_request POST [("id", "0")] (Some (mkPrincipal "admin" "admin"))
             (JObject [("imageUrls", JArray [])]) in
  let d := mkDraft "Villa" "Sea view" "1 Main St" Rent 3 2 500 450 true false true [] in
  (updateListing r sample_db = (NextErr (fail ValidationError), sample_db) <->
   length (d_imageUrls d) = 0%nat \/ (6 < length (d_imageUrls d))%nat \/
   (d_offer d = true /\ (d_regularPrice d <= d_discountPrice d)%Z)).
Proof.
  intros r d. apply (updateListing_rejects_iff r sample_db sample_listing d);
    vm_compute; reflexivity.
Defined.

Lemma mutation_requires_owner_example :
  let r := sample_request DELETE [("id", "0")] (Some (mkPrincipal "admin" "admin")) JNull in
  exists l, db_listings sample_db !! param_id r = Some l /\ requester r = Some (l_userRef l).
Proof.
  intros r. apply (mutation_requires_owner deleteListing r sample_db
    (json_response 200 (ok_message 200 "Listing has been deleted!"))
    (mkDb (delete (fresh_id 0) (db_listings sample_db)) 1 1 true)).
  - right. reflexivity.
  - vm_compute. reflexivity.
Defined.

Lemma nonowner_forbidden_example :
  let r := sample_request POST [("id", "0")] (Some (mkPrincipal "bob" "user")) JNull in
  updateListing r sample_db = (NextErr (fail Forbidden), sample_db).
Proof.
  intros r. apply (nonowner_forbidden updateListing r sample_db sample_listing "bob").
  - left. reflexivity.
  - reflexivity.
  - vm_compute. reflexivity.
  - reflexivity.
  - discriminate.
Defined.

Lemma missing_listing_not_found_example :
  let r := sample_request GET [("id", "42")] None JNull in
  getListing r sample_db = (NextErr (fail NotFound), sample_db).
Proof.
  intros r. apply missing_listing_not_found.
  - left. reflexivity.
  - reflexivity.
  - vm_compute. reflexivity.
Defined.

Lemma delete_then_get_not_found_example :
  let r := sample_request DELETE [("id", "0")] (Some (mkPrincipal "admin" "admin")) JNull in
  getListing (sample_request GET [("id", "0")] None JNull)
    (mkDb (delete (fresh_id 0) (db_listings sample_db)) 1 1 true) =
  (NextErr (fail NotFound), mkDb (delete (fresh_id 0) (db_listings sample_db)) 1 1 true).
Proof.
  intros r. apply (delete_then_get_not_found r sample_db
    (json_response 200 (ok_message 200 "Listing has been deleted!"))).
  - apply sample_db_wf.
  - vm_compute. reflexivity.
  - reflexivity.
Defined.

Lemma controller_preserves_wf_example :
  db_wf (snd (createListing (sample_request POST [] (Some (mkPrincipal "admin" "admin"))
                              (JObject (json_of_draft_fields sample_draft))) db_empty)).
Proof.
  apply controller_preserves_wf.
  - left. reflexivity.
  - apply db_empty_wf.
Defined.
