(* ===== verification/App.v ===== *)
(** * The application ([src/api/index.js] and [src/api/routes/])

    The stack of [index.js], layer by layer: [express.json()] and
    [cookieParser()] (whose parsing is part of the request model), the
    admin router on [/api/admin], the user and auth routers, the listing
    router on [/api/listing], [express.static] on [client/dist], the
    catch-all [GET *] serving [index.html] and the global error handler.

    The user and auth routers ([routes/user.route.js], [auth.route.js])
    are not under [src/] and the specification does not describe them;
    they are variables of the section, as is the set of files under
    [client/dist]: every theorem holds whatever they are.  They are mounted
    on prefixes no request of [/api/listing] or [/api/admin] has.

    Theorems (end to end, on a request as it reaches the server):
    - the admin router has no gate: its answers do not depend on the
      cookies, and [DELETE /api/admin/listings/:id] never removes a
      listing (its [deleteListing] reads the unset [req.user]);
    - the three gated routes of the listing router refuse a request
      without the token with 401 or 403 and leave the store unchanged;
    - create and update with the token: refused with 400 exactly for an
      invalid draft; otherwise create stores a fresh listing owned by
      ["admin"] and update stores the merged one under the same id;
    - update and delete answer 200 only for the token and a listing owned
      by ["admin"]; another owner's listing is refused with 403;
    - delete then read gives 404, a missing id gives 404, and the read-many
      page is bounded, filtered and sorted (specification section 8);
    - every request keeps the store invariant [db_wf], by
      [Express.run_app_preserves] and the controller's lemmas. *)

From S2P Require Import Prelude Js Express Listing Auth Controller.
From Stdlib Require Import Sorted.

(** ** Routers *)

(** [src/api/routes/listing.route.js] *)
Definition listingRouter : list (route_layer db) :=
  [RRoute POST (PSegs [Lit "create"]) [verifyToken; createListing];
   RRoute DELETE (PSegs [Lit "delete"; Param "id"]) [verifyToken; deleteListing];
   RRoute POST (PSegs [Lit "update"; Param "id"]) [verifyToken; updateListing];
   RRoute GET (PSegs [Lit "get"; Param "id"]) [getListing];
   RRoute GET (PSegs [Lit "get"]) [getListings]].

(** [src/api/routes/admin.route.js] *)
Definition adminRouter : list (route_layer db) :=
  [RRoute GET (PSegs [Lit "listings"]) [getListings];
   RRoute DELETE (PSegs [Lit "listings"; Param "id"]) [deleteListing]].

(** ** The application *)

(** [err.statusCode || 500]: an absent or zero status is falsy. *)
Definition status_or_500 (o : option Z) : Z :=
  match o with Some c => if (c =? 0)%Z then 500 else c | None => 500 end.

(** The global error handler of [index.js]. *)
Definition global_error_handler : err_handler db := fun e r s =>
  let statusCode := status_or_500 (err_status e) in
  let message := str_or (err_message e) "Internal Server Error" in
  (Respond (json_response statusCode
     (JObject [("success", JBool false); ("statusCode", JNumber statusCode);
               ("message", JString message)])), s).

(** The catch-all [app.get('*', ...)]: [res.sendFile(.../client/dist/index.html)]. *)
Definition spa_fallback : handler db := fun r s =>
  (Respond (mkResponse 200 (BFile ["client"; "dist"; "index.html"])), s).

(** [express.json()] and [cookieParser()]: requests arrive parsed. *)
Definition express_json : handler db := fun r s => (Next r, s).
Definition cookie_parser : handler db := fun r s => (Next r, s).

Section App.
  Variables (userRouter authRouter : list (route_layer db)) (dist : list (list string)).

  (** [express.static(path.join(__dirname, 'client', 'dist'))]: a [GET] or
      [HEAD] of a file that exists is answered with it; [/] serves
      [index.html]. *)
Definition serve_static : handler db := fun r s =>
    let p := match req_path r with [] => ["index.html"] | p => p end in
    if method_matches GET (req_method r) && bool_decide (p ∈ dist)
    then (Respond (mkResponse 200 (BFile (["client"; "dist"] ++ p))), s)
    else (Next r, s).

Definition app : list (app_layer db) :=
    [AUse express_json; AUse cookie_parser;
     AMount ["api"; "admin"] adminRouter;
     AMount ["api"; "user"] userRouter;
     AMount ["api"; "auth"] authRouter;
     AMount ["api"; "listing"] listingRouter;
     AUse serve_static;
     ARoute GET PStar [spa_fallback];
     AErr global_error_handler].

  (** The layers after the listing router. *)
Definition app_tail : list (app_layer db) :=
    [AUse serve_static; ARoute GET PStar [spa_fallback]; AErr global_error_handler].
End App.

(** A request as it reaches the server: no route parameters, no user. *)
Definition incoming (m : method) (path : list string) (cookies query : list (string * string))
    (b : json) : request :=
  mkRequest m path cookies query b [] None.

(** The answer of the global error handler to [next(err)]. *)
Definition error_response (e : http_error) : response :=
  match global_error_handler e (incoming GET [] [] [] JNull) db_empty with
  | (Respond res, _) => res
  | _ => mkResponse 500 (BText "")
  end.

(** ** Dispatch lemmas *)

#[local] Arguments run_handlers : simpl never.
#[local] Arguments run_router : simpl never.

Definition answer (o : outcome) : response :=
  match o with
  | Respond res => res
  | NextErr e => error_response e
  | Next _ => mkResponse 404 (BText "Cannot handle request")
  end.

Definition stops (p : outcome * db) : Prop := forall r', fst p <> Next r'.

(** The routes of the listing router that carry [verifyToken]. *)
Definition gated_request (m : method) (path : list string) : Prop :=
  (m = POST /\ path = ["api"; "listing"; "create"]) \/
  exists id, id <> "" /\
    ((m = POST /\ path = ["api"; "listing"; "update"; id]) \/
     (m = DELETE /\ path = ["api"; "listing"; "delete"; id])).

(** The two mutation routes of the listing router, with their controller. *)
Definition mutation_route (m : method) (path : list string) (id : string) (h : handler db) : Prop :=
  (m = POST /\ path = ["api"; "listing"; "update"; id] /\ h = updateListing) \/
  (m = DELETE /\ path = ["api"; "listing"; "delete"; id] /\ h = deleteListing).

(** The cookie a signed-in browser sends. *)
Definition token_cookie : list (string * string) := [("access_token", staticToken)].

(** What the admin router's [deleteListing] fails with: the query fails
    without a connection; otherwise an existing listing gives the
    [TypeError] of the unset [req.user], a missing one [NotFound]. *)
Definition admin_delete_error (s : db) (id : string) : http_error :=
  if db_connected s then
    match db_listings s !! id with Some _ => user_type_error | None => fail NotFound end
  else fail UpstreamFailure.

Ltac route_miss Hm Hp := rewrite run_router_miss by (unfold route_match; rewrite Hm, Hp; done).
Ltac route_hit Hm Hp v :=
  rewrite run_router_hit with (ps := v);
  [| unfold route_match; rewrite Hm, Hp; simpl; by repeat case_if | ].

Lemma controller_stops h r s :
  h = createListing \/ h = getListing \/ h = getListings \/ h = updateListing \/
  h = deleteListing -> stops (h r s).
Proof. intros Hh r'. by apply controller_terminal. Qed.

Lemma handle_admin ur ar dist r s rest :
  req_path r = "api" :: "admin" :: rest ->
  stops (run_router adminRouter (set_path rest r) s) ->
  handle (app ur ar dist) r s =
    (answer (fst (run_router adminRouter (set_path rest r) s)),
     snd (run_router adminRouter (set_path rest r) s)).
Proof.
  intros Hp Hn. unfold handle, app. destruct r as [m p c q b ps u]. simpl in Hp. subst p.
  simpl. destruct (run_router adminRouter _ s) as [[r'|e|res] s']; [by destruct (Hn r')|done|done].
Qed.


Lemma admin_router_list r s :
  req_method r = GET -> req_path r = ["listings"] ->
  run_router adminRouter r s = getListings (set_params [] r) s.
Proof.
  intros Hm Hp. unfold adminRouter. route_hit Hm Hp (@nil (string * string));
    rewrite run_handlers_one by (apply controller_terminal; tauto); [done|].
  intros r'. apply controller_terminal. tauto.
Qed.

Lemma admin_router_delete r s id :
  req_method r = DELETE -> req_path r = ["listings"; id] -> id <> "" ->
  run_router adminRouter r s = deleteListing (set_params [("id", id)] r) s.
Proof.
  intros Hm Hp Hid. apply String.eqb_neq in Hid. unfold adminRouter.
  route_miss Hm Hp. route_hit Hm Hp [("id", id)];
    rewrite run_handlers_one by (apply controller_terminal; tauto); [done|].
  intros r'. apply controller_terminal. tauto.
Qed.

Lemma handle_listing ur ar dist r s rest :
  req_path r = "api" :: "listing" :: rest ->
  stops (run_router listingRouter (set_path rest r) s) ->
  handle (app ur ar dist) r s =
    (answer (fst (run_router listingRouter (set_path rest r) s)),
     snd (run_router listingRouter (set_path rest r) s)).
Proof.
  intros Hp Hn. unfold handle, app. destruct r as [m p c q b ps u]. simpl in Hp. subst p.
  simpl. destruct (run_router listingRouter _ s) as [[r'|e|res] s']; [by destruct (Hn r')|done|done].
Qed.


Lemma listing_router_create r s :
  req_method r = POST -> req_path r = ["create"] ->
  run_router listingRouter r s = run_handlers [verifyToken; createListing] (set_params [] r) s.
Proof.
  intros Hm Hp. unfold listingRouter. route_hit Hm Hp (@nil (string * string)); [done|].
  intros r'. apply (run_handlers_terminal [verifyToken]). apply controller_terminal. tauto.
Qed.

Lemma listing_router_update r s id :
  req_method r = POST -> req_path r = ["update"; id] -> id <> "" ->
  run_router listingRouter r s = run_handlers [verifyToken; updateListing] (set_params [("id", id)] r) s.
Proof.
  intros Hm Hp Hid. apply String.eqb_neq in Hid. unfold listingRouter.
  route_miss Hm Hp. route_miss Hm Hp. route_hit Hm Hp [("id", id)]; [done|].
  intros r'. apply (run_handlers_terminal [verifyToken]). apply controller_terminal. tauto.
Qed.

Lemma listing_router_delete r s id :
  req_method r = DELETE -> req_path r = ["delete"; id] -> id <> "" ->
  run_router listingRouter r s = run_handlers [verifyToken; deleteListing] (set_params [("id", id)] r) s.
Proof.
  intros Hm Hp Hid. apply String.eqb_neq in Hid. unfold listingRouter.
  route_miss Hm Hp. route_hit Hm Hp [("id", id)]; [done|].
  intros r'. apply (run_handlers_terminal [verifyToken]). apply controller_terminal. tauto.
Qed.

Lemma listing_router_get r s id :
  req_method r = GET -> req_path r = ["get"; id] -> id <> "" ->
  run_router listingRouter r s = getListing (set_params [("id", id)] r) s.
Proof.
  intros Hm Hp Hid. apply String.eqb_neq in Hid. unfold listingRouter.
  do 3 route_miss Hm Hp. route_hit Hm Hp [("id", id)];
    rewrite run_handlers_one by (apply controller_terminal; tauto); [done|].
  intros r'. apply controller_terminal. tauto.
Qed.

Lemma listing_router_list r s :
  req_method r = GET -> req_path r = ["get"] ->
  run_router listingRouter r s = getListings (set_params [] r) s.
Proof.
  intros Hm Hp. unfold listingRouter.
  do 4 route_miss Hm Hp. route_hit Hm Hp (@nil (string * string));
    rewrite run_handlers_one by (apply controller_terminal; tauto); [done|].
  intros r'. apply controller_terminal. tauto.
Qed.

(** The gate in front of a handler of the controller. *)
Lemma gated_run (h : handler db) r (s : db) :
  run_handlers [verifyToken; h] r s =
    if token_ok r then run_handlers [h] (set_user admin_principal r) s
    else (fst (verifyToken r s), s).
Proof. apply (gate_guarded_route (gate := @verifyToken)). Qed.

Lemma gated_stops (h : handler db) r (s : db) :
  h = createListing \/ h = getListing \/ h = getListings \/ h = updateListing \/
  h = deleteListing -> stops (run_handlers [verifyToken; h] r s).
Proof.
  intros Hh r'. apply (run_handlers_terminal [verifyToken]). by apply controller_terminal.
Qed.

(** A request that passes the gate reaches the handler as the admin. *)
Lemma gated_pass (h : handler db) r (s : db) :
  h = createListing \/ h = getListing \/ h = getListings \/ h = updateListing \/
  h = deleteListing -> token_ok r = true ->
  run_handlers [verifyToken; h] r s = h (set_user admin_principal r) s.
Proof.
  intros Hh Hok. rewrite gated_run, Hok. apply run_handlers_one. by apply controller_terminal.
Qed.

(** What the admin router answers to a delete: the listing's
    [deleteListing] runs without [req.user]. *)
Lemma admin_delete_outcome r s id :
  req_method r = DELETE -> req_path r = ["listings"; id] -> id <> "" -> req_user r = None ->
  run_router adminRouter r s = (NextErr (admin_delete_error s id), s).
Proof.
  intros Hm Hp Hid Hu. rewrite (admin_router_delete _ _ id) by done.
  unfold deleteListing, owned_listing, param_id, requester, admin_delete_error. simpl. rewrite Hu.
  destruct (db_connected s); [|done]. by destruct (db_listings s !! id).
Qed.

Lemma handle_admin_list ur ar dist c q b s :
  handle (app ur ar dist) (incoming GET ["api"; "admin"; "listings"] c q b) s =
    (if db_connected s
     then json_response 200 (ok_data 200 (JArray (map listing_to_json
            (query_listings (parse_query q) s))))
     else error_response (fail UpstreamFailure), s).
Proof.
  rewrite handle_admin with (rest := ["listings"]) by
    (try done; rewrite admin_router_list by done; apply controller_stops; tauto).
  rewrite admin_router_list by done. unfold getListings, db_query. by destruct (db_connected s).
Qed.

Lemma handle_admin_delete ur ar dist id c q b s :
  id <> "" ->
  handle (app ur ar dist) (incoming DELETE ["api"; "admin"; "listings"; id] c q b) s =
    (error_response (admin_delete_error s id), s).
Proof.
  intros Hid. rewrite handle_admin with (rest := ["listings"; id]);
    rewrite ?(admin_delete_outcome _ _ id) by done; done.
Qed.

(** A mutation route runs the gate and then its controller on the request
    as the router hands it over. *)
Lemma handle_mutation ur ar dist m path id h c q b s :
  mutation_route m path id h -> id <> "" ->
  handle (app ur ar dist) (incoming m path c q b) s =
    (answer (fst (run_handlers [verifyToken; h] (mkRequest m (drop 2 path) c q b [("id", id)] None) s)),
     snd (run_handlers [verifyToken; h] (mkRequest m (drop 2 path) c q b [("id", id)] None) s)).
Proof.
  intros [(-> & -> & ->) | (-> & -> & ->)] Hid.
  - rewrite handle_listing with (rest := ["update"; id]) by
      (try done; rewrite (listing_router_update _ _ id) by done; apply gated_stops; tauto).
    by rewrite (listing_router_update _ _ id).
  - rewrite handle_listing with (rest := ["delete"; id]) by
      (try done; rewrite (listing_router_delete _ _ id) by done; apply gated_stops; tauto).
    by rewrite (listing_router_delete _ _ id).
Qed.

Lemma handle_get ur ar dist id c q b s :
  id <> "" ->
  handle (app ur ar dist) (incoming GET ["api"; "listing"; "get"; id] c q b) s =
    (answer (fst (getListing (mkRequest GET ["get"; id] c q b [("id", id)] None) s)),
     snd (getListing (mkRequest GET ["get"; id] c q b [("id", id)] None) s)).
Proof.
  intros Hid. rewrite handle_listing with (rest := ["get"; id]) by
    (try done; rewrite (listing_router_get _ _ id) by done; apply controller_stops; tauto).
  by rewrite (listing_router_get _ _ id).
Qed.

Lemma handle_create ur ar dist c q b s :
  handle (app ur ar dist) (incoming POST ["api"; "listing"; "create"] c q b) s =
    (answer (fst (run_handlers [verifyToken; createListing] (mkRequest POST ["create"] c q b [] None) s)),
     snd (run_handlers [verifyToken; createListing] (mkRequest POST ["create"] c q b [] None) s)).
Proof.
  rewrite handle_listing with (rest := ["create"]) by
    (try done; rewrite listing_router_create by done; apply gated_stops; tauto).
  by rewrite listing_router_create.
Qed.

Lemma handle_list ur ar dist c q b s :
  handle (app ur ar dist) (incoming GET ["api"; "listing"; "get"] c q b) s =
    (answer (fst (getListings (mkRequest GET ["get"] c q b [] None) s)),
     snd (getListings (mkRequest GET ["get"] c q b [] None) s)).
Proof.
  rewrite handle_listing with (rest := ["get"]) by
    (try done; rewrite listing_router_list by done; apply controller_stops; tauto).
  by rewrite listing_router_list.
Qed.

(** No error of the gate or the controller is answered with 200. *)
Lemma error_response_not_200 e :
  (exists f, e = fail f) \/ e = user_type_error \/
  e = errorHandler 401 "Unauthorized" \/ e = errorHandler 403 "Forbidden" ->
  res_status (error_response e) <> 200%Z.
Proof. intros [[[] ->] | [-> | [-> | ->]]]; vm_compute; discriminate. Qed.

(** What the gate answers to a request without the token. *)
Lemma gate_refusal_not_200 r (s : db) :
  token_ok r = false -> res_status (answer (fst (verifyToken r s))) <> 200%Z.
Proof.
  intros Hok. rewrite verifyToken_denied by done. apply error_response_not_200.
  destruct (opt_str_truthy _); tauto.
Qed.

Lemma token_cookie_ok m p c q b ps : c.["access_token"] = Some staticToken ->
  token_ok (mkRequest m p c q b ps None) = true.
Proof. intros Hc. by apply token_ok_true. Qed.

(** The stack keeps every store property that the handlers of the
    controller and the user and auth routers keep: the gate, the static
    files, the catch-all and the error handler never write. *)
Lemma app_preserves (P : db -> Prop) ur ar dist :
  (forall h, h = createListing \/ h = getListing \/ h = getListings \/
     h = updateListing \/ h = deleteListing -> preserves P h) ->
  router_preserves P ur -> router_preserves P ar ->
  forall r s, P s -> P (snd (handle (app ur ar dist) r s)).
Proof.
  intros Hc Hur Har r s. apply run_app_preserves.
  assert (Hg : preserves P verifyToken)
    by (intros r' s' Hs; by rewrite (gate_store (gate := @verifyToken))).
  unfold app, listingRouter, adminRouter, router_preserves.
  repeat (apply Forall_cons; split); try apply Forall_nil; simpl; try done;
    repeat (apply Forall_cons; split); try apply Forall_nil; try (apply Hc; tauto).
  all: unfold preserves, serve_static; intros; repeat case_if; done.
Qed.

(** ** Properties of the application *)

(** C1: The admin router has no gate: [DELETE /api/admin/listings/:id]
    never removes a listing, whatever cookies the request carries.  Its
    [deleteListing] runs with [req.user] unset, so an existing listing
    gives the 500 of the [TypeError] and a missing one 404 (and every
    request 500 when the database connection failed); the store is
    unchanged in all cases. *)
Theorem admin_delete_never_deletes ur ar dist id c q b s :
  id <> "" ->
  let '(res, s') := handle (app ur ar dist)
                      (incoming DELETE ["api"; "admin"; "listings"; id] c q b) s in
  s' = s /\
  (res_status res = 500%Z /\ (is_Some (db_listings s !! id) \/ db_connected s = false) \/
   res_status res = 404%Z /\ db_listings s !! id = None /\ db_connected s = true).
Proof.
  intros Hid. rewrite handle_admin_delete by done.
  split; [done|]. unfold error_response, status_or_500, admin_delete_error.
  destruct (db_connected s); simpl; [|auto]. destruct (db_listings s !! id); simpl; auto.
Qed.

(** C5: [GET /api/admin/listings] answers every caller alike, with or
    without the token; with the database connected, 200 and the page of
    the public listing query, the store unchanged. *)
Theorem admin_list_ungated ur ar dist c c' q b s :
  handle (app ur ar dist) (incoming GET ["api"; "admin"; "listings"] c q b) s =
  handle (app ur ar dist) (incoming GET ["api"; "admin"; "listings"] c' q b) s /\
  (db_connected s = true ->
   handle (app ur ar dist) (incoming GET ["api"; "admin"; "listings"] c q b) s =
    (json_response 200 (ok_data 200 (JArray (map listing_to_json
       (query_listings (parse_query q) s)))), s)).
Proof. rewrite !handle_admin_list. split; [done|]. by intros ->. Qed.


(** C2: A request to create, update or delete through the listing router
    without the static token is refused before any controller runs: 401
    when the [access_token] cookie is absent or empty, 403 otherwise, and
    the store is unchanged. *)
Theorem gated_routes_reject ur ar dist m path c q b s :
  gated_request m path -> c.["access_token"] <> Some staticToken ->
  handle (app ur ar dist) (incoming m path c q b) s =
    (error_response (if opt_str_truthy c.["access_token"]
                     then errorHandler 403 "Forbidden"
                     else errorHandler 401 "Unauthorized"), s).
Proof.
  intros Hg Hc.
  assert (Hok : forall r, access_token r = c.["access_token"] -> token_ok r = false).
  { intros r Hr. unfold token_ok. rewrite Hr. by apply bool_decide_eq_false. }
  destruct Hg as [[-> ->] | (id & Hid & [[-> ->] | [-> ->]])].
  - rewrite handle_listing with (rest := ["create"]) by
      (try done; rewrite listing_router_create by done; apply gated_stops; tauto).
    rewrite listing_router_create, gated_run, Hok by done.
    by rewrite verifyToken_denied by (by apply Hok).
  - rewrite handle_listing with (rest := ["update"; id]) by
      (try done; rewrite (listing_router_update _ _ id) by done; apply gated_stops; tauto).
    rewrite (listing_router_update _ _ id), gated_run, Hok by done.
    by rewrite verifyToken_denied by (by apply Hok).
  - rewrite handle_listing with (rest := ["delete"; id]) by
      (try done; rewrite (listing_router_delete _ _ id) by done; apply gated_stops; tauto).
    rewrite (listing_router_delete _ _ id), gated_run, Hok by done.
    by rewrite verifyToken_denied by (by apply Hok).
Qed.

(** C11: [POST /api/listing/create] with the static token and a valid
    draft answers 200 with a listing whose id was free, whose fields are the
    draft's and whose owner is ["admin"], the one principal the gate binds;
    the store holds it afterwards (specification section 8, create
    scenario). *)
Theorem create_with_token ur ar dist c q b s d :
  db_wf s -> db_connected s = true -> c.["access_token"] = Some staticToken ->
  draft_of_json b = Some d -> validate d = true ->
  let l := new_listing s "admin" d in
  handle (app ur ar dist) (incoming POST ["api"; "listing"; "create"] c q b) s =
    (json_response 200 (ok_data 200 (listing_to_json l)), insert_new s l) /\
  l_userRef l = "admin" /\ l_draft l = d /\
  db_listings s !! l_id l = None /\ db_listings (insert_new s l) !! l_id l = Some l.
Proof.
  intros Hwf Hup Hc Hd Hv l.
  assert (Hok : token_ok (set_params [] (set_path ["create"]
                  (incoming POST ["api"; "listing"; "create"] c q b))) = true)
    by (by apply token_ok_true).
  rewrite handle_listing with (rest := ["create"]) by
    (try done; rewrite listing_router_create by done; apply gated_stops; tauto).
  rewrite listing_router_create, gated_pass by (done || tauto).
  rewrite (createListing_success _ _ d "admin") by done.
  split; [done|]. do 2 (split; [done|]). by apply insert_new_fresh.
Qed.

(** C10: [POST /api/listing/update/:id] with the static token on a
    listing whose owner is not ["admin"] is refused with 403 and the store
    is unchanged: since every request that passes the gate is the admin,
    no listing owned by anyone else can be updated through this route. *)
Theorem update_by_nonowner_forbidden ur ar dist id c q b s l :
  db_connected s = true -> id <> "" -> c.["access_token"] = Some staticToken ->
  db_listings s !! id = Some l -> l_userRef l <> "admin" ->
  handle (app ur ar dist) (incoming POST ["api"; "listing"; "update"; id] c q b) s =
    (error_response (fail Forbidden), s).
Proof.
  intros Hup Hid Hc Hl Hne.
  rewrite handle_listing with (rest := ["update"; id]) by
    (try done; rewrite (listing_router_update _ _ id) by done; apply gated_stops; tauto).
  rewrite (listing_router_update _ _ id), gated_pass by (done || tauto || by apply token_ok_true).
  unfold updateListing. by rewrite (owned_listing_forbidden _ _ l "admin").
Qed.

(** C12: Deleting through [DELETE /api/listing/delete/:id] with the static
    token a listing owned by ["admin"] answers 200, and a following
    [GET /api/listing/get/:id] answers 404 (specification section 8). *)
Theorem delete_then_get_404 ur ar dist id c q b c' q' b' s l :
  db_wf s -> db_connected s = true -> id <> "" -> c.["access_token"] = Some staticToken ->
  db_listings s !! id = Some l -> l_userRef l = "admin" ->
  exists s',
    handle (app ur ar dist) (incoming DELETE ["api"; "listing"; "delete"; id] c q b) s =
      (json_response 200 (ok_message 200 "Listing has been deleted!"), s') /\
    handle (app ur ar dist) (incoming GET ["api"; "listing"; "get"; id] c' q' b') s' =
      (error_response (fail NotFound), s').
Proof.
  intros Hwf Hup Hid Hc Hl Howner.
  set (s' := mkDb (delete id (db_listings s)) (db_next s) (db_clock s) (db_connected s)).
  exists s'. split.
  - rewrite handle_listing with (rest := ["delete"; id]) by
      (try done; rewrite (listing_router_delete _ _ id) by done; apply gated_stops; tauto).
    rewrite (listing_router_delete _ _ id), gated_pass by (done || tauto || by apply token_ok_true).
    unfold deleteListing, owned_listing, param_id. rewrite Hup. simpl. rewrite Hl, Howner. simpl.
    rewrite (db_wf_id s id l Hwf Hl). unfold s'. by rewrite Hup.
  - rewrite handle_listing with (rest := ["get"; id]) by
      (try done; rewrite (listing_router_get _ _ id) by done; apply controller_stops; tauto).
    rewrite (listing_router_get _ _ id) by done.
    unfold getListing, param_id. rewrite db_query_up by done. simpl. by rewrite lookup_delete_eq.
Qed.

(** C16: [GET /api/listing/get?type=rent&limit=n] answers 200 with at most
    [n] listings, all of type rent, each from the store (specification
    section 8, filtered page scenario). *)
Theorem rent_page_bounded ur ar dist c q b s n :
  db_connected s = true -> (0 < n)%Z -> q.["type"] = Some "rent" -> q.["limit"] = Some (js_num_to_string (JNum n)) ->
  exists ls,
    handle (app ur ar dist) (incoming GET ["api"; "listing"; "get"] c q b) s =
      (json_response 200 (ok_data 200 (JArray (map listing_to_json ls))), s) /\
    (length ls <= Z.to_nat n)%nat /\
    Forall (fun l => d_type (l_draft l) = Rent /\ exists k, db_listings s !! k = Some l) ls.
Proof.
  intros Hup Hn Ht Hl.
  rewrite handle_listing with (rest := ["get"]) by
    (try done; rewrite listing_router_list by done; apply controller_stops; tauto).
  rewrite listing_router_list by done. unfold getListings. rewrite db_query_up by done.
  pose proof (query_listings_spec (parse_query q) s) as (Hlen & Hall & _).
  exists (query_listings (parse_query q) s). split; [done|].
  assert (Hq : q_limit (parse_query q) = Z.to_nat n /\ q_type (parse_query q) = Some Rent).
  { unfold parse_query. simpl. rewrite Hl, Ht, positive_param_to_string by done. done. }
  destruct Hq as [Hlim Hty]. rewrite Hlim in Hlen. split; [done|].
  eapply Forall_impl; [exact Hall|]. intros l' [Hm Hk]. split; [|done].
  unfold listing_matches in Hm. rewrite Hty in Hm.
  apply andb_true_iff in Hm as [[_ Ht']%andb_true_iff _]. by apply bool_decide_eq_true in Ht'.
Qed.

(** C7: [POST /api/listing/create] with the static token and a body that
    decodes to a draft is refused with 400 [ValidationError], the store
    unchanged, exactly when the draft has no image or more than six, or is
    an offer whose discount price is not strictly below its regular price
    (specification section 8, first two properties). *)
Theorem create_rejects_invalid ur ar dist c q b s d :
  c.["access_token"] = Some staticToken -> draft_of_json b = Some d ->
  handle (app ur ar dist) (incoming POST ["api"; "listing"; "create"] c q b) s =
    (error_response (fail ValidationError), s) <->
  length (d_imageUrls d) = 0%nat \/ (6 < length (d_imageUrls d))%nat \/
  (d_offer d = true /\ (d_regularPrice d <= d_discountPrice d)%Z).
Proof.
  intros Hc Hd. rewrite handle_create, gated_pass by (tauto || by apply token_cookie_ok).
  rewrite <-validate_false_iff. unfold createListing. simpl. rewrite Hd.
  destruct (validate d); simpl; [split; [|done]|done].
  unfold db_query. destruct (db_connected s); by intros [=].
Qed.

(** C9: An update or delete through the listing router is answered with
    200 only when the request carries the static token and the listing
    exists and is owned by ["admin"], the principal the gate binds. *)
Theorem mutation_ok_requires_owner ur ar dist m path id h c q b s res s' :
  mutation_route m path id h -> id <> "" ->
  handle (app ur ar dist) (incoming m path c q b) s = (res, s') -> res_status res = 200%Z ->
  c.["access_token"] = Some staticToken /\
  exists l, db_listings s !! id = Some l /\ l_userRef l = "admin".
Proof.
  intros Hmr Hid Hh H200. rewrite (handle_mutation _ _ _ _ _ id h) in Hh by done.
  assert (Hc : h = createListing \/ h = getListing \/ h = getListings \/ h = updateListing \/
               h = deleteListing) by (destruct Hmr as [(_&_&->)|(_&_&->)]; tauto).
  rewrite gated_run in Hh.
  destruct (token_ok _) eqn:Hok; [|injection Hh as <- _; by apply (gate_refusal_not_200 _ s) in Hok].
  apply token_ok_true in Hok. split; [done|].
  rewrite run_handlers_one in Hh by (by apply controller_terminal).
  set (ra := set_user admin_principal _) in Hh.
  destruct (h ra s) as [[r'|e|res'] s''] eqn:E; injection Hh as <- _.
  - exfalso. apply (controller_terminal h Hc ra s r'). by rewrite E.
  - exfalso. apply (error_response_not_200 e); [|done].
    pose proof (controller_errors h ra s e Hc) as He. rewrite E in He. tauto.
  - assert (Hu : h = updateListing \/ h = deleteListing)
      by (destruct Hmr as [(_&_&->)|(_&_&->)]; tauto).
    destruct (mutation_requires_owner h ra s res' s'' Hu E) as (l & Hl & Hr).
    exists l. unfold ra in Hl, Hr. simpl in Hl, Hr. cbv [param_id requester set_user] in Hl, Hr. simpl in Hl, Hr. split; [done|congruence].
Qed.

(** C13: Reading, updating or deleting (with the token) an id that is not
    in the store is answered with 404 [NotFound] and the store is
    unchanged. *)
Theorem missing_listing_404 ur ar dist m path id c q b s :
  db_connected s = true -> id <> "" -> db_listings s !! id = None ->
  (m = GET /\ path = ["api"; "listing"; "get"; id]) \/
  (c.["access_token"] = Some staticToken /\ exists h, mutation_route m path id h) ->
  handle (app ur ar dist) (incoming m path c q b) s = (error_response (fail NotFound), s).
Proof.
  intros Hup Hid Hl [[-> ->] | [Hc [h Hmr]]].
  - rewrite handle_get by done. cbv [getListing param_id]. rewrite db_query_up by done.
    simpl. by rewrite Hl.
  - rewrite (handle_mutation _ _ _ _ _ id h) by done. rewrite gated_pass by
      (destruct Hmr as [(_&_&->)|(_&_&->)]; tauto || by apply token_cookie_ok).
    rewrite (missing_listing_not_found h) by
      (destruct Hmr as [(_&_&->)|(_&_&->)]; tauto || done). done.
Qed.

(** C14: Whatever request reaches the server, the store invariant (every
    listing under its own id, satisfying the invariants of section 4.2,
    with an id the counter issued) is preserved, provided the user and auth
    routers, which are not modelled, preserve it too. *)
Theorem app_preserves_wf ur ar dist r s :
  router_preserves db_wf ur -> router_preserves db_wf ar ->
  db_wf s -> db_wf (snd (handle (app ur ar dist) r s)).
Proof.
  intros Hur Har. apply app_preserves; [|done|done].
  intros h Hh r' s'. by apply controller_preserves_wf.
Qed.

(** C15: With the database connected, [GET /api/listing/get] answers 200 with at most [limit] listings
    of the store, each matching the search term, type and offer filters of
    the query, in the requested order. *)
Theorem listing_query_page ur ar dist c q b s :
  db_connected s = true ->
  let qq := parse_query q in
  exists ls,
    handle (app ur ar dist) (incoming GET ["api"; "listing"; "get"] c q b) s =
      (json_response 200 (ok_data 200 (JArray (map listing_to_json ls))), s) /\
    (length ls <= q_limit qq)%nat /\
    Forall (fun l => listing_matches qq l = true /\ exists k, db_listings s !! k = Some l) ls /\
    Sorted (fun a b => ordered qq a b = true) ls.
Proof.
  intros Hup. rewrite handle_list.
  destruct (getListings_page (mkRequest GET ["get"] c q b [] None) s Hup)
    as (ls & -> & Hrest). by exists ls.
Qed.

(** C8: [POST /api/listing/update/:id] with the static token on a listing
    owned by ["admin"], whose patch merges into the draft [d], is refused
    with 400 [ValidationError], the store unchanged, exactly when [d] breaks
    an invariant of section 4.2; otherwise it answers 200 with the listing
    holding [d], stored under the same id with the same owner
    (specification section 8, first two properties, for Update). *)
Theorem update_validates ur ar dist id c q b s l d :
  db_wf s -> db_connected s = true -> id <> "" -> c.["access_token"] = Some staticToken ->
  db_listings s !! id = Some l -> l_userRef l = "admin" -> merge_patch (l_draft l) b = Some d ->
  (handle (app ur ar dist) (incoming POST ["api"; "listing"; "update"; id] c q b) s =
     (error_response (fail ValidationError), s) <->
   length (d_imageUrls d) = 0%nat \/ (6 < length (d_imageUrls d))%nat \/
   (d_offer d = true /\ (d_regularPrice d <= d_discountPrice d)%Z)) /\
  (validate d = true -> exists l' s',
     handle (app ur ar dist) (incoming POST ["api"; "listing"; "update"; id] c q b) s =
       (json_response 200 (ok_data 200 (listing_to_json l')), s') /\
     db_listings s' !! id = Some l' /\ l_id l' = id /\ l_userRef l' = "admin" /\ l_draft l' = d).
Proof.
  intros Hwf Hup Hid Hc Hl Hown Hd.
  assert (Hmr : mutation_route POST ["api"; "listing"; "update"; id] id updateListing)
    by (left; done).
  rewrite (handle_mutation _ _ _ _ _ id updateListing) by done.
  rewrite gated_pass by (tauto || by apply token_cookie_ok).
  rewrite <-validate_false_iff.
  unfold updateListing, owned_listing, param_id, requester. rewrite Hup. simpl.
  rewrite Hl, Hown, Hd. simpl. pose proof (db_wf_id s id l Hwf Hl) as Hlid.
  destruct (validate d); simpl; split.
  - split; [|done]. by intros [= H _]; revert H; vm_compute.
  - intros _. eexists _, _. split; [reflexivity|]. simpl.
    rewrite Hlid, lookup_insert_eq. by rewrite Hown.
  - done.
  - done.
Qed.

(** ** Witnesses *)

Lemma admin_delete_never_deletes_witness :
  let '(res, s') := handle (app [] [] [])
                      (incoming DELETE ["api"; "admin"; "listings"; "0"] token_cookie [] JNull)
                      sample_db in
  s' = sample_db /\
  (res_status res = 500%Z /\ (is_Some (db_listings sample_db !! "0") \/ db_connected sample_db = false) \/
   res_status res = 404%Z /\ db_listings sample_db !! "0" = None /\ db_connected sample_db = true).
Proof. apply admin_delete_never_deletes. discriminate. Defined.

Lemma gated_routes_reject_witness :
  handle (app [] [] []) (incoming POST ["api"; "listing"; "update"; "0"]
                           [("access_token", "guess")] [] JNull) sample_db =
    (error_response (if opt_str_truthy (Some "guess")
                     then errorHandler 403 "Forbidden"
                     else errorHandler 401 "Unauthorized"), sample_db).
Proof.
  apply (gated_routes_reject [] [] [] POST ["api"; "listing"; "update"; "0"]
           [("access_token", "guess")]).
  - right. exists "0". split; [discriminate|]. left. split; reflexivity.
  - vm_compute. discriminate.
Defined.

Lemma create_with_token_witness :
  let l := new_listing db_empty "admin" sample_draft in
  handle (app [] [] []) (incoming POST ["api"; "listing"; "create"] token_cookie []
                           (JObject (json_of_draft_fields sample_draft))) db_empty =
    (json_response 200 (ok_data 200 (listing_to_json l)), insert_new db_empty l) /\
  l_userRef l = "admin" /\ l_draft l = sample_draft /\
  db_listings db_empty !! l_id l = None /\ db_listings (insert_new db_empty l) !! l_id l = Some l.
Proof.
  apply create_with_token.
  - apply db_empty_wf.
  - reflexivity.
  - reflexivity.
  - vm_compute. reflexivity.
  - vm_compute. reflexivity.
Defined.

Lemma update_by_nonowner_forbidden_witness :
  let s := mkDb {[fresh_id 0 := mkListing (fresh_id 0) "alice" sample_draft 0 0]} 1 1 true in
  handle (app [] [] []) (incoming POST ["api"; "listing"; "update"; "0"] token_cookie [] JNull) s =
    (error_response (fail Forbidden), s).
Proof.
  intros s. apply (update_by_nonowner_forbidden [] [] [] "0" token_cookie [] JNull s
                     (mkListing (fresh_id 0) "alice" sample_draft 0 0)).
  - reflexivity.
  - discriminate.
  - reflexivity.
  - vm_compute. reflexivity.
  - discriminate.
Defined.

Lemma delete_then_get_404_witness :
  exists s',
    handle (app [] [] []) (incoming DELETE ["api"; "listing"; "delete"; "0"] token_cookie [] JNull)
      sample_db = (json_response 200 (ok_message 200 "Listing has been deleted!"), s') /\
    handle (app [] [] []) (incoming GET ["api"; "listing"; "get"; "0"] [] [] JNull) s' =
      (error_response (fail NotFound), s').
Proof.
  apply (delete_then_get_404 [] [] [] "0" token_cookie [] JNull [] [] JNull sample_db sample_listing).
  - apply sample_db_wf.
  - reflexivity.
  - discriminate.
  - reflexivity.
  - vm_compute. reflexivity.
  - reflexivity.
Defined.

Lemma rent_page_bounded_witness :
  exists ls,
    handle (app [] [] []) (incoming GET ["api"; "listing"; "get"] []
                             [("type", "rent"); ("limit", "2")] JNull) sample_db =
      (json_response 200 (ok_data 200 (JArray (map listing_to_json ls))), sample_db) /\
    (length ls <= Z.to_nat 2)%nat /\
    Forall (fun l => d_type (l_draft l) = Rent /\ exists k, db_listings sample_db !! k = Some l) ls.
Proof.
  apply rent_page_bounded.
  - reflexivity.
  - lia.
  - reflexivity.
  - vm_compute. reflexivity.
Defined.

Lemma create_rejects_invalid_witness :
  let d := mkDraft "Villa" "" "" Sale 1 1 100 100 true false false ["u"] in
  handle (app [] [] []) (incoming POST ["api"; "listing"; "create"] token_cookie []
                           (JObject (json_of_draft_fields d))) sample_db =
    (error_response (fail ValidationError), sample_db) <->
  length (d_imageUrls d) = 0%nat \/ (6 < length (d_imageUrls d))%nat \/
  (d_offer d = true /\ (d_regularPrice d <= d_discountPrice d)%Z).
Proof.
  intros d. apply create_rejects_invalid.
  - reflexivity.
  - vm_compute. reflexivity.
Defined.

Lemma mutation_ok_requires_owner_witness :
  let r := incoming DELETE ["api"; "listing"; "delete"; "0"] token_cookie [] JNull in
  token_cookie.["access_token"] = Some staticToken /\
  exists l, db_listings sample_db !! "0" = Some l /\ l_userRef l = "admin".
Proof.
  intros r.
  apply (mutation_ok_requires_owner [] [] [] DELETE ["api"; "listing"; "delete"; "0"] "0"
           deleteListing token_cookie [] JNull sample_db
           (fst (handle (app [] [] []) r sample_db)) (snd (handle (app [] [] []) r sample_db))).
  - right. split; [reflexivity|split; reflexivity].
  - discriminate.
  - vm_compute. reflexivity.
  - vm_compute. reflexivity.
Defined.

Lemma missing_listing_404_witness :
  handle (app [] [] []) (incoming POST ["api"; "listing"; "update"; "7"] token_cookie [] JNull)
    sample_db = (error_response (fail NotFound), sample_db).
Proof.
  apply (missing_listing_404 [] [] [] POST ["api"; "listing"; "update"; "7"] "7").
  - reflexivity.
  - discriminate.
  - vm_compute. reflexivity.
  - right. split; [reflexivity|]. exists updateListing. left. split; [reflexivity|split; reflexivity].
Defined.

Lemma app_preserves_wf_witness :
  db_wf (snd (handle (app [] [] []) (incoming DELETE ["api"; "listing"; "delete"; "0"]
                                       token_cookie [] JNull) sample_db)).
Proof.
  apply app_preserves_wf.
  - constructor.
  - constructor.
  - apply sample_db_wf.
Defined.

Lemma update_validates_witness :
  let r := incoming POST ["api"; "listing"; "update"; "0"] token_cookie []
             (JObject [("imageUrls", JArray [])]) in
  let d := mkDraft "Villa" "Sea view" "1 Main St" Rent 3 2 500 450 true false true [] in
  (handle (app [] [] []) r sample_db = (error_response (fail ValidationError), sample_db) <->
   length (d_imageUrls d) = 0%nat \/ (6 < length (d_imageUrls d))%nat \/
   (d_offer d = true /\ (d_regularPrice d <= d_discountPrice d)%Z)) /\
  (validate d = true -> exists l' s',
     handle (app [] [] []) r sample_db = (json_response 200 (ok_data 200 (listing_to_json l')), s') /\
     db_listings s' !! "0" = Some l' /\ l_id l' = "0" /\ l_userRef l' = "admin" /\ l_draft l' = d).
Proof.
  intros r d. apply (update_validates [] [] [] "0" token_cookie [] _ sample_db sample_listing d).
  - apply sample_db_wf.
  - reflexivity.
  - discriminate.
  - reflexivity.
  - vm_compute. reflexivity.
  - reflexivity.
  - vm_compute. reflexivity.
Defined.

Lemma listing_query_page_witness :
  db_connected sample_db = true /\
  let qq := parse_query [("limit", "1")] in
  exists ls,
    handle (app [] [] []) (incoming GET ["api"; "listing"; "get"] [] [("limit", "1")] JNull) sample_db =
      (json_response 200 (ok_data 200 (JArray (map listing_to_json ls))), sample_db) /\
    (length ls <= q_limit qq)%nat /\
    Forall (fun l => listing_matches qq l = true /\ exists k, db_listings sample_db !! k = Some l) ls /\
    Sorted (fun a b => ordered qq a b = true) ls.
Proof.
  split; [reflexivity|].
  apply (listing_query_page [] [] [] [] [("limit", "1")] JNull sample_db). reflexivity.
Defined.
