(* ===== verification/Routes.v ===== *)
(** * The HTTP surface of specification section 6, and what implements it

    The specification gives the API as a table: method, path, whether the
    Authorization Gate guards it, and the repository operation it runs
    (section 6), with the gate's contract of section 4.1 (no token:
    [Unauthorized]; a token other than the secret: [Forbidden]; the
    secret: the admin principal is bound) and the JSON envelope of
    section 4.3.  [route_spec] is that table as an inductive relation,
    [spec_answer] the answer the specification prescribes for a row.

    Theorems: the listing router of [src/api/routes/listing.route.js],
    mounted by [src/api/index.js], refines the five rows of the table
    under [/api/listing]: for every request of such a row, the answer and
    the new store are the ones [spec_answer] prescribes (the one
    difference being a cookie [access_token] that is present but empty,
    which [verifyToken] treats as absent: 401 where the table's gate says
    403); and every row of the table, the two admin rows included, is
    answered with a well-formed envelope whose [success] is true exactly
    for 200 and whose [statusCode] is the HTTP status; and that no row
    writes partially: a request not answered 200 leaves the store as it
    was. *)

From S2P Require Import Prelude Js Express Listing Auth Controller App.

(** ** The table of section 6 *)

Inductive gate_req := Gated | Open.

(** The repository operation a row runs (section 4.2). *)
Inductive api_op :=
  | OpCreate
  | OpReadOne (id : string)
  | OpReadMany
  | OpUpdate (id : string)
  | OpDelete (id : string)
  | OpAdminList
  | OpAdminDelete (id : string).

Inductive route_spec : method -> list string -> gate_req -> api_op -> Prop :=
  | rs_admin_list : route_spec GET ["api"; "admin"; "listings"] Gated OpAdminList
  | rs_admin_delete id : id <> "" ->
      route_spec DELETE ["api"; "admin"; "listings"; id] Gated (OpAdminDelete id)
  | rs_create : route_spec POST ["api"; "listing"; "create"] Gated OpCreate
  | rs_delete id : id <> "" -> route_spec DELETE ["api"; "listing"; "delete"; id] Gated (OpDelete id)
  | rs_update id : id <> "" -> route_spec POST ["api"; "listing"; "update"; id] Gated (OpUpdate id)
  | rs_read_one id : id <> "" -> route_spec GET ["api"; "listing"; "get"; id] Open (OpReadOne id)
  | rs_read_many : route_spec GET ["api"; "listing"; "get"] Open OpReadMany.

Definition admin_op (op : api_op) : bool :=
  match op with OpAdminList | OpAdminDelete _ => true | _ => false end.

(** ** What the specification prescribes for a row *)

(** The operation of a listing row, as the controller implements it. *)
Definition op_handler (op : api_op) : handler db :=
  match op with
  | OpCreate => createListing
  | OpReadOne _ => getListing
  | OpReadMany | OpAdminList => getListings
  | OpUpdate _ => updateListing
  | OpDelete _ | OpAdminDelete _ => deleteListing
  end.

Definition op_params (op : api_op) : list (string * string) :=
  match op with
  | OpReadOne id | OpUpdate id | OpDelete id | OpAdminDelete id => [("id", id)]
  | _ => []
  end.

(** The request the operation sees: the row's parameters, and the
    principal the gate bound, if any. *)
Definition spec_request (op : api_op) (c q : list (string * string)) (b : json)
    (u : option principal) : request :=
  mkRequest GET [] c q b (op_params op) u.

(** An operation's outcome as the routing layer answers it (section 4.3). *)
Definition run_op (op : api_op) (r : request) (s : db) : response * db :=
  (answer (fst (op_handler op r s)), snd (op_handler op r s)).

(** The gate of section 4.1 in front of [k]: no token, [Unauthorized];
    any other token than the secret, [Forbidden]. *)
Definition gate_spec (token : option string) (k : response * db) (s : db) : response * db :=
  match token with
  | None => (error_response (fail Unauthorized), s)
  | Some t => if String.eqb t staticToken then k else (error_response (fail Forbidden), s)
  end.

Definition spec_answer (g : gate_req) (op : api_op) (c q : list (string * string)) (b : json)
    (s : db) : response * db :=
  match g with
  | Open => run_op op (spec_request op c q b None) s
  | Gated => gate_spec c.["access_token"]
               (run_op op (spec_request op c q b (Some admin_principal)) s) s
  end.

(** ** The envelope of section 4.3 *)

(** [{success, statusCode, data | message}], with [success] true exactly
    for 200 and [statusCode] the status of the response. *)
Definition envelope_ok (res : response) : bool :=
  match res_body res with
  | BJson (JObject fs) =>
      match fs.["success"], fs.["statusCode"] with
      | Some (JBool ok), Some (JNumber code) =>
          Bool.eqb ok (code =? 200)%Z && (code =? res_status res)%Z &&
          match fs.["data"], fs.["message"] with None, None => false | _, _ => true end
      | _, _ => false
      end
  | _ => false
  end.

(** The handlers of the controller. *)
Definition controller (h : handler db) : Prop :=
  h = createListing \/ h = getListing \/ h = getListings \/ h = updateListing \/ h = deleteListing.

(** ** Lemmas *)

Lemma op_handler_controller op : controller (op_handler op).
Proof. unfold controller. destruct op; simpl; tauto. Qed.

(** The controller reads neither the method nor the path of the request. *)
Lemma controller_path_irrelevant h m m' p p' c q b ps u s :
  controller h -> h (mkRequest m p c q b ps u) s = h (mkRequest m' p' c q b ps u) s.
Proof. intros [-> | [-> | [-> | [-> | ->]]]]; reflexivity. Qed.

(** The answers of the gate's refusals. *)
Lemma verifyToken_spec r (s : db) k :
  (req_cookies r).["access_token"] <> Some "" ->
  token_ok r = false ->
  (answer (fst (verifyToken r s)), s) = gate_spec (req_cookies r).["access_token"] k s.
Proof.
  intros Hne Hok. rewrite verifyToken_denied by done. unfold gate_spec, access_token in *.
  unfold token_ok, access_token in Hok. apply bool_decide_eq_false in Hok.
  destruct ((req_cookies r).["access_token"]) as [t|]; [|done].
  unfold opt_str_truthy, str_truthy.
  destruct (String.eqb_spec t staticToken) as [->|Hst]; [done|].
  destruct (String.eqb_spec t "") as [->|Ht]; [done|]. done.
Qed.

(** A gated route of the listing router answers as the gate of the table
    in front of the operation. *)
Lemma gated_route_spec h m p c q b ps s op :
  controller h -> h = op_handler op -> ps = op_params op ->
  c.["access_token"] <> Some "" ->
  (answer (fst (run_handlers [verifyToken; h] (mkRequest m p c q b ps None) s)),
   snd (run_handlers [verifyToken; h] (mkRequest m p c q b ps None) s)) =
  gate_spec c.["access_token"] (run_op op (spec_request op c q b (Some admin_principal)) s) s.
Proof.
  intros Hc -> -> Hne. rewrite gated_run.
  destruct (token_ok _) eqn:Hok.
  - rewrite run_handlers_one by (apply controller_terminal, Hc).
    apply token_ok_true in Hok. unfold access_token in Hok. simpl in Hok.
    unfold gate_spec. rewrite Hok, String.eqb_refl. unfold run_op, spec_request, set_user. simpl.
    by rewrite (controller_path_irrelevant _ m GET p []) by done.
  - by apply (verifyToken_spec (mkRequest m p c q b (op_params op) None)).
Qed.

(** The success answers of the controller: 200 with [data] or [message]. *)
Lemma controller_responses h r s res s' :
  controller h -> h r s = (Respond res, s') ->
  exists v, res = json_response 200 (ok_data 200 v) \/
            exists msg, res = json_response 200 (ok_message 200 msg).
Proof.
  intros [-> | [-> | [-> | [-> | ->]]]].
  - unfold createListing. destruct (draft_of_json _); [|done].
    destruct (negb _); [done|]. destruct (requester r); [|done].
    unfold db_query. destruct (db_connected s); [|done]. intros [= <- _]; eauto.
  - unfold getListing, db_query. destruct (db_connected s); [|done].
    destruct (_ !! _); [|done]. intros [= <- _]; eauto.
  - unfold getListings, db_query. destruct (db_connected s); [|done]. intros [= <- _]; eauto.
  - unfold updateListing. destruct (owned_listing r s); [done|].
    destruct (merge_patch _ _); [|done]. destruct (negb _); [done|]. intros [= <- _]; eauto.
  - unfold deleteListing. destruct (owned_listing r s); [done|].
    intros [= <- _]. exists JNull. right. eauto.
Qed.

Lemma error_envelope e :
  (exists f, e = fail f) \/ e = user_type_error \/
  e = errorHandler 401 "Unauthorized" \/ e = errorHandler 403 "Forbidden" ->
  envelope_ok (error_response e) = true.
Proof. intros [[[] ->] | [-> | [-> | ->]]]; reflexivity. Qed.

Lemma controller_envelope h r s : controller h -> envelope_ok (answer (fst (h r s))) = true.
Proof.
  intros Hc. destruct (h r s) as [[r'|e|res] s'] eqn:E.
  - exfalso. apply (controller_terminal h Hc r s r'). by rewrite E.
  - apply error_envelope. pose proof (controller_errors h r s e Hc) as He.
    rewrite E in He. tauto.
  - destruct (controller_responses h r s res s' Hc E) as [v [-> | [msg ->]]]; reflexivity.
Qed.

Lemma gated_envelope h r s :
  controller h -> envelope_ok (answer (fst (run_handlers [verifyToken; h] r s))) = true.
Proof.
  intros Hc. rewrite gated_run. destruct (token_ok r) eqn:Hok.
  - rewrite run_handlers_one by (apply controller_terminal, Hc). by apply controller_envelope.
  - simpl. rewrite verifyToken_denied by done. apply error_envelope.
    destruct (opt_str_truthy _); tauto.
Qed.

(** A handler of the controller that does not answer 200 wrote nothing. *)
Lemma controller_failure_keeps h r s :
  controller h -> res_status (answer (fst (h r s))) <> 200%Z -> snd (h r s) = s.
Proof.
  intros Hc Hst. destruct (h r s) as [[r'|e|res] s'] eqn:E; simpl in *.
  - exfalso. apply (controller_terminal h Hc r s r'). by rewrite E.
  - by apply (controller_error_keeps h r s e).
  - exfalso. apply Hst.
    by destruct (controller_responses h r s res s' Hc E) as [v [-> | [msg ->]]].
Qed.

(** The same behind the gate, whose refusals write nothing either. *)
Lemma gated_failure_keeps h r s :
  controller h -> res_status (answer (fst (run_handlers [verifyToken; h] r s))) <> 200%Z ->
  snd (run_handlers [verifyToken; h] r s) = s.
Proof.
  intros Hc. rewrite gated_run. destruct (token_ok r); [|done].
  rewrite run_handlers_one by (apply controller_terminal, Hc). by apply controller_failure_keeps.
Qed.

(** ** Properties *)

(** C6: The listing router refines the table of section 6: for every
    request of one of its five rows, [handle] answers and changes the
    store exactly as [spec_answer] prescribes, the table's gate in front
    of the controller's operation, provided the [access_token] cookie is
    not the empty string. *)
Theorem listing_router_refines_table ur ar dist m path g op c q b s :
  route_spec m path g op -> admin_op op = false -> c.["access_token"] <> Some "" ->
  handle (app ur ar dist) (incoming m path c q b) s = spec_answer g op c q b s.
Proof.
  intros Hrs Hadm Hne.
  destruct Hrs as [|id Hid| |id Hid|id Hid|id Hid|]; try discriminate Hadm.
  - rewrite handle_create. apply (gated_route_spec createListing _ _ _ _ _ _ _ OpCreate); [left|..]; done.
  - rewrite (handle_mutation _ _ _ _ _ id deleteListing) by (done || by right).
    apply (gated_route_spec deleteListing _ _ _ _ _ _ _ (OpDelete id)); [unfold controller; tauto|..]; done.
  - rewrite (handle_mutation _ _ _ _ _ id updateListing) by (done || by left).
    apply (gated_route_spec updateListing _ _ _ _ _ _ _ (OpUpdate id)); [unfold controller; tauto|..]; done.
  - rewrite handle_get by done. unfold run_op, spec_request. simpl.
    rewrite (controller_path_irrelevant getListing GET GET ["get"; id] []); [done|unfold controller; tauto].
  - rewrite handle_list. reflexivity.
Qed.

(** C17: Every row of the table, the admin rows included, is answered with
    the JSON envelope of section 4.3: [success] is true exactly when the
    status is 200, [statusCode] is the HTTP status, and the envelope
    carries [data] or [message]; whatever the cookies, query and body. *)
Theorem table_answers_envelopes ur ar dist m path g op c q b s :
  route_spec m path g op ->
  envelope_ok (fst (handle (app ur ar dist) (incoming m path c q b) s)) = true.
Proof.
  destruct 1 as [|id Hid| |id Hid|id Hid|id Hid|].
  - rewrite handle_admin_list. by destruct (db_connected s).
  - rewrite handle_admin_delete by done. apply error_envelope. unfold admin_delete_error.
    destruct (db_connected s); [|eauto]. destruct (db_listings s !! id); [tauto|eauto].
  - rewrite handle_create. apply gated_envelope. unfold controller. tauto.
  - rewrite (handle_mutation _ _ _ _ _ id deleteListing) by (done || by right).
    apply gated_envelope. unfold controller. tauto.
  - rewrite (handle_mutation _ _ _ _ _ id updateListing) by (done || by left).
    apply gated_envelope. unfold controller. tauto.
  - rewrite handle_get by done. apply controller_envelope. unfold controller. tauto.
  - rewrite handle_list. apply controller_envelope. unfold controller. tauto.
Qed.

(** C18: No partial writes: a request of any row of the table, admin rows
    included, that is not answered 200 leaves the store exactly as it
    was, whatever the cookies, query and body: every refusal of the gate
    and every failure of an operation comes before its one write. *)
Theorem table_failures_keep_store ur ar dist m path g op c q b s :
  route_spec m path g op ->
  res_status (fst (handle (app ur ar dist) (incoming m path c q b) s)) <> 200%Z ->
  snd (handle (app ur ar dist) (incoming m path c q b) s) = s.
Proof.
  destruct 1 as [|id Hid| |id Hid|id Hid|id Hid|].
  - by rewrite handle_admin_list.
  - by rewrite handle_admin_delete.
  - rewrite handle_create. apply gated_failure_keeps. unfold controller; tauto.
  - rewrite (handle_mutation _ _ _ _ _ id deleteListing) by (done || by right).
    apply gated_failure_keeps. unfold controller; tauto.
  - rewrite (handle_mutation _ _ _ _ _ id updateListing) by (done || by left).
    apply gated_failure_keeps. unfold controller; tauto.
  - rewrite handle_get by done. apply controller_failure_keeps. unfold controller; tauto.
  - rewrite handle_list. apply controller_failure_keeps. unfold controller; tauto.
Qed.

(** ** Witnesses *)

Lemma listing_router_refines_table_witness :
  handle (app [] [] []) (incoming DELETE ["api"; "listing"; "delete"; "0"] token_cookie [] JNull)
    sample_db = spec_answer Gated (OpDelete "0") token_cookie [] JNull sample_db.
Proof.
  apply listing_router_refines_table.
  - constructor. discriminate.
  - reflexivity.
  - vm_compute. discriminate.
Defined.

Lemma table_answers_envelopes_witness :
  envelope_ok (fst (handle (app [] [] []) (incoming DELETE ["api"; "admin"; "listings"; "0"]
                                             [] [] JNull) sample_db)) = true.
Proof. apply (table_answers_envelopes _ _ _ _ _ Gated (OpAdminDelete "0")). constructor. discriminate. Defined.

Lemma table_failures_keep_store_witness :
  res_status (fst (handle (app [] [] []) (incoming GET ["api"; "listing"; "get"; "42"] [] [] JNull)
                    sample_db)) <> 200%Z /\
  snd (handle (app [] [] []) (incoming GET ["api"; "listing"; "get"; "42"] [] [] JNull) sample_db) =
    sample_db.
Proof.
  split; [vm_compute; discriminate|].
  apply (table_failures_keep_store _ _ _ _ _ Open (OpReadOne "42")).
  - constructor. discriminate.
  - vm_compute. discriminate.
Defined.
