(* ===== verification/Startup.v ===== *)
(** * Starting the server ([src/api/index.js], lines 17-25 and 64-68)

    [index.js] calls [mongoose.connect(...)], whose promise only logs its
    outcome ([.then] prints "Connected to mongoDB", [.catch] prints the
    error), and then [app.listen(PORT)] unconditionally.  [startup] is the
    process once both have happened: the port bound, the two log lines,
    and the store, connected or not.  The order of the two log lines is
    the order in which the two callbacks run, which the code does not
    fix; no theorem depends on it.

    Theorem: a failed connection does not stop the server.  It listens on
    port 3000, and every request of the route table is still answered, with
    the store unchanged.  The answers are the gate's 401/403 on a gated
    listing route without the token, and the 400 of a create whose body
    is not a valid draft, since both come before the first query.  Every
    other request gets the 500 of the failed query. *)

From S2P Require Import Prelude Js Express Listing Auth Controller App Routes.

(** ** Startup *)

(** How the promise of [mongoose.connect(...)] settles. *)
Inductive connect_result := ConnectResolved | ConnectRejected (err : string).

Definition PORT : Z := 3000.

(** The running process: the port [app.listen] bound, what [console.log]
    printed, and the store. *)
Record server := mkServer { srv_port : Z; srv_log : list string; srv_store : db }.

(** [.then(() => console.log("Connected to mongoDB"))] and
    [.catch((err) => console.log(err))] *)
Definition connect_log (res : connect_result) : string :=
  match res with ConnectResolved => "Connected to mongoDB" | ConnectRejected err => err end.

Definition connected (res : connect_result) : bool :=
  match res with ConnectResolved => true | ConnectRejected _ => false end.

(** [app.listen(PORT, () => console.log(`Server is running on port ${PORT}!!!!`))],
    whatever the connection did. *)
Definition startup (res : connect_result) (s : db) : server :=
  mkServer PORT
    [("Server is running on port " +:+ js_num_to_string (JNum PORT) +:+ "!!!!")%string;
     connect_log res]
    (mkDb (db_listings s) (db_next s) (db_clock s) (connected res)).

(** A create body that the controller refuses before any query. *)
Definition invalid_body (b : json) : Prop :=
  match draft_of_json b with None => True | Some d => validate d = false end.

(** ** Lemmas *)

(** Without a connection, create fails its insert, unless the body is
    refused before it. *)
Lemma createListing_down r s u :
  db_connected s = false -> req_user r = Some u ->
  createListing r s = (NextErr (fail UpstreamFailure), s) \/
  (invalid_body (req_body r) /\ createListing r s = (NextErr (fail ValidationError), s)).
Proof.
  intros Hdown Hu. unfold createListing, invalid_body.
  destruct (draft_of_json _) as [d|]; [|by right].
  destruct (validate d) eqn:Hv; simpl; [|by right].
  unfold requester. rewrite Hu. left. by apply db_query_down.
Qed.

(** A gated listing route on a store without connection: the gate's
    refusal, or what the handler does as the admin ([P] says when that may
    be a [ValidationError]). *)
Lemma gated_down h m p c q b ps s (P : Prop) :
  controller h ->
  h (set_user admin_principal (mkRequest m p c q b ps None)) s = (NextErr (fail UpstreamFailure), s) \/
  (P /\ h (set_user admin_principal (mkRequest m p c q b ps None)) s =
          (NextErr (fail ValidationError), s)) ->
  let '(res, s') := (answer (fst (run_handlers [verifyToken; h] (mkRequest m p c q b ps None) s)),
                     snd (run_handlers [verifyToken; h] (mkRequest m p c q b ps None) s)) in
  s' = s /\
  (res = error_response (fail UpstreamFailure) \/
   (P /\ res = error_response (fail ValidationError)) \/
   (c.["access_token"] <> Some staticToken /\
    (res = error_response (fail Unauthorized) \/ res = error_response (fail Forbidden)))).
Proof.
  intros Hc Hh. rewrite gated_run. destruct (token_ok _) eqn:Hok.
  - rewrite run_handlers_one by (apply controller_terminal, Hc).
    destruct Hh as [-> | [HP ->]]; [by split; [|left]|by split; [|right; left]].
  - rewrite verifyToken_denied by done. simpl. split; [done|]. right; right.
    split; [unfold token_ok, access_token in Hok; by apply bool_decide_eq_false in Hok|].
    by destruct (opt_str_truthy _); [right|left].
Qed.

(** ** Properties *)

(** C36: When [mongoose.connect] fails, [index.js] still listens on port
    3000 and answers every request of the route table without changing the
    store: the gate's 401/403 on a gated listing route without the token,
    the 400 of a create whose body is not a valid draft, and otherwise the
    500 of the failed query ([UpstreamFailure]); the admin routes, which
    have no gate, always get the 500. *)
Theorem db_failure_answers ur ar dist err s m path g op c q b :
  route_spec m path g op ->
  let srv := startup (ConnectRejected err) s in
  srv_port srv = 3000%Z /\
  let '(res, s') := handle (app ur ar dist) (incoming m path c q b) (srv_store srv) in
  s' = srv_store srv /\
  (res = error_response (fail UpstreamFailure) \/
   (op = OpCreate /\ invalid_body b /\ res = error_response (fail ValidationError)) \/
   (g = Gated /\ admin_op op = false /\ c.["access_token"] <> Some staticToken /\
    (res = error_response (fail Unauthorized) \/ res = error_response (fail Forbidden)))).
Proof.
  intros Hrs srv. split; [done|].
  assert (Hdown : db_connected (srv_store srv) = false) by done.
  destruct Hrs as [|id Hid| |id Hid|id Hid|id Hid|].
  - rewrite handle_admin_list, Hdown. by split; [|left].
  - rewrite handle_admin_delete by done. unfold admin_delete_error. rewrite Hdown.
    by split; [|left].
  - rewrite handle_create.
    destruct (gated_down createListing POST ["create"] c q b [] (srv_store srv) (invalid_body b))
      as (-> & H); [left; done|exact (createListing_down (set_user admin_principal (mkRequest POST ["create"] c q b [] None)) _ admin_principal Hdown eq_refl)|].
    split; [done|]. destruct H as [?|[(? & ?)|(? & ?)]]; [by left|by right; left|by right; right].
  - rewrite (handle_mutation _ _ _ _ _ id deleteListing) by (done || by right). cbn [drop].
    destruct (gated_down deleteListing DELETE ["delete"; id] c q b [("id", id)] (srv_store srv) False)
      as (-> & H); [unfold controller; tauto|left; unfold deleteListing; by rewrite owned_listing_down|].
    split; [done|]. destruct H as [?|[(? & _)|(? & ?)]]; [by left|done|by right; right].
  - rewrite (handle_mutation _ _ _ _ _ id updateListing) by (done || by left). cbn [drop].
    destruct (gated_down updateListing POST ["update"; id] c q b [("id", id)] (srv_store srv) False)
      as (-> & H); [unfold controller; tauto|left; unfold updateListing; by rewrite owned_listing_down|].
    split; [done|]. destruct H as [?|[(? & _)|(? & ?)]]; [by left|done|by right; right].
  - rewrite handle_get by done. unfold getListing. rewrite db_query_down by done.
    by split; [|left].
  - rewrite handle_list. unfold getListings. rewrite db_query_down by done.
    by split; [|left].
Qed.

(** ** Witnesses *)

Lemma db_failure_answers_witness :
  let srv := startup (ConnectRejected "MongoServerSelectionError") sample_db in
  srv_port srv = 3000%Z /\
  let '(res, s') := handle (app [] [] []) (incoming POST ["api"; "listing"; "create"] token_cookie []
                              (JObject (json_of_draft_fields sample_draft))) (srv_store srv) in
  s' = srv_store srv /\
  (res = error_response (fail UpstreamFailure) \/
   (OpCreate = OpCreate /\ invalid_body (JObject (json_of_draft_fields sample_draft)) /\
    res = error_response (fail ValidationError)) \/
   (Gated = Gated /\ admin_op OpCreate = false /\ token_cookie.["access_token"] <> Some staticToken /\
    (res = error_response (fail Unauthorized) \/ res = error_response (fail Forbidden)))).
Proof. apply (db_failure_answers [] [] [] _ _ POST ["api"; "listing"; "create"]). constructor. Defined.
