(* ===== verification/Server.v ===== *)
(** * The running server ([src/api/index.js]) over time

    Once [app.listen(PORT)] has run, the process serves requests, one
    after the other on the shared store, for as long as it lives, while
    the MongoDB driver behind mongoose keeps or loses its connection.  This
    file models those runs as a labelled step relation on [Startup.server]:

    - [ss_serve]: a request is handled by the stack [App.app] on the store
      and answered;
    - [ss_lost] and [ss_reconnect]: the connection drops, and the driver
      reconnects.  It reconnects only after a successful first
      [mongoose.connect]: when the promise of [index.js] rejects, mongoose
      does not try again, and the code never calls [connect] a second time;
    - [ss_ack_lost]: the connection drops while a write is on the wire: the
      write is applied, but the driver reports a network error, so the
      handler answers the 500 of [UpstreamFailure] (specification 5: a
      request either completes or the connection fails it; section 7: no
      retries).

    A run is a list of labels ([Served] requests with their answers,
    connection events) between two servers, as a trace.

    Theorems: along every run from [startup], the port and the log lines
    stay, the store stays well formed, and after a rejected connection
    the store never changes and no connection event happens: every answer
    is the one the initial store gives ([Startup.db_failure_answers] says
    which).  The user and auth routers, which act on the users collection,
    are assumed not to touch the listings. *)

From S2P Require Import Prelude Js Express Listing Auth Controller App Routes Startup.

(** ** Runs *)

(** What one step of the running process shows. *)
Inductive server_event :=
  | Served (r : request) (res : response)
  | ConnectionLost
  | Reconnected.

Definition set_connected (b : bool) (s : db) : db :=
  mkDb (db_listings s) (db_next s) (db_clock s) b.

Definition with_store (srv : server) (s : db) : server :=
  mkServer (srv_port srv) (srv_log srv) s.

Section Run.
  Variables (ur ar : list (route_layer db)) (dist : list (list string)) (res0 : connect_result).

Inductive server_step : server -> server_event -> server -> Prop :=
  | ss_serve srv r :
      server_step srv (Served r (fst (handle (app ur ar dist) r (srv_store srv))))
        (with_store srv (snd (handle (app ur ar dist) r (srv_store srv))))
  | ss_ack_lost srv r :
      snd (handle (app ur ar dist) r (srv_store srv)) <> srv_store srv ->
      server_step srv (Served r (error_response (fail UpstreamFailure)))
        (with_store srv (set_connected false (snd (handle (app ur ar dist) r (srv_store srv)))))
  | ss_lost srv :
      db_connected (srv_store srv) = true ->
      server_step srv ConnectionLost (with_store srv (set_connected false (srv_store srv)))
  | ss_reconnect srv :
      connected res0 = true -> db_connected (srv_store srv) = false ->
      server_step srv Reconnected (with_store srv (set_connected true (srv_store srv))).

Inductive run : server -> list server_event -> server -> Prop :=
  | run_nil srv : run srv [] srv
  | run_cons srv ev srv' evs srv'' :
      server_step srv ev srv' -> run srv' evs srv'' -> run srv (ev :: evs) srv''.
End Run.

(** A run from a rejected connection: every event answers a request as
    the initial store [s] does. *)
Definition served_by (ur ar : list (route_layer db)) (dist : list (list string)) (s : db)
    (ev : server_event) : Prop :=
  match ev with
  | Served r res => res = fst (handle (app ur ar dist) r s)
  | _ => False
  end.

(** The invariant of a run from [srv0], started with outcome [res0]. *)
Definition server_inv (res0 : connect_result) (srv0 srv : server) : Prop :=
  srv_port srv = srv_port srv0 /\ srv_log srv = srv_log srv0 /\ db_wf (srv_store srv) /\
  (connected res0 = false -> srv_store srv = srv_store srv0).

(** ** Lemmas *)

(** Routers that leave every store alone keep every property of it. *)
Lemma router_keeps_preserves (P : db -> Prop) rs :
  (forall s, router_preserves (eq s) rs) -> router_preserves P rs.
Proof.
  intros H. unfold router_preserves in *. apply Forall_forall. intros [m pat hs] Hl. apply Forall_forall. intros h Hh r s Hs.
  specialize (H s). rewrite Forall_forall in H. specialize (H _ Hl). simpl in H.
  rewrite Forall_forall in H. by rewrite <-(H h Hh r s eq_refl).
Qed.

Section Handle.
  Variables (ur ar : list (route_layer db)) (dist : list (list string)).
  Hypothesis ur_keeps : forall s, router_preserves (eq s) ur.
  Hypothesis ar_keeps : forall s, router_preserves (eq s) ar.

Lemma handle_keeps_wf r s : db_wf s -> db_wf (snd (handle (app ur ar dist) r s)).
  Proof.
    apply app_preserves; [|by apply router_keeps_preserves..].
    intros h Hh r' s'. by apply controller_preserves_wf.
  Qed.

(** Without a connection, no request changes the store. *)
Lemma handle_down_keeps r s :
  db_connected s = false -> snd (handle (app ur ar dist) r s) = s.
  Proof.
    intros Hdown. symmetry. apply (app_preserves (eq s)); [|apply ur_keeps|apply ar_keeps|done].
    intros h Hh r' s' <-. symmetry. by apply controller_down_keeps.
  Qed.
End Handle.

Lemma server_step_inv ur ar dist res0 srv0 srv ev srv' :
  (forall s, router_preserves (eq s) ur) -> (forall s, router_preserves (eq s) ar) ->
  (connected res0 = false -> db_connected (srv_store srv0) = false) ->
  server_step ur ar dist res0 srv ev srv' -> server_inv res0 srv0 srv ->
  server_inv res0 srv0 srv' /\
  (connected res0 = false -> served_by ur ar dist (srv_store srv0) ev).
Proof.
  intros Hur Har Hdown0 Hs (Hport & Hlog & Hwf & Hkeep).
  destruct Hs as [srv r|srv r Hw|srv Hup|srv Hc Hdown]; unfold server_inv; simpl;
    (split; [split; [done|split; [done|split]]|]).
  - by apply handle_keeps_wf.
  - intros Hrej. rewrite Hkeep by done. by apply handle_down_keeps, Hdown0.
  - intros Hrej. simpl. by rewrite Hkeep.
  - by apply handle_keeps_wf.
  - intros Hrej. exfalso. apply Hw. rewrite Hkeep by done. by apply handle_down_keeps, Hdown0.
  - intros Hrej. exfalso. apply Hw. rewrite Hkeep by done. by apply handle_down_keeps, Hdown0.
  - done.
  - intros Hrej. rewrite Hkeep, Hdown0 in Hup by done. discriminate.
  - intros Hrej. rewrite Hkeep, Hdown0 in Hup by done. discriminate.
  - done.
  - intros Hrej. congruence.
  - intros Hrej. congruence.
Qed.

Lemma run_inv ur ar dist res0 srv0 srv evs srv' :
  (forall s, router_preserves (eq s) ur) -> (forall s, router_preserves (eq s) ar) ->
  (connected res0 = false -> db_connected (srv_store srv0) = false) ->
  run ur ar dist res0 srv evs srv' -> server_inv res0 srv0 srv ->
  server_inv res0 srv0 srv' /\
  (connected res0 = false -> Forall (served_by ur ar dist (srv_store srv0)) evs).
Proof.
  intros Hur Har Hdown0 Hrun. induction Hrun as [srv|srv ev srv1 evs srv2 Hs _ IH]; intros Hinv.
  - by split; [|constructor].
  - destruct (server_step_inv _ _ _ _ _ _ _ _ Hur Har Hdown0 Hs Hinv) as [Hinv1 Hev].
    destruct (IH Hinv1) as [Hinv2 Hevs]. split; [done|]. intros Hrej. constructor; auto.
Qed.

(** ** Properties *)

(** Along every run of the server started by [index.js] on a
    well-formed store, whatever requests arrive and whatever the
    connection does, the process keeps listening on port 3000 with its two
    log lines and the store stays well formed.  When [mongoose.connect]
    was rejected, the driver of this model never reconnects ([ss_reconnect]
    requires a successful first connection), so the store never changes
    and every request is answered as the initial store answers it. *)
Theorem server_run_invariant ur ar dist res0 s0 evs srv :
  (forall s, router_preserves (eq s) ur) -> (forall s, router_preserves (eq s) ar) ->
  db_wf s0 -> run ur ar dist res0 (startup res0 s0) evs srv ->
  srv_port srv = 3000%Z /\ srv_log srv = srv_log (startup res0 s0) /\ db_wf (srv_store srv) /\
  (connected res0 = false ->
   srv_store srv = srv_store (startup res0 s0) /\
   Forall (served_by ur ar dist (srv_store (startup res0 s0))) evs).
Proof.
  intros Hur Har Hwf Hrun.
  destruct (run_inv ur ar dist res0 (startup res0 s0) _ _ _ Hur Har (fun H => H) Hrun)
    as [(Hport & Hlog & Hwf' & Hkeep) Hevs]; [done|].
  do 3 (split; [done|]). intros Hrej. split; [by apply Hkeep|by apply Hevs].
Qed.

(** ** Witnesses and examples *)

Lemma server_run_invariant_witness :
  let srv0 := startup (ConnectRejected "MongoServerSelectionError") sample_db in
  let r := incoming GET ["api"; "listing"; "get"] [] [] JNull in
  let srv := with_store srv0 (snd (handle (app [] [] []) r (srv_store srv0))) in
  let evs := [Served r (fst (handle (app [] [] []) r (srv_store srv0)))] in
  srv_port srv = 3000%Z /\ srv_log srv = srv_log srv0 /\ db_wf (srv_store srv) /\
  (connected (ConnectRejected "MongoServerSelectionError") = false ->
   srv_store srv = srv_store srv0 /\ Forall (served_by [] [] [] (srv_store srv0)) evs).
Proof.
  intros srv0 r srv evs.
  apply (server_run_invariant [] [] [] _ sample_db evs srv).
  - intros s. constructor.
  - intros s. constructor.
  - apply sample_db_wf.
  - eapply run_cons; [apply ss_serve|apply run_nil].
Defined.

(** After a successful first connection, a create with the token can be
    answered with the 500 of a failed query while the new listing is
    stored: the connection dropped after the write was applied. *)
Lemma ack_lost_create_example :
  let srv0 := startup ConnectResolved sample_db in
  let r := incoming POST ["api"; "listing"; "create"] token_cookie []
             (JObject (json_of_draft_fields sample_draft)) in
  exists srv l,
    run [] [] [] ConnectResolved srv0 [Served r (error_response (fail UpstreamFailure))] srv /\
    res_status (error_response (fail UpstreamFailure)) = 500%Z /\
    db_listings (srv_store srv0) !! l_id l = None /\ db_listings (srv_store srv) !! l_id l = Some l.
Proof.
  intros srv0 r. eexists _, (new_listing (srv_store srv0) "admin" sample_draft).
  split.
  - eapply run_cons; [apply ss_ack_lost|apply run_nil].
    intros H. apply (f_equal db_next) in H. vm_compute in H. discriminate.
  - split; [reflexivity|split; vm_compute; reflexivity].
Qed.
