(* ===== verification/CreateListingForm.v ===== *)
(** * The listing form ([src/client/src/pages/CreateListing.jsx])

    The component's React state is the record [page]: [files],
    [formData], [imageUploadError], [uploading], [error], [loading], plus
    what the running closures hold: an upload started by
    [handleImageSubmit] keeps the [files] and the [formData] it saw when
    the button was clicked, and a submission keeps the body it sent.  The
    location [navigate] moves to is part of the state.

    The handlers are functions on [page]: [handleImageSubmit] (its
    synchronous half, and its two completions), [handleRemoveImage],
    [handleChange], the type toggle, [handleSubmit] (its synchronous half
    and its two completions).  [view] is the JSX the component returns,
    as the list of elements it renders; each input or button carries the
    event its handler produces.  [step] is the state machine: the user can
    only act on an element of the current view (a disabled button does
    nothing), and the pending upload and request complete at any time.

    Theorems: the bound of six images holds in every reachable state,
    although an upload completes on a stale copy of [formData]; that stale
    copy loses an edit made during the upload; the guards of
    [handleImageSubmit] and [handleSubmit]; exactly where the client's
    price check and the server's validation disagree; removing an image is
    list deletion; the answer of the server's envelope sends the browser
    to [/listing/undefined]. *)

From S2P Require Import Prelude Js Express Listing Controller.

Module CreateListing.

(** ** State *)

(** A file chosen in [<input type="file">], by its name. *)
Definition file := string.

(** [formData] *)
Record form_data := mkForm {
  imageUrls : list string;
  name : string;
  description : string;
  address : string;
  type : string;
  bedrooms : jsnum;
  bathrooms : jsnum;
  regularPrice : jsnum;
  discountPrice : jsnum;
  offer : bool;
  parking : bool;
  furnished : bool
}.

(** The initial [useState] value of [formData]. *)
Definition initial_form : form_data :=
  mkForm [] "" "" "" "rent" (JNum 1) (JNum 1) (JNum 50) (JNum 0) false false false.

Record page := mkPage {
  files : list file;
  formData : form_data;
  imageUploadError : option string;
  uploading : bool;
  error : option json;
  loading : bool;
  (** the files and the [formData] the running upload's closure holds *)
  upload_job : option (list file * form_data);
  (** the body of the running [fetch] *)
  submit_job : option json;
  (** where [navigate] sent the browser *)
  location : option string
}.

Definition initial_page : page :=
  mkPage [] initial_form None false None false None None None.

(** ** Field updates *)

Inductive text_field := FName | FDescription | FAddress.
Inductive num_field := FBedrooms | FBathrooms | FRegularPrice | FDiscountPrice.
Inductive bool_field := FOffer | FParking | FFurnished.

Definition set_text (f : text_field) (v : string) (fd : form_data) : form_data :=
  match f with
  | FName => mkForm (imageUrls fd) v (description fd) (address fd) (type fd) (bedrooms fd)
               (bathrooms fd) (regularPrice fd) (discountPrice fd) (offer fd) (parking fd) (furnished fd)
  | FDescription => mkForm (imageUrls fd) (name fd) v (address fd) (type fd) (bedrooms fd)
               (bathrooms fd) (regularPrice fd) (discountPrice fd) (offer fd) (parking fd) (furnished fd)
  | FAddress => mkForm (imageUrls fd) (name fd) (description fd) v (type fd) (bedrooms fd)
               (bathrooms fd) (regularPrice fd) (discountPrice fd) (offer fd) (parking fd) (furnished fd)
  end.

Definition get_num (f : num_field) (fd : form_data) : jsnum :=
  match f with
  | FBedrooms => bedrooms fd | FBathrooms => bathrooms fd
  | FRegularPrice => regularPrice fd | FDiscountPrice => discountPrice fd
  end.

Definition set_num (f : num_field) (v : jsnum) (fd : form_data) : form_data :=
  match f with
  | FBedrooms => mkForm (imageUrls fd) (name fd) (description fd) (address fd) (type fd) v
               (bathrooms fd) (regularPrice fd) (discountPrice fd) (offer fd) (parking fd) (furnished fd)
  | FBathrooms => mkForm (imageUrls fd) (name fd) (description fd) (address fd) (type fd)
               (bedrooms fd) v (regularPrice fd) (discountPrice fd) (offer fd) (parking fd) (furnished fd)
  | FRegularPrice => mkForm (imageUrls fd) (name fd) (description fd) (address fd) (type fd)
               (bedrooms fd) (bathrooms fd) v (discountPrice fd) (offer fd) (parking fd) (furnished fd)
  | FDiscountPrice => mkForm (imageUrls fd) (name fd) (description fd) (address fd) (type fd)
               (bedrooms fd) (bathrooms fd) (regularPrice fd) v (offer fd) (parking fd) (furnished fd)
  end.

Definition set_bool (f : bool_field) (v : bool) (fd : form_data) : form_data :=
  match f with
  | FOffer => mkForm (imageUrls fd) (name fd) (description fd) (address fd) (type fd)
               (bedrooms fd) (bathrooms fd) (regularPrice fd) (discountPrice fd) v (parking fd) (furnished fd)
  | FParking => mkForm (imageUrls fd) (name fd) (description fd) (address fd) (type fd)
               (bedrooms fd) (bathrooms fd) (regularPrice fd) (discountPrice fd) (offer fd) v (furnished fd)
  | FFurnished => mkForm (imageUrls fd) (name fd) (description fd) (address fd) (type fd)
               (bedrooms fd) (bathrooms fd) (regularPrice fd) (discountPrice fd) (offer fd) (parking fd) v
  end.

Definition set_images (imgs : list string) (fd : form_data) : form_data :=
  mkForm imgs (name fd) (description fd) (address fd) (type fd) (bedrooms fd) (bathrooms fd)
    (regularPrice fd) (discountPrice fd) (offer fd) (parking fd) (furnished fd).

Definition set_type (t : string) (fd : form_data) : form_data :=
  mkForm (imageUrls fd) (name fd) (description fd) (address fd) t (bedrooms fd) (bathrooms fd)
    (regularPrice fd) (discountPrice fd) (offer fd) (parking fd) (furnished fd).

(** [setFormData], [setFiles], ... on the page record *)
Definition with_form (fd : form_data) (p : page) : page :=
  mkPage (files p) fd (imageUploadError p) (uploading p) (error p) (loading p)
    (upload_job p) (submit_job p) (location p).

(** ** Handlers *)

(** [handleImageSubmit], up to [Promise.all(promises)]: the guard of line
    34, and the closure keeps [files] and [formData]. *)
Definition handleImageSubmit (p : page) : page :=
  if (0 <? length (files p)) && (length (files p) + length (imageUrls (formData p)) <=? 6)
  then mkPage (files p) (formData p) None true (error p) (loading p)
         (Some (files p, formData p)) (submit_job p) (location p)
  else mkPage (files p) (formData p) (Some "You can upload up to 6 images per listing")
         (uploading p) (error p) (loading p) (upload_job p) (submit_job p) (location p).

(** [Promise.all] resolved with the URLs: [setFormData] spreads the
    [formData] of the closure, not the current one. *)
Definition upload_resolved (urls : list string) (p : page) : page :=
  match upload_job p with
  | Some (_, snap) =>
      mkPage (files p) (set_images (imageUrls snap ++ urls) snap) None false
        (error p) (loading p) None (submit_job p) (location p)
  | None => p
  end.

(** One upload failed. *)
Definition upload_rejected (p : page) : page :=
  mkPage (files p) (formData p) (Some "Image upload failed (2 MB max per image)") false
    (error p) (loading p) None (submit_job p) (location p).

Definition handleRemoveImage (index : nat) (p : page) : page :=
  with_form (set_images (js_filter (fun _ i => negb (Nat.eqb i index)) (imageUrls (formData p)))
                        (formData p)) p.

(** The [change] events of the inputs, by the type of their target. *)
Inductive change_event :=
| ChText (f : text_field) (value : string)
| ChNumber (f : num_field) (value : string)
| ChCheckbox (f : bool_field) (checked : bool).

Definition handleChange (e : change_event) (p : page) : page :=
  match e with
  | ChCheckbox f checked => with_form (set_bool f checked (formData p)) p
  | ChNumber f value => with_form (set_num f (parseInt value) (formData p)) p
  | ChText f value => with_form (set_text f value (formData p)) p
  end.

(** The [onChange] of the "Sale" checkbox. *)
Definition toggleType (p : page) : page :=
  with_form (set_type (if String.eqb (type (formData p)) "sale" then "rent" else "sale")
                      (formData p)) p.

(** [JSON.stringify({ ...formData, userRef: currentUser._id })]: a [NaN]
    is written [null] and an [undefined] [userRef] is left out. *)
Definition form_body (fd : form_data) (userRef : option json) : json :=
  JObject ([("imageUrls", JArray (map JString (imageUrls fd))); ("name", JString (name fd));
            ("description", JString (description fd)); ("address", JString (address fd));
            ("type", JString (type fd)); ("bedrooms", json_of_num (bedrooms fd));
            ("bathrooms", json_of_num (bathrooms fd));
            ("regularPrice", json_of_num (regularPrice fd));
            ("discountPrice", json_of_num (discountPrice fd)); ("offer", JBool (offer fd));
            ("parking", JBool (parking fd)); ("furnished", JBool (furnished fd))] ++
           match userRef with Some u => [("userRef", u)] | None => [] end).

Definition set_error (e : option json) (p : page) : page :=
  mkPage (files p) (formData p) (imageUploadError p) (uploading p) e (loading p)
    (upload_job p) (submit_job p) (location p).

(** [handleSubmit] up to the [fetch]. *)
Definition handleSubmit (currentUser : json) (p : page) : page :=
  let fd := formData p in
  if length (imageUrls fd) <? 1 then set_error (Some (JString "At least one image is required.")) p
  else if js_lt (regularPrice fd) (discountPrice fd)
  then set_error (Some (JString "Discount price must be lower than regular price.")) p
  else mkPage (files p) fd (imageUploadError p) (uploading p) None true (upload_job p)
         (Some (form_body fd (json_get currentUser "_id"))) (location p).

(** [response.json()] gave [data]. *)
Definition submit_resolved (data : json) (p : page) : page :=
  if json_truthy (json_get data "success")
  then mkPage (files p) (formData p) (imageUploadError p) (uploading p) (error p) false
         (upload_job p) None (Some ("/listing/" +:+ template_string (json_get data "_id")))
  else mkPage (files p) (formData p) (imageUploadError p) (uploading p) (json_get data "message")
         false (upload_job p) None (location p).

(** The [fetch] or [response.json()] threw. *)
Definition submit_rejected (p : page) : page :=
  mkPage (files p) (formData p) (imageUploadError p) (uploading p)
    (Some (JString "Failed to create listing. Please try again.")) false (upload_job p) None
    (location p).

(** ** Events and the view *)

Inductive event :=
| SelectFiles (fs : list file)
| ClickUpload
| RemoveImage (index : nat)
| Change (e : change_event)
| ToggleType
| Submit.

Definition react (currentUser : json) (ev : event) (p : page) : page :=
  match ev with
  | SelectFiles fs =>
      mkPage fs (formData p) (imageUploadError p) (uploading p) (error p) (loading p)
        (upload_job p) (submit_job p) (location p)
  | ClickUpload => handleImageSubmit p
  | RemoveImage i => handleRemoveImage i p
  | Change e => handleChange e p
  | ToggleType => toggleType p
  | Submit => handleSubmit currentUser p
  end.

(** The elements the JSX renders, with the event each one's handler
    produces. *)
Inductive element :=
| Heading (text : string)
| Label (htmlFor : string) (text : string)
| TextInput (id : string) (value : string) (onChange : string -> event)
| TextArea (id : string) (value : string) (onChange : string -> event)
| NumberInput (id : string) (value : jsnum) (onChange : string -> event)
| Checkbox (id : string) (checked : bool) (onChange : bool -> event)
| FileInput (id : string) (onChange : list file -> event)
| Button (label : string) (disabled : bool) (onClick : event)
| ErrorText (text : string)
| Img (src : string) (alt : string).

Definition image_row (index : nat) (url : string) : list element :=
  [Img url ("Uploaded " +:+ js_num_to_string (JNum (Z.of_nat index)));
   Button "Remove" false (RemoveImage index)].

Definition view (p : page) : list element :=
  let fd := formData p in
  [Heading "Create a Listing";
   Label "name" "Name:"; TextInput "name" (name fd) (fun v => Change (ChText FName v));
   Label "description" "Description:";
   TextArea "description" (description fd) (fun v => Change (ChText FDescription v));
   Label "address" "Address:";
   TextInput "address" (address fd) (fun v => Change (ChText FAddress v));
   Label "bedrooms" "Bedrooms:";
   NumberInput "bedrooms" (bedrooms fd) (fun v => Change (ChNumber FBedrooms v));
   Label "bathrooms" "Bathrooms:";
   NumberInput "bathrooms" (bathrooms fd) (fun v => Change (ChNumber FBathrooms v));
   Label "regularPrice" "Regular Price ($/month):";
   NumberInput "regularPrice" (regularPrice fd) (fun v => Change (ChNumber FRegularPrice v))] ++
  (if offer fd then
     [Label "discountPrice" "Discount Price ($/month):";
      NumberInput "discountPrice" (discountPrice fd) (fun v => Change (ChNumber FDiscountPrice v))]
   else []) ++
  [Checkbox "offer" (offer fd) (fun c => Change (ChCheckbox FOffer c)); Label "offer" "Offer";
   Checkbox "parking" (parking fd) (fun c => Change (ChCheckbox FParking c));
   Label "parking" "Parking";
   Checkbox "furnished" (furnished fd) (fun c => Change (ChCheckbox FFurnished c));
   Label "furnished" "Furnished";
   Checkbox "type" (String.eqb (type fd) "sale") (fun _ => ToggleType); Label "type" "Sale";
   Label "images" "Images (max 6):"; FileInput "images" SelectFiles;
   Button (if uploading p then "Uploading..." else "Upload") (uploading p) ClickUpload] ++
  (match imageUploadError p with Some m => [ErrorText m] | None => [] end) ++
  concat (imap image_row (imageUrls fd)) ++
  [Button (if loading p then "Submitting..." else "Create Listing") (loading p || uploading p) Submit] ++
  (if json_truthy (error p) then [ErrorText (template_string (error p))] else []).

(** What the user can do to an element. *)
Inductive action := Input (value : string) | Pick (fs : list file) | Click.

(** The event an action on an element triggers; a disabled button
    triggers none. *)
Definition fire (el : element) (a : action) : option event :=
  match el, a with
  | TextInput _ _ f, Input v | TextArea _ _ f, Input v | NumberInput _ _ f, Input v => Some (f v)
  | Checkbox _ c f, Click => Some (f (negb c))
  | FileInput _ f, Pick fs => Some (f fs)
  | Button _ disabled ev, Click => if disabled then None else Some ev
  | _, _ => None
  end.

(** ** The state machine *)

Section Machine.
  (** [currentUser] of the Redux store *)
  Variable currentUser : json.

Inductive step : page -> page -> Prop :=
  | step_ui p el a ev :
      location p = None -> el ∈ view p -> fire el a = Some ev ->
      step p (react currentUser ev p)
  | step_upload_ok p fs snap urls :
      upload_job p = Some (fs, snap) -> length urls = length fs ->
      step p (upload_resolved urls p)
  | step_upload_fail p job :
      upload_job p = Some job -> step p (upload_rejected p)
  | step_submit_ok p body data :
      submit_job p = Some body -> step p (submit_resolved data p)
  | step_submit_fail p body :
      submit_job p = Some body -> step p (submit_rejected p).

Definition reachable (p : page) : Prop := rtc step initial_page p.
End Machine.


(** ** The invariant of the form *)

Definition type_ok (t : string) : Prop := t = "rent" \/ t = "sale".

(** At most six images, a type of [rent] or [sale], and the same for the
    copy a running upload holds, whose files fit in the remaining room;
    [uploading] is set exactly while an upload runs. *)
Definition form_inv (p : page) : Prop :=
  (length (imageUrls (formData p)) <= 6)%nat /\ type_ok (type (formData p)) /\
  match upload_job p with
  | Some (fs, snap) =>
      (length fs + length (imageUrls snap) <= 6)%nat /\ type_ok (type snap) /\ uploading p = true
  | None => uploading p = false
  end.

(** The draft a form stands for: [None] when a number field is [NaN] or
    the type is neither [rent] nor [sale]. *)
Definition num_value (a : jsnum) : option Z := match a with JNum z => Some z | JNaN => None end.

Definition draft_of_form (fd : form_data) : option draft :=
  t ← listing_type_of_string (type fd);
  bed ← num_value (bedrooms fd);
  bath ← num_value (bathrooms fd);
  reg ← num_value (regularPrice fd);
  disc ← num_value (discountPrice fd);
  Some (mkDraft (name fd) (description fd) (address fd) t bed bath reg disc
          (offer fd) (parking fd) (furnished fd) (imageUrls fd)).

(** A run of the form: pick a file, click Upload, type a name while the
    upload runs, and the upload completes. *)
Definition demo_user : json := JObject [("_id", JString "u1")].
Definition trace_p1 : page := react demo_user (SelectFiles ["photo.jpg"]) initial_page.
Definition trace_p2 : page := react demo_user ClickUpload trace_p1.
Definition trace_p3 : page := react demo_user (Change (ChText FName "Villa")) trace_p2.
Definition trace_p4 : page := upload_resolved ["https://img/1"] trace_p3.

(** Finds an element in the rendered list. *)
Ltac find_elem :=
  repeat first [ apply elem_of_cons; left; reflexivity
               | apply elem_of_cons; right
               | apply elem_of_app; right ].

(** Splits a membership in the rendered list into one case per element;
    [rows] splits the image rows. *)
Ltac view_elem Hin rows :=
  repeat match type of Hin with
  | _ ∈ _ ++ _ => apply elem_of_app in Hin as [Hin|Hin]
  | _ ∈ _ :: _ => apply elem_of_cons in Hin as [->|Hin]
  | _ ∈ [] => by apply not_elem_of_nil in Hin
  | _ ∈ concat (imap image_row _) =>
      apply rows in Hin as [(? & ? & ->)|(? & ? & ->)]
  end.

Lemma initial_form_inv : form_inv initial_page.
Proof. repeat split; simpl; [lia|left; done]. Qed.

Lemma set_text_images f v fd :
  imageUrls (set_text f v fd) = imageUrls fd /\ type (set_text f v fd) = type fd.
Proof. by destruct f. Qed.

Lemma set_num_images f v fd :
  imageUrls (set_num f v fd) = imageUrls fd /\ type (set_num f v fd) = type fd.
Proof. by destruct f. Qed.

Lemma set_bool_images f v fd :
  imageUrls (set_bool f v fd) = imageUrls fd /\ type (set_bool f v fd) = type fd.
Proof. by destruct f. Qed.

Lemma handleChange_form e p :
  imageUrls (formData (handleChange e p)) = imageUrls (formData p) /\
  type (formData (handleChange e p)) = type (formData p) /\
  upload_job (handleChange e p) = upload_job p /\ uploading (handleChange e p) = uploading p.
Proof.
  destruct e as [f v|f v|f v]; simpl;
    [destruct (set_text_images f v (formData p)) as [-> ->]
    |destruct (set_num_images f (parseInt v) (formData p)) as [-> ->]
    |destruct (set_bool_images f v (formData p)) as [-> ->]]; done.
Qed.

Lemma handleRemoveImage_images i p :
  imageUrls (formData (handleRemoveImage i p)) = delete i (imageUrls (formData p)).
Proof. simpl. apply js_filter_skip_index. Qed.

Lemma length_delete_le {A} (l : list A) i : (length (delete i l) <= length l)%nat.
Proof.
  revert i. induction l as [|x l IH]; intros [|i]; simpl; try lia.
  specialize (IH i). lia.
Qed.

Lemma handleImageSubmit_inv p : form_inv p -> form_inv (handleImageSubmit p).
Proof.
  unfold handleImageSubmit. intros (Hlen & Hty & Hjob).
  destruct (_ && _) eqn:Hg; simpl; [|done].
  apply andb_true_iff in Hg as [_ Hg%Nat.leb_le]. repeat split; done || lia.
Qed.

Lemma react_inv cu ev p : form_inv p -> form_inv (react cu ev p).
Proof.
  intros Hinv. destruct ev as [fs| |i|e| |]; simpl.
  - exact Hinv.
  - by apply handleImageSubmit_inv.
  - destruct Hinv as (Hlen & Hty & Hjob). split; [|done].
    rewrite handleRemoveImage_images. pose proof (length_delete_le (imageUrls (formData p)) i). lia.
  - destruct (handleChange_form e p) as (Hi & Ht & Hj & Hu).
    destruct Hinv as (Hlen & Hty & Hjob). split; [by rewrite Hi|]. split; [by rewrite Ht|].
    by rewrite Hj, Hu.
  - destruct Hinv as (Hlen & Hty & Hjob). split; [done|]. split; [|done]. simpl.
    unfold type_ok. case_if; [by left|by right].
  - unfold handleSubmit. destruct Hinv as (Hlen & Hty & Hjob).
    repeat case_if; simpl; by repeat split.
Qed.

Lemma step_inv cu p p' : step cu p p' -> form_inv p -> form_inv p'.
Proof.
  intros Hs Hinv. destruct Hs as [p el a ev _ _ _|p fs snap urls Hj Hl|p job Hj|p b data Hj|p b Hj].
  - by apply react_inv.
  - unfold upload_resolved. rewrite Hj. destruct Hinv as (_ & _ & Hjob). rewrite Hj in Hjob.
    destruct Hjob as (Hb & Ht & _). unfold form_inv. simpl. rewrite length_app.
    repeat split; done || lia.
  - destruct Hinv as (Hlen & Hty & _). by repeat split.
  - destruct Hinv as (Hlen & Hty & Hjob). unfold submit_resolved. by case_if.
  - done.
Qed.

Lemma reachable_inv cu p : reachable cu p -> form_inv p.
Proof.
  unfold reachable. apply rtc_ind_r; [apply initial_form_inv|].
  intros y z _ Hyz Hy. by eapply step_inv.
Qed.

(** ** Lemmas on the view *)

(** A form that stands for a draft holds the draft's numbers, images and
    offer. *)
Lemma draft_of_form_fields fd d :
  draft_of_form fd = Some d ->
  regularPrice fd = JNum (d_regularPrice d) /\ discountPrice fd = JNum (d_discountPrice d) /\
  imageUrls fd = d_imageUrls d /\ offer fd = d_offer d.
Proof.
  destruct fd as [imgs nm desc addr ty bed bath reg disc off park furn]. unfold draft_of_form. simpl.
  destruct (listing_type_of_string ty); [|done].
  destruct bed, bath, reg, disc; simpl; try done. by intros [= <-].
Qed.

Lemma elem_of_image_rows (l : list string) el :
  el ∈ concat (imap image_row l) ->
  (exists src alt, el = Img src alt) \/
  (exists i, (i < length l)%nat /\ el = Button "Remove" false (RemoveImage i)).
Proof.
  intros Hin. apply list_elem_of_In, in_concat in Hin as (row & Hrow & Hel).
  apply list_elem_of_In, elem_of_lookup_imap in Hrow as (i & url & -> & Hi).
  destruct Hel as [<-|[<-|[]]]; [left; eauto|right; exists i].
  split; [by eapply lookup_lt_Some|done].
Qed.



(** The two buttons that start asynchronous work are disabled while it
    runs: Upload while an upload runs, Create Listing while a request or an
    upload runs. *)
Lemma view_fire_guarded p el a ev :
  el ∈ view p -> fire el a = Some ev ->
  (ev = Submit -> loading p = false /\ uploading p = false) /\
  (ev = ClickUpload -> uploading p = false).
Proof.
  intros Hin Hf. unfold view in Hin.
  destruct (offer (formData p)), (imageUploadError p), (json_truthy (error p));
    view_elem Hin elem_of_image_rows; destruct a; simpl in Hf; try discriminate;
    destruct (loading p), (uploading p); simpl in Hf; try discriminate;
    injection Hf as <-; split; intros; discriminate || done.
Qed.

(** ** Properties of the form *)

(** C19: In every state the form can reach, whatever the order in which
    the user acts and the uploads and the request complete, [formData]
    holds at most six image URLs and its type is [rent] or [sale]. *)
Theorem reachable_images_bounded cu p :
  reachable cu p ->
  (length (imageUrls (formData p)) <= 6)%nat /\ (type (formData p) = "rent" \/ type (formData p) = "sale").
Proof. intros Hr. destruct (reachable_inv cu p Hr) as (Hlen & Hty & _). done. Qed.

(** C23: An upload completes on the copy of [formData] its closure took
    when the button was clicked: a change of the name made while the
    upload runs is shown, and then undone when the upload completes. *)
Theorem upload_drops_concurrent_edit cu p fs snap urls v :
  upload_job p = Some (fs, snap) ->
  let p' := react cu (Change (ChText FName v)) p in
  name (formData p') = v /\ name (formData (upload_resolved urls p')) = name snap.
Proof. intros Hj p'. split; [done|]. unfold upload_resolved. simpl. by rewrite Hj. Qed.

(** C29: With no upload running, a click on Upload starts one exactly when
    files are chosen and they fit with the current images in six; with no
    file chosen the message shown is the one about six images. *)
Theorem handleImageSubmit_starts_iff p :
  upload_job p = None ->
  (is_Some (upload_job (handleImageSubmit p)) <->
   (0 < length (files p) /\ length (files p) + length (imageUrls (formData p)) <= 6)%nat) /\
  (files p = [] ->
   imageUploadError (handleImageSubmit p) = Some "You can upload up to 6 images per listing").
Proof.
  intros Hj. unfold handleImageSubmit. split.
  - destruct (_ && _) eqn:Hg; simpl.
    + apply andb_true_iff in Hg as [H1%Nat.ltb_lt H2%Nat.leb_le]. split; [done|eauto].
    + rewrite Hj. split; [by intros []|]. intros [H1 H2].
      apply andb_false_iff in Hg as [H%Nat.ltb_ge|H%Nat.leb_gt]; lia.
  - intros ->. done.
Qed.

(** C24: With no request running, Create Listing sends the form exactly
    when it has at least one image and the regular price is not below the
    discount price in the sense of JavaScript's [<], which is false as
    soon as one of them is [NaN]. *)
Theorem handleSubmit_sends_iff cu p :
  submit_job p = None ->
  is_Some (submit_job (handleSubmit cu p)) <->
  (1 <= length (imageUrls (formData p)))%nat /\
  js_lt (regularPrice (formData p)) (discountPrice (formData p)) = false.
Proof.
  intros Hj. unfold handleSubmit.
  destruct (Nat.ltb_spec (length (imageUrls (formData p))) 1) as [Hlt|Hge]; simpl.
  - rewrite Hj. split; [by intros []|lia].
  - destruct (js_lt _ _); simpl; [rewrite Hj; split; [by intros []|by intros []]|].
    split; [done|eauto].
Qed.

(** C30: Remove deletes the image at its index and keeps the others in
    order; the other fields of the form are unchanged. *)
Theorem remove_image_is_delete i p :
  formData (handleRemoveImage i p) = set_images (delete i (imageUrls (formData p))) (formData p) /\
  ((i < length (imageUrls (formData p)))%nat ->
   length (imageUrls (formData (handleRemoveImage i p))) = length (imageUrls (formData p)) - 1).
Proof.
  split.
  - simpl. by rewrite js_filter_skip_index.
  - intros Hi. rewrite handleRemoveImage_images. apply length_delete.
    by apply lookup_lt_is_Some_2.
Qed.

(** The server's decoder reads the body [handleSubmit] sends as the
    draft the form holds, and fails when a number field is [NaN] (sent as
    [null]) or the type is neither rent nor sale, whatever the [userRef]. *)
Lemma form_body_decodes fd u :
  draft_of_json (form_body fd u) = draft_of_form fd.
Proof.
  destruct fd as [imgs nm desc addr ty bed bath reg disc off park furn].
  unfold draft_of_json, draft_of_form, form_body, field_of, json_get. simpl.
  rewrite mapM_conv_string. simpl.
  destruct (listing_type_of_string ty); [|done].
  destruct bed, bath, reg, disc; reflexivity.
Qed.

(** C28: On the success envelope of specification 4.3,
    [{success: true, statusCode, data: listing}], the form navigates to
    [/listing/undefined]: it reads [data._id] at the top level of the
    envelope, where there is no [_id]. *)
Theorem success_envelope_navigates_undefined l p :
  location (submit_resolved (ok_data 200 (listing_to_json l)) p) = Some "/listing/undefined".
Proof. done. Qed.

(** C25: Where the form's price check and the server's disagree, exactly:
    on a form with one to six images and integer fields, with no request
    running, the form sends a body the server refuses exactly when the
    offer box is checked and the two prices are equal; and it refuses a
    form the server would accept exactly when there is no offer and the
    discount price is above the regular price. *)
Theorem client_server_price_checks_differ cu p d :
  submit_job p = None -> draft_of_form (formData p) = Some d ->
  (1 <= length (d_imageUrls d) <= 6)%nat ->
  (is_Some (submit_job (handleSubmit cu p)) /\ validate d = false <->
   d_offer d = true /\ d_discountPrice d = d_regularPrice d) /\
  (submit_job (handleSubmit cu p) = None /\ validate d = true <->
   d_offer d = false /\ (d_regularPrice d < d_discountPrice d)%Z).
Proof.
  intros Hj Hd Hlen. destruct (draft_of_form_fields _ _ Hd) as (Hr & Hdc & Hi & Ho).
  unfold handleSubmit. rewrite Hr, Hdc, Hi. simpl js_lt.
  destruct (Nat.ltb_spec (length (d_imageUrls d)) 1); [lia|].
  unfold validate, images_ok, prices_ok.
  rewrite (proj2 (Nat.leb_le 1 _)), (proj2 (Nat.leb_le _ 6)) by lia. simpl.
  destruct (d_offer d); [destruct (Z.ltb_spec (d_discountPrice d) (d_regularPrice d))|];
    destruct (Z.ltb_spec (d_regularPrice d) (d_discountPrice d)); simpl; rewrite ?Hj;
    unfold is_Some; naive_solver lia.
Qed.
(** C26: A form whose regular price is [NaN] (an emptied number input)
    passes the form's price check, since [NaN < x] is false, and is sent;
    the server cannot decode the body, whose price is [null]. *)
Theorem nan_price_passes_client_check cu p u :
  submit_job p = None -> (1 <= length (imageUrls (formData p)))%nat ->
  regularPrice (formData p) = JNaN ->
  submit_job (handleSubmit cu p) =
    Some (form_body (formData p) (json_get cu "_id")) /\
  draft_of_json (form_body (formData p) u) = None.
Proof.
  intros Hj Hlen Hnan. split.
  - unfold handleSubmit. rewrite Hnan.
    destruct (Nat.ltb_spec (length (imageUrls (formData p))) 1); [lia|done].
  - destruct (formData p) as [imgs nm desc addr ty bed bath reg disc off park furn].
    simpl in Hnan. subst reg.
    unfold draft_of_json, form_body, field_of, json_get. simpl.
    destruct (listing_type_of_string ty); [|done]. by destruct bed, bath.
Qed.

(** The view shows the discount price input exactly when the offer
    box is checked. *)
Theorem discount_input_iff_offer p :
  (exists v h, NumberInput "discountPrice" v h ∈ view p) <-> offer (formData p) = true.
Proof.
  split.
  - intros (v & h & Hin). remember (NumberInput "discountPrice" v h) as el eqn:Hel.
    unfold view in Hin. destruct (offer (formData p)); [done|].
    destruct (imageUploadError p), (json_truthy (error p));
      view_elem Hin elem_of_image_rows; try discriminate; by injection Hel.
  - intros Ho. exists (discountPrice (formData p)), (fun v => Change (ChNumber FDiscountPrice v)).
    unfold view. rewrite Ho. simpl. find_elem.
Qed.

(** C31: A submission can be triggered from the view exactly when the
    form is neither submitting nor uploading: the submit button is the only
    element whose action is [handleSubmit], and it is disabled while
    [loading || uploading]. *)
Theorem submit_fireable_iff p :
  (exists el a, el ∈ view p /\ fire el a = Some Submit) <->
  loading p = false /\ uploading p = false.
Proof.
  split.
  - intros (el & a & Hin & Hf). by apply (view_fire_guarded p el a Submit).
  - intros [Hl Hu]. exists (Button (if loading p then "Submitting..." else "Create Listing")
                                   (loading p || uploading p) Submit), Click.
    rewrite Hl, Hu. split; [|done]. unfold view. rewrite Hl, Hu. simpl. find_elem.
Qed.
(** ** Witnesses *)

Lemma trace_p3_reachable : reachable demo_user trace_p3.
Proof.
  unfold reachable.
  eapply rtc_l.
  { apply (step_ui demo_user initial_page (FileInput "images" SelectFiles) (Pick ["photo.jpg"]));
      [reflexivity| |reflexivity].
    unfold view. simpl. find_elem. }
  eapply rtc_l.
  { apply (step_ui demo_user trace_p1 (Button "Upload" false ClickUpload) Click);
      [reflexivity| |reflexivity].
    unfold view. simpl. find_elem. }
  eapply rtc_l.
  { apply (step_ui demo_user trace_p2 (TextInput "name" "" (fun v => Change (ChText FName v)))
             (Input "Villa")); [reflexivity| |reflexivity].
    unfold view. simpl. find_elem. }
  apply rtc_refl.
Qed.

Lemma trace_reachable : reachable demo_user trace_p4.
Proof.
  eapply rtc_r; [apply trace_p3_reachable|].
  apply (step_upload_ok demo_user trace_p3 ["photo.jpg"] initial_form); reflexivity.
Qed.

Lemma reachable_images_bounded_witness :
  (length (imageUrls (formData trace_p4)) <= 6)%nat /\
  (type (formData trace_p4) = "rent" \/ type (formData trace_p4) = "sale").
Proof. apply (reachable_images_bounded demo_user). apply trace_reachable. Defined.

Lemma upload_drops_concurrent_edit_witness :
  let p' := react demo_user (Change (ChText FName "Villa")) trace_p2 in
  name (formData p') = "Villa" /\
  name (formData (upload_resolved ["https://img/1"] p')) = name initial_form.
Proof. apply (upload_drops_concurrent_edit demo_user trace_p2 ["photo.jpg"]). reflexivity. Defined.

Lemma handleImageSubmit_starts_iff_witness :
  (is_Some (upload_job (handleImageSubmit trace_p1)) <->
   (0 < length (files trace_p1) /\
    length (files trace_p1) + length (imageUrls (formData trace_p1)) <= 6)%nat) /\
  (files trace_p1 = [] ->
   imageUploadError (handleImageSubmit trace_p1) = Some "You can upload up to 6 images per listing").
Proof. apply handleImageSubmit_starts_iff. reflexivity. Defined.

Lemma handleSubmit_sends_iff_witness :
  is_Some (submit_job (handleSubmit demo_user trace_p4)) <->
  (1 <= length (imageUrls (formData trace_p4)))%nat /\
  js_lt (regularPrice (formData trace_p4)) (discountPrice (formData trace_p4)) = false.
Proof. apply handleSubmit_sends_iff. reflexivity. Defined.

Lemma remove_image_is_delete_witness :
  formData (handleRemoveImage 0 trace_p4) =
    set_images (delete 0 (imageUrls (formData trace_p4))) (formData trace_p4) /\
  ((0 < length (imageUrls (formData trace_p4)))%nat ->
   length (imageUrls (formData (handleRemoveImage 0 trace_p4))) =
     length (imageUrls (formData trace_p4)) - 1).
Proof. apply remove_image_is_delete. Defined.

Lemma nan_price_passes_client_check_witness :
  let p := with_form (set_num FRegularPrice JNaN (set_images ["u"] initial_form)) initial_page in
  submit_job (handleSubmit demo_user p) = Some (form_body (formData p) (json_get demo_user "_id")) /\
  draft_of_json (form_body (formData p) None) = None.
Proof.
  intros p. apply nan_price_passes_client_check.
  - reflexivity.
  - simpl. lia.
  - reflexivity.
Defined.
Lemma client_server_price_checks_differ_witness :
  let p := with_form (set_num FDiscountPrice (JNum 50)
                        (set_bool FOffer true (set_images ["u"] initial_form))) initial_page in
  let d := mkDraft "" "" "" Rent 1 1 50 50 true false false ["u"] in
  (is_Some (submit_job (handleSubmit demo_user p)) /\ validate d = false <->
   d_offer d = true /\ d_discountPrice d = d_regularPrice d) /\
  (submit_job (handleSubmit demo_user p) = None /\ validate d = true <->
   d_offer d = false /\ (d_regularPrice d < d_discountPrice d)%Z).
Proof.
  intros p d. apply client_server_price_checks_differ.
  - reflexivity.
  - reflexivity.
  - simpl. lia.
Defined.

End CreateListing.
