(* ===== verification/FormProgress.v ===== *)
(** * Progress of the listing form's asynchronous work

    [handleImageSubmit] and [handleSubmit] of
    [src/client/src/pages/CreateListing.jsx] each start one piece of
    asynchronous work and finish it in a continuation: the [await
    Promise.all(promises)] of the upload (lines 38-48) and the [await
    fetch(...)] / [await response.json()] of the submission (lines
    101-119).  Here those continuations, the completions of the step
    relation [CreateListing.step], are a relation of their own.

    Theorems: a running upload or request is never replaced by another
    one (the buttons that start them are disabled while they run), and
    [loading] is set exactly while a request runs; completions alone
    always terminate, since each one retires a pending job; and whatever
    the completions do, once none is left the form is idle, with no job,
    [uploading] and [loading] both false. *)

From S2P Require Import Prelude Js Express Listing Controller CreateListingForm.
Import CreateListing.

(** ** Completions *)

(** The continuation of [handleImageSubmit]: [Promise.all] resolves with
    one URL per file, or one upload throws. *)
Inductive upload_completion : page -> page -> Prop :=
  | uc_resolved p fs snap urls :
      upload_job p = Some (fs, snap) -> length urls = length fs ->
      upload_completion p (upload_resolved urls p)
  | uc_rejected p job :
      upload_job p = Some job -> upload_completion p (upload_rejected p).

(** The continuation of [handleSubmit]: [response.json()] gives [data], or
    the request throws. *)
Inductive submit_completion : page -> page -> Prop :=
  | sc_resolved p body data :
      submit_job p = Some body -> submit_completion p (submit_resolved data p)
  | sc_rejected p body :
      submit_job p = Some body -> submit_completion p (submit_rejected p).

Definition completion (p p' : page) : Prop := upload_completion p p' \/ submit_completion p p'.

(** The number of jobs still running. *)
Definition pending (p : page) : nat :=
  (match upload_job p with Some _ => 1 | None => 0 end) +
  (match submit_job p with Some _ => 1 | None => 0 end).

(** No job runs and neither spinner is shown. *)
Definition idle (p : page) : Prop :=
  upload_job p = None /\ submit_job p = None /\ uploading p = false /\ loading p = false.

(** [loading] is set exactly while a request runs. *)
Definition loading_inv (p : page) : Prop :=
  match submit_job p with Some _ => loading p = true | None => loading p = false end.

(** ** Lemmas *)

Lemma completion_step cu p p' : completion p p' -> step cu p p'.
Proof.
  intros [[p0 fs snap urls Hj Hl|p0 job Hj]|[p0 body data Hj|p0 body Hj]];
    econstructor; eauto.
Qed.

Lemma rtc_completion_step cu p p' : rtc completion p p' -> rtc (step cu) p p'.
Proof. induction 1; [done|]. eapply rtc_l; [by apply (completion_step cu)|done]. Qed.

Lemma completion_pending p p' : completion p p' -> pending p' < pending p.
Proof.
  intros [[p0 fs snap urls Hj _|p0 job Hj]|[p0 body data Hj|p0 body Hj]];
    unfold pending, upload_resolved, submit_resolved; rewrite Hj; simpl;
    try destruct (json_truthy _); simpl; lia.
Qed.

Lemma nf_completion_iff p :
  nf completion p <-> upload_job p = None /\ submit_job p = None.
Proof.
  split.
  - intros Hnf. destruct (upload_job p) as [job|] eqn:Hu.
    + destruct Hnf. exists (upload_rejected p). left. by econstructor.
    + destruct (submit_job p) as [body|] eqn:Hs; [|done].
      destruct Hnf. exists (submit_rejected p). right. by econstructor.
  - intros [Hu Hs] [p' [Hc|Hc]]; destruct Hc; congruence.
Qed.

Lemma completion_dec p : red completion p \/ nf completion p.
Proof.
  destruct (upload_job p) as [job|] eqn:Hu.
  - left. exists (upload_rejected p). left. by econstructor.
  - destruct (submit_job p) as [body|] eqn:Hs.
    + left. exists (submit_rejected p). right. by econstructor.
    + right. by apply nf_completion_iff.
Qed.

(** The events of the view that leave the running request alone. *)
Lemma react_jobs cu ev p :
  ev <> Submit -> ev <> ClickUpload ->
  submit_job (react cu ev p) = submit_job p /\ loading (react cu ev p) = loading p /\
  upload_job (react cu ev p) = upload_job p.
Proof. intros Hs Hc. destruct ev as [| |i|[]| |]; simpl; try congruence; repeat split. Qed.

Lemma step_loading_inv cu p p' : step cu p p' -> form_inv p -> loading_inv p -> loading_inv p'.
Proof.
  intros Hs Hinv Hl. destruct Hs as [p el a ev _ Hin Hf|p fs snap urls Hj _|p job Hj|p b data Hj|p b Hj].
  - destruct (view_fire_guarded p el a ev Hin Hf) as [Hsub Hup].
    assert (Hother : ev <> Submit -> ev <> ClickUpload -> loading_inv (react cu ev p))
      by (intros Hns Hnc; unfold loading_inv; by destruct (react_jobs cu ev p Hns Hnc) as (-> & -> & _)).
    destruct ev as [fs| |i|e| |]; try (apply Hother; discriminate).
    + unfold loading_inv in *. simpl. unfold handleImageSubmit. by destruct (_ && _).
    + destruct (Hsub eq_refl) as [Hlf _]. unfold loading_inv in *. simpl.
      unfold handleSubmit. destruct (_ <? 1); [|destruct (js_lt _ _)]; simpl; done.
  - unfold loading_inv, upload_resolved in *. by rewrite Hj.
  - done.
  - unfold loading_inv, submit_resolved. by destruct (json_truthy _).
  - done.
Qed.

Lemma reachable_loading_inv cu p : reachable cu p -> loading_inv p.
Proof.
  unfold reachable. revert p. apply rtc_ind_r; [done|].
  intros y z Hy Hyz Hl. eapply step_loading_inv; [exact Hyz| |exact Hl].
  by apply (reachable_inv cu).
Qed.

Lemma handleSubmit_upload_job cu p : upload_job (handleSubmit cu p) = upload_job p.
Proof. unfold handleSubmit. by destruct (_ <? 1); [|destruct (js_lt _ _)]. Qed.

(** In a reachable state, [uploading] and [loading] show exactly the
    running jobs. *)
Lemma reachable_flags cu p :
  reachable cu p ->
  (uploading p = true <-> is_Some (upload_job p)) /\
  (loading p = true <-> is_Some (submit_job p)).
Proof.
  intros Hr. pose proof (reachable_inv cu p Hr) as (_ & _ & Hu).
  pose proof (reachable_loading_inv cu p Hr) as Hl. unfold loading_inv in Hl.
  split; [destruct (upload_job p) as [[fs snap]|]; [destruct Hu as (_ & _ & ->)|rewrite Hu]
         |destruct (submit_job p); rewrite Hl];
    split; intros H; try done; by destruct H.
Qed.

(** ** Properties *)

(** C20: In every reachable state of the form, [uploading] is set exactly
    while an upload runs and [loading] exactly while a request runs, and
    no step replaces a running upload or request by another one: each step
    either keeps it or is its own completion, because the buttons that
    start them are disabled while they run. *)
Theorem jobs_never_replaced cu p p' :
  reachable cu p -> step cu p p' ->
  (uploading p = true <-> is_Some (upload_job p)) /\
  (loading p = true <-> is_Some (submit_job p)) /\
  (forall job, upload_job p = Some job -> upload_job p' = Some job \/ upload_completion p p') /\
  (forall body, submit_job p = Some body -> submit_job p' = Some body \/ submit_completion p p').
Proof.
  intros Hr Hs. destruct (reachable_flags cu p Hr) as [Hu Hl]. do 2 (split; [done|]).
  destruct Hs as [p el a ev _ Hin Hf|p fs snap urls Hj Hlen|p job Hj|p b data Hj|p b Hj].
  - destruct (view_fire_guarded p el a ev Hin Hf) as [Hsub Hup].
    assert (Hother : ev <> Submit -> ev <> ClickUpload ->
              upload_job (react cu ev p) = upload_job p /\ submit_job (react cu ev p) = submit_job p)
      by (intros Hns Hnc; by destruct (react_jobs cu ev p Hns Hnc) as (-> & _ & ->)).
    destruct ev as [fs| |i|e| |];
      try (destruct Hother as [-> ->]; [discriminate|discriminate|split; intros; by left]).
    + split; intros job Hj; [|left; simpl; unfold handleImageSubmit; by destruct (_ && _)].
      rewrite (Hup eq_refl) in Hu. assert (false = true) by (apply Hu; by exists job). done.
    + destruct (Hsub eq_refl) as [Hlf _]. split; intros x Hx; left.
      * simpl. by rewrite handleSubmit_upload_job.
      * rewrite Hlf in Hl. assert (false = true) by (apply Hl; by exists x). done.
  - split; intros x Hx; [right; by econstructor|left].
    unfold upload_resolved. by rewrite Hj.
  - split; intros x Hx; [right; by econstructor|by left].
  - split; intros x Hx; [left|right; by econstructor].
    unfold submit_resolved. by destruct (json_truthy _).
  - split; intros x Hx; [by left|right; by econstructor].
Qed.

(** C22: Completions alone always terminate: from any state, every
    sequence of upload and request completions is finite, since each
    retires one of the at most two running jobs. *)
Theorem completions_terminate p : sn completion p.
Proof. apply (sn_measure completion pending), completion_pending. Qed.

(** C21: From every reachable state, the running work settles: some
    sequence of completions leads to a state where none is left, and
    every such state, reached by completions alone, is reachable and
    idle (no job, [uploading] and [loading] false), so the spinners of
    the form are never stuck. *)
Theorem reachable_settles cu p :
  reachable cu p ->
  (exists p', rtc completion p p' /\ nf completion p') /\
  (forall p', rtc completion p p' -> nf completion p' -> reachable cu p' /\ idle p').
Proof.
  intros Hr. split.
  - apply sn_rtc_nf; [apply completion_dec|].
    apply (sn_measure completion pending), completion_pending.
  - intros p' Hc Hnf.
    assert (Hr' : reachable cu p')
      by (unfold reachable in *; etrans; [exact Hr|by apply (rtc_completion_step cu)]).
    split; [done|]. apply nf_completion_iff in Hnf as [Hu Hs].
    destruct (reachable_flags cu p' Hr') as [Hup Hlo].
    repeat split; try done.
    + destruct (uploading p') eqn:E; [|done]. rewrite Hu in Hup. by destruct (proj1 Hup eq_refl).
    + destruct (loading p') eqn:E; [|done]. rewrite Hs in Hlo. by destruct (proj1 Hlo eq_refl).
Qed.

(** ** Witnesses *)

Lemma jobs_never_replaced_witness :
  (uploading trace_p3 = true <-> is_Some (upload_job trace_p3)) /\
  (loading trace_p3 = true <-> is_Some (submit_job trace_p3)) /\
  (forall job, upload_job trace_p3 = Some job ->
     upload_job (upload_rejected trace_p3) = Some job \/
     upload_completion trace_p3 (upload_rejected trace_p3)) /\
  (forall body, submit_job trace_p3 = Some body ->
     submit_job (upload_rejected trace_p3) = Some body \/
     submit_completion trace_p3 (upload_rejected trace_p3)).
Proof.
  apply (jobs_never_replaced demo_user).
  - apply trace_p3_reachable.
  - apply (step_upload_fail demo_user trace_p3 (["photo.jpg"], initial_form)). reflexivity.
Defined.

Lemma reachable_settles_witness :
  (exists p', rtc completion trace_p3 p' /\ nf completion p') /\
  (forall p', rtc completion trace_p3 p' -> nf completion p' -> reachable demo_user p' /\ idle p').
Proof. apply reachable_settles. apply trace_p3_reachable. Defined.
