(* ===== verification/Submission.v ===== *)
(** * A submission of the listing form, handled by the server

    [handleSubmit] of [src/client/src/pages/CreateListing.jsx] (lines
    86-119) sends [fetch('/api/listing/create', {method: 'POST', body})]
    and reads the answer with [await response.json()].  The request goes
    to the server of [src/api/index.js]: a same-origin [fetch] carries the
    page's cookies, so the [access_token] cookie of the browser reaches
    [verifyToken].  [fetch] resolves on every HTTP status; only a body that
    is not JSON makes [response.json()] throw into the [catch].

    [submission] composes the three: the click on Submit ([handleSubmit]
    up to the [fetch]), the request handled by [App.app] on the store, and
    the continuation of [handleSubmit] on the answer ([fetch_completion]).

    Theorem: for a form the client check lets through, the outcome is
    decided by the cookie and the draft: without the token the store is
    unchanged and the form shows the gate's message ("Unauthorized" or
    "Forbidden"); with it, a form that stands for a valid draft is stored
    as a new listing owned by ["admin"], whatever [currentUser._id] the
    body carries, and the form navigates to [/listing/undefined]; any
    other form is refused with the message "ValidationError" and the store
    unchanged.  In every case [loading] is reset and no request is left
    running. *)

From S2P Require Import Prelude Js Express Listing Auth Controller App CreateListingForm.
Import CreateListing.

(** ** The round trip *)

(** [fetch('/api/listing/create', { method: 'POST', headers, body })] *)
Definition create_request (cookies : list (string * string)) (body : json) : request :=
  incoming POST ["api"; "listing"; "create"] cookies [] body.

(** [const data = await response.json()] and what follows: the [try] on a
    JSON answer, the [catch] when the body is not JSON. *)
Definition fetch_completion (res : response) (p : page) : page :=
  match res_body res with
  | BJson data => submit_resolved data p
  | _ => submit_rejected p
  end.

(** Submit clicked on page [p], the request served on store [s], and the
    answer read back. *)
Definition submission (ur ar : list (route_layer db)) (dist : list (list string))
    (cookies : list (string * string)) (currentUser : json) (p : page) (s : db) : page * db :=
  let p1 := handleSubmit currentUser p in
  match submit_job p1 with
  | Some body =>
      (fetch_completion (fst (handle (app ur ar dist) (create_request cookies body) s)) p1,
       snd (handle (app ur ar dist) (create_request cookies body) s))
  | None => (p1, s)
  end.

(** What the form shows after the server refused it with [e]. *)
Definition refused_with (e : string) (p : page) (s s' : db) : Prop :=
  s' = s /\ location p = None /\ error p = Some (JString e).

(** ** Lemmas *)

(** The click on Submit of a form the client check lets through. *)
Lemma handleSubmit_sends cu p :
  (1 <= length (imageUrls (formData p)))%nat ->
  js_lt (regularPrice (formData p)) (discountPrice (formData p)) = false ->
  handleSubmit cu p =
    mkPage (files p) (formData p) (imageUploadError p) (uploading p) None true (upload_job p)
      (Some (form_body (formData p) (json_get cu "_id"))) (location p).
Proof.
  intros Hlen Hlt. unfold handleSubmit.
  destruct (Nat.ltb_spec (length (imageUrls (formData p))) 1); [lia|]. by rewrite Hlt.
Qed.

(** The form reading the answer to a refused request. *)
Lemma fetch_completion_error e p :
  fetch_completion (error_response e) p =
    mkPage (files p) (formData p) (imageUploadError p) (uploading p)
      (Some (JString (str_or (err_message e) "Internal Server Error"))) false (upload_job p) None
      (location p).
Proof. reflexivity. Qed.

(** Whatever the answer, reading it ends the request and the spinner. *)
Lemma fetch_completion_settles res p :
  loading (fetch_completion res p) = false /\ submit_job (fetch_completion res p) = None.
Proof.
  unfold fetch_completion, submit_resolved, submit_rejected. by repeat case_match.
Qed.

(** ** Properties *)

(** C27: A submission of a form the client check lets through, from a
    page still on screen, served
    by [index.js] on a connected, well-formed store: without the static
    token the store is unchanged and the form shows the gate's message;
    with it, a form that stands for a valid draft is stored as a fresh
    listing owned by ["admin"] (whatever [currentUser._id] the body
    carries) and the form navigates to [/listing/undefined], and any other
    form is refused with "ValidationError", store unchanged.  In every case
    [loading] is reset and no request is left running. *)
Theorem submission_against_server ur ar dist cookies cu p s :
  submit_job p = None -> location p = None -> db_connected s = true -> db_wf s ->
  (1 <= length (imageUrls (formData p)))%nat ->
  js_lt (regularPrice (formData p)) (discountPrice (formData p)) = false ->
  let '(p', s') := submission ur ar dist cookies cu p s in
  loading p' = false /\ submit_job p' = None /\
  (cookies.["access_token"] <> Some staticToken ->
   refused_with "Unauthorized" p' s s' \/ refused_with "Forbidden" p' s s') /\
  (cookies.["access_token"] = Some staticToken ->
   match draft_of_form (formData p) with
   | Some d =>
       if validate d
       then location p' = Some "/listing/undefined" /\
            exists l, db_listings s !! l_id l = None /\
              db_listings s' = <[l_id l := l]> (db_listings s) /\
              l_draft l = d /\ l_userRef l = "admin"
       else refused_with "ValidationError" p' s s'
   | None => refused_with "ValidationError" p' s s'
   end).
Proof.
  intros Hj Hloc Hup Hwf Hlen Hlt. unfold submission, refused_with. rewrite (handleSubmit_sends cu p Hlen Hlt).
  simpl submit_job. cbv iota. do 2 (split; [apply fetch_completion_settles|]).
  unfold create_request. rewrite handle_create, gated_run.
  set (r := mkRequest POST ["create"] cookies [] (form_body (formData p) (json_get cu "_id")) [] None).
  destruct (token_ok r) eqn:Hok.
  - apply token_ok_true in Hok. simpl in Hok.
    rewrite run_handlers_one by (apply controller_terminal; tauto).
    split; [done|intros _].
    unfold createListing. simpl req_body. rewrite form_body_decodes.
    destruct (draft_of_form (formData p)) as [d|];
      [|cbn [fst snd answer]; by rewrite fetch_completion_error].
    destruct (validate d) eqn:Hv; cbn [negb];
      [|cbn [fst snd answer]; by rewrite fetch_completion_error].
    simpl. rewrite db_query_up by done. split; [done|].
    exists (new_listing s "admin" d). destruct (insert_new_fresh s "admin" d Hwf) as [Hfresh _].
    by repeat split.
  - simpl fst. simpl snd. rewrite verifyToken_denied by done.
    cbn [fst snd answer]. rewrite fetch_completion_error. split.
    + intros _. by destruct (opt_str_truthy _); [right|left].
    + intros Hc. exfalso. assert (token_ok r = true) by (by apply token_ok_true). congruence.
Qed.

(** ** Witnesses *)

Lemma submission_against_server_witness :
  let p := with_form (set_images ["https://img/1"] initial_form) initial_page in
  let '(p', s') := submission [] [] [] token_cookie demo_user p sample_db in
  loading p' = false /\ submit_job p' = None /\
  (token_cookie.["access_token"] <> Some staticToken ->
   refused_with "Unauthorized" p' sample_db s' \/ refused_with "Forbidden" p' sample_db s') /\
  (token_cookie.["access_token"] = Some staticToken ->
   match draft_of_form (formData p) with
   | Some d =>
       if validate d
       then location p' = Some "/listing/undefined" /\
            exists l, db_listings sample_db !! l_id l = None /\
              db_listings s' = <[l_id l := l]> (db_listings sample_db) /\
              l_draft l = d /\ l_userRef l = "admin"
       else refused_with "ValidationError" p' sample_db s'
   | None => refused_with "ValidationError" p' sample_db s'
   end).
Proof.
  intros p. apply (submission_against_server [] [] [] token_cookie demo_user p sample_db).
  - reflexivity.
  - reflexivity.
  - reflexivity.
  - apply sample_db_wf.
  - simpl. lia.
  - reflexivity.
Defined.
