(* ===== verification/ClientViews.v ===== *)
(** * Route guard, admin dashboard and client API helpers

    - [PrivateRoute] ([src/client/src/components/PrivateRoute.jsx]): sends
      a visitor without [currentUser] to [/sign-in], sends a user whose
      [id] is not ["admin"] away from an admin route, and renders the
      nested route otherwise.
    - [AdminDashboard] ([src/client/src/pages/AdminDashboard.jsx]): its
      state [listings] is whatever [res.data] the admin listing request
      returned; [handleDelete] removes the entry with that [_id] once the
      delete request succeeds (axios rejects every status outside
      200..299); the view maps over [listings] and throws a [TypeError]
      when it is not an array.  [dash_step] runs the component against
      the server: the fetch sent on mount, a Delete clicked on a rendered
      card, and each response handled by [App.app] on the shared store
      when it arrives, in any order.
    - [api.js] ([src/client/src/utils/api.js]): the requests its two
      helpers send, relative to [http://localhost:3000/api].

    Theorems: the decision table of the route guard; that on this server the
    dashboard's delete request always fails, so nothing is removed; that
    the dashboard cannot render the admin listing answer; that the two
    helpers of [api.js] name no route of the server; and that the dashboard
    running against the server never shows a listing, so no Delete is ever
    clicked and the store never changes. *)

From S2P Require Import Prelude Js Express Listing Auth Controller App.

(** ** [PrivateRoute] *)

Inductive route_element := NavigateTo (path : string) | RenderOutlet.

Definition PrivateRoute (isAdminRoute : bool) (currentUser : option json) : route_element :=
  match currentUser with
  | None => NavigateTo "/sign-in"
  | Some u =>
      if isAdminRoute && negb (js_eq_string (json_get u "id") "admin")
      then NavigateTo "/" else RenderOutlet
  end.

(** ** [AdminDashboard] *)

(** [listing._id !== id] *)
Definition keep_other (id : string) (x : json) : bool :=
  negb (js_eq_string (json_get x "_id") id).

(** The [setListings] updater of [handleDelete]: [prev.filter(...)];
    [None] when [prev] is not an array ([TypeError]). *)
Definition remove_listing (id : string) (listings : json) : option json :=
  match listings with
  | JArray l => Some (JArray (List.filter (keep_other id) l))
  | _ => None
  end.

(** axios resolves for a 2xx status only. *)
Definition axios_ok (res : response) : bool :=
  ((200 <=? res_status res) && (res_status res <? 300))%Z.

(** [handleDelete(id)] once the request settled with [res]. *)
Definition handleDelete (id : string) (res : response) (listings : json) : option json :=
  if axios_ok res then remove_listing id listings else Some listings.

(** [fetchListings] once the request settled: [setListings(res.data)]. *)
Definition fetchListings (res : response) (listings : json) : json :=
  if axios_ok res then match res_body res with BJson v => v | _ => listings end
  else listings.

(** One card of the dashboard: title, description and the delete button's id. *)
Record card := mkCard { card_title : string; card_description : string; card_id : string }.

(** [{listings.map((listing) => ...)}]: [None] when [listings] is not an
    array; missing fields render as the empty text. *)
Definition text_of (o : option json) : string :=
  match o with Some JNull | None => "" | Some v => json_to_js_string v end.

Definition dashboard_view (listings : json) : option (list card) :=
  match listings with
  | JArray l => Some (map (fun x => mkCard (text_of (json_get x "title"))
                                          (text_of (json_get x "description"))
                                          (text_of (json_get x "_id"))) l)
  | _ => None
  end.

(** The request [handleDelete] sends: [axios.delete(`/api/admin/listings/${id}`)],
    with the browser's cookies. *)
Definition dashboard_delete_request (id : string) (cookies : list (string * string)) : request :=
  incoming DELETE ["api"; "admin"; "listings"; id] cookies [] JNull.

Definition dashboard_fetch_request (cookies : list (string * string)) : request :=
  incoming GET ["api"; "admin"; "listings"] cookies [] JNull.

(** The dashboard's state: [listings] of [useState([])], and the
    requests in flight, [fetchListings]'s and one per clicked Delete. *)
Record dashboard := mkDashboard {
  listings : json;
  fetching : bool;
  deleting : list string
}.

(** [useState([])] and the [useEffect(..., [])] that calls
    [fetchListings()] once, when the component mounts. *)
Definition dashboard_mount : dashboard := mkDashboard (JArray []) true [].

(** The dashboard running against the server: the browser sends the
    requests with the same cookies, the server handles each one when it
    arrives, and the responses come back in any order.  A Delete can only
    be clicked on a card the dashboard renders. *)
Section Dashboard.
  Variables (ur ar : list (route_layer db)) (dist : list (list string))
            (cookies : list (string * string)).

Inductive dash_step : dashboard * db -> dashboard * db -> Prop :=
  | ds_fetched d s :
      fetching d = true ->
      dash_step (d, s)
        (mkDashboard (fetchListings (fst (handle (app ur ar dist) (dashboard_fetch_request cookies) s))
                                    (listings d)) false (deleting d),
         snd (handle (app ur ar dist) (dashboard_fetch_request cookies) s))
  | ds_click d s cards c :
      dashboard_view (listings d) = Some cards -> c ∈ cards ->
      dash_step (d, s) (mkDashboard (listings d) (fetching d) (card_id c :: deleting d), s)
  | ds_deleted d s i id ls' :
      deleting d !! i = Some id ->
      handleDelete id (fst (handle (app ur ar dist) (dashboard_delete_request id cookies) s))
        (listings d) = Some ls' ->
      dash_step (d, s)
        (mkDashboard ls' (fetching d) (delete i (deleting d)),
         snd (handle (app ur ar dist) (dashboard_delete_request id cookies) s)).
End Dashboard.

(** What the dashboard can show against this server: nothing was deleted
    or clicked, and the list is either still empty or the envelope object
    that [listings.map] cannot render. *)
Definition dashboard_inv (s0 : db) (st : dashboard * db) : Prop :=
  snd st = s0 /\ deleting (fst st) = [] /\
  (listings (fst st) = JArray [] \/ dashboard_view (listings (fst st)) = None).

(** ** [api.js] *)

(** [api.delete(`/listing/${id}`)] *)
Definition api_deleteListing (id : string) (cookies : list (string * string)) : request :=
  incoming DELETE ["api"; "listing"; id] cookies [] JNull.

(** [api.get('/listing')] *)
Definition api_getListings (cookies : list (string * string)) : request :=
  incoming GET ["api"; "listing"] cookies [] JNull.

(** ** Properties *)

Lemma dash_step_inv ur ar dist cookies s0 st st' :
  dash_step ur ar dist cookies st st' -> dashboard_inv s0 st -> dashboard_inv s0 st'.
Proof.
  intros Hs (Hst & Hdel & Hl). destruct Hs as [d s Hf|d s cards c Hv Hc|d s i id ls' Hi Hd]; simpl in *.
  - unfold dashboard_fetch_request. rewrite handle_admin_list. simpl.
    split; [done|]. split; [done|]. unfold fetchListings, axios_ok.
    destruct (db_connected s); simpl; [by right|done].
  - exfalso. destruct Hl as [Hl|Hl]; rewrite Hl in Hv; [|done].
    injection Hv as <-. by apply not_elem_of_nil in Hc.
  - by rewrite Hdel in Hi.
Qed.

(** C32: [PrivateRoute] renders the nested route exactly when a user is
    signed in and, on an admin route, that user's [id] is the string
    ["admin"]. *)
Theorem private_route_renders_iff isAdminRoute cu :
  PrivateRoute isAdminRoute cu = RenderOutlet <->
  exists u, cu = Some u /\
    (isAdminRoute = true -> json_get u "id" = Some (JString "admin")).
Proof.
  unfold PrivateRoute. destruct cu as [u|]; [|split; [done|by intros (? & ? & _)]].
  destruct isAdminRoute; simpl.
  - unfold js_eq_string. destruct (json_get u "id") as [[| | |t| |]|] eqn:E; simpl;
      try (split; [done|intros (u' & [= <-] & H); specialize (H eq_refl); congruence]).
    destruct (String.eqb_spec t "admin") as [->|Hne]; simpl.
    + split; [|done]. intros _. by exists u.
    + split; [done|]. intros (u' & [= <-] & H). specialize (H eq_refl). congruence.
  - split; [|done]. intros _. by exists u.
Qed.

(** C33: On this server the dashboard's Delete never removes anything:
    whatever the cookies, [DELETE /api/admin/listings/:id] answers 404 or
    500, axios rejects, and both the dashboard's list and the store stay
    as they were. *)
Theorem dashboard_delete_never_succeeds ur ar dist id c s listings :
  id <> "" ->
  let '(res, s') := handle (app ur ar dist) (dashboard_delete_request id c) s in
  axios_ok res = false /\ handleDelete id res listings = Some listings /\ s' = s.
Proof.
  intros Hid. unfold dashboard_delete_request. rewrite handle_admin_delete by done.
  unfold handleDelete, axios_ok, error_response, admin_delete_error.
  destruct (db_connected s); simpl; [|done]. by destruct (db_listings s !! id).
Qed.

(** C34: The dashboard cannot render the answer of the admin listing
    route: with the database connected, [res.data] is the envelope
    object, not an array, so [listings.map] throws. *)
Theorem dashboard_cannot_render_admin_answer ur ar dist c s listings :
  db_connected s = true ->
  dashboard_view (fetchListings (fst (handle (app ur ar dist) (dashboard_fetch_request c) s))
                                listings) = None.
Proof. intros Hup. unfold dashboard_fetch_request. by rewrite handle_admin_list, Hup. Qed.

(** C35: The two helpers of [api.js] name no route of the server:
    [DELETE /api/listing/:id] falls through every layer to the 404 of the
    final handler, and [GET /api/listing] is answered by the catch-all with
    [index.html] (unless a file of that name is in [client/dist]). *)
Theorem api_helpers_unrouted ur ar dist id c s :
  handle (app ur ar dist) (api_deleteListing id c) s =
    (mkResponse 404 (BText "Cannot handle request"), s) /\
  (["api"; "listing"] ∉ dist ->
   handle (app ur ar dist) (api_getListings c) s =
     (mkResponse 200 (BFile ["client"; "dist"; "index.html"]), s)).
Proof.
  split.
  - unfold api_deleteListing, handle, app. simpl.
    unfold route_match, match_pattern, match_segs. simpl. by repeat case_if.
  - intros Hd. unfold api_getListings, handle, app. simpl.
    unfold serve_static. simpl. rewrite bool_decide_eq_false_2 by done. done.
Qed.

(** C37: The admin dashboard, run against this server in any order of
    request completions, never shows a listing and never changes the
    store: its list stays the initial empty array (the fetch failed) or
    becomes the envelope object that [listings.map] cannot render, so no
    Delete can ever be clicked. *)
Theorem dashboard_never_shows_or_deletes ur ar dist cookies s0 d s :
  rtc (dash_step ur ar dist cookies) (dashboard_mount, s0) (d, s) ->
  s = s0 /\ deleting d = [] /\
  (dashboard_view (listings d) = Some [] \/ dashboard_view (listings d) = None).
Proof.
  intros Hr.
  assert (Hinv : dashboard_inv s0 (d, s)).
  { remember (dashboard_mount, s0) as st0 eqn:E. remember (d, s) as st eqn:E'.
    clear E'. revert st Hr. apply rtc_ind_r.
    - subst st0. unfold dashboard_inv. simpl. split; [done|]. split; [done|]. by left.
    - intros y z _ Hyz Hy. by eapply dash_step_inv. }
  destruct Hinv as (Hst & Hdel & [Hl|Hl]); simpl in *; split; try done; split; try done.
  - left. by rewrite Hl.
  - by right.
Qed.

(** ** Witnesses *)

Lemma private_route_renders_iff_witness :
  PrivateRoute true (Some (JObject [("_id", JString "u1")])) = RenderOutlet <->
  exists u, Some (JObject [("_id", JString "u1")]) = Some u /\
    (true = true -> json_get u "id" = Some (JString "admin")).
Proof. apply private_route_renders_iff. Defined.

Lemma dashboard_delete_never_succeeds_witness :
  let '(res, s') := handle (app [] [] []) (dashboard_delete_request "0" []) sample_db in
  axios_ok res = false /\ handleDelete "0" res (JArray []) = Some (JArray []) /\ s' = sample_db.
Proof. apply dashboard_delete_never_succeeds. discriminate. Defined.

Lemma api_helpers_unrouted_witness :
  handle (app [] [] []) (api_deleteListing "0" []) sample_db =
    (mkResponse 404 (BText "Cannot handle request"), sample_db) /\
  (["api"; "listing"] ∉ @nil (list string) ->
   handle (app [] [] []) (api_getListings []) sample_db =
     (mkResponse 200 (BFile ["client"; "dist"; "index.html"]), sample_db)).
Proof. apply api_helpers_unrouted. Defined.

Lemma dashboard_cannot_render_admin_answer_witness :
  dashboard_view (fetchListings (fst (handle (app [] [] []) (dashboard_fetch_request []) sample_db))
                                (JArray [])) = None.
Proof. apply dashboard_cannot_render_admin_answer. reflexivity. Defined.

Lemma dashboard_never_shows_or_deletes_witness :
  let st := (mkDashboard (fetchListings (fst (handle (app [] [] []) (dashboard_fetch_request []) sample_db))
                                        (JArray [])) false [],
             snd (handle (app [] [] []) (dashboard_fetch_request []) sample_db)) in
  snd st = sample_db /\ deleting (fst st) = [] /\
  (dashboard_view (listings (fst st)) = Some [] \/ dashboard_view (listings (fst st)) = None).
Proof.
  apply (dashboard_never_shows_or_deletes [] [] [] []).
  apply rtc_once. apply (ds_fetched [] [] [] [] dashboard_mount sample_db). reflexivity.
Defined.
